(** * GymMatchMate: gym match scorer, user-match handshake and message channel

    A shallow embedding of [server/storage.ts] (class [MemStorage]),
    [server/database-storage.ts] (class [DatabaseStorage]), the schema in
    [shared/schema.ts] and the match / message handlers of [server/routes.ts].

    Conventions of the embedding:
    - a JavaScript [number] that only ever holds an integer is a [Z]; the
      fractional arithmetic of the [MemStorage] scorer is carried out in
      exact rationals [Q], where the source computes in binary64: every
      operand is a small integer or a ratio of two list lengths, and the
      statements below are bounds that rounding preserves or values that
      binary64 represents exactly; the product [Math.random() * 15] of
      the [DatabaseStorage] scorer is rounded to binary64 as the source
      rounds it ([Binary64]);
    - strings are [string]; [toLowerCase] folds the ASCII letters and
      [length] counts code units, which is exact for ASCII labels;
    - [new Date()] and SQL [defaultNow()] read a clock value that is passed
      in explicitly as [now];
    - [Math.random()] reads from an explicit stream of draws;
    - a table is the list of its rows in one of the orders the database
      may return them in, and a handler runs from its first statement to
      its last with no other request in between; where a statement would
      depend on the order of rows that tie, or on what another request
      does between two awaited steps, that is said in the statement;
    - a thrown exception is the [Threw] outcome of [JsResult]. *)

From Stdlib Require Import List String Ascii ZArith QArith Qround Lia Bool.
From Stdlib Require Import DecimalString Permutation.
From Stdlib Require Import Sorted Lqa Qpower.
Import ListNotations.

Local Open Scope string_scope.
Local Open Scope Z_scope.

(** ** JavaScript string primitives used by the sources *)

Module JsString.

(** [c.toLowerCase()] on one ASCII code unit. *)
Definition lowerChar (c : ascii) : ascii :=
  let n := nat_of_ascii c in
  if (Nat.leb 65 n && Nat.leb n 90)%bool then ascii_of_nat (n + 32) else c.

(** [s.toLowerCase()]. *)
Fixpoint toLowerCase (s : string) : string :=
  match s with
  | EmptyString => EmptyString
  | String c s' => String (lowerChar c) (toLowerCase s')
  end.

(** [s.startsWith(p)]. *)
Fixpoint startsWith (s p : string) : bool :=
  match p, s with
  | EmptyString, _ => true
  | String _ _, EmptyString => false
  | String a p', String b s' => (Ascii.eqb a b && startsWith s' p')%bool
  end.

(** [s.includes(sub)]: [sub] occurs in [s] as a contiguous substring; the
    empty string occurs in every string. *)
Fixpoint includes (s sub : string) : bool :=
  (startsWith s sub ||
   match s with
   | EmptyString => false
   | String _ s' => includes s' sub
   end)%bool.

(** [s.split(' ')]: the words between single spaces; a string without a
    space is one word, and the empty string gives one empty word. *)
Fixpoint split_space (s : string) : list string :=
  match s with
  | EmptyString => [EmptyString]
  | String c s' =>
      if Ascii.eqb c " "%char then EmptyString :: split_space s'
      else match split_space s' with
           | [] => [String c EmptyString]
           | w :: ws => String c w :: ws
           end
  end.

End JsString.

(** ** Outcomes of a JavaScript call *)

Inductive JsError : Type :=
| TypeError (msg : string)
| Error (msg : string).

Inductive JsResult (A : Type) : Type :=
| Returned (a : A)
| Threw (e : JsError).

Arguments Returned {A} a.
Arguments Threw {A} e.

Definition bindJs {A B : Type} (r : JsResult A) (k : A -> JsResult B) : JsResult B :=
match r with
| Returned a => k a
| Threw e => Threw e
end.

Notation "x <- c ;; k" := (bindJs c (fun x => k))
(at level 61, c at next level, right associativity).

(** ** Data model ([shared/schema.ts]) *)

(** Column [text(..).array()] without [notNull()]: the array may be [null]. *)
Definition TextArray : Type := option (list string).

Module User.
Record t : Type := mk {
  id : Z;
  username : string;
  name : string;
  fitnessGoals : TextArray;
  gymPreferences : TextArray;
  isAdmin : bool
}.
End User.

Module Gym.
Record t : Type := mk {
  id : Z;
  name : string;
  amenities : TextArray
}.
End Gym.

(** [Gym & { matchScore: number }]. *)
Module GymMatch.
Record t : Type := mk {
  gym : Gym.t;
  matchScore : Z
}.
End GymMatch.

Module SavedGym.
Record t : Type := mk {
  id : Z;
  userId : Z;
  gymId : Z;
  matchScore : option Z;
  savedAt : Z
}.
End SavedGym.

(** The optional, nullable [matchScore] of an insert payload. *)
Inductive OptNum : Type :=
| Undefined
| Null
| Num (n : Z).

Module InsertSavedGym.
Record t : Type := mk {
  userId : Z;
  gymId : Z;
  matchScore : OptNum
}.
End InsertSavedGym.

Module UserMatch.
Record t : Type := mk {
  id : Z;
  senderId : Z;
  receiverId : Z;
  status : string;
  matchScore : option Z;
  createdAt : Z;
  updatedAt : Z
}.
End UserMatch.

(** [insertUserMatchSchema] omits [id], [status], [createdAt], [updatedAt]. *)
Module InsertUserMatch.
Record t : Type := mk {
  senderId : Z;
  receiverId : Z;
  matchScore : option Z
}.
End InsertUserMatch.

Module Message.
Record t : Type := mk {
  id : Z;
  senderId : Z;
  receiverId : Z;
  content : string;
  read : bool;
  createdAt : Z
}.
End Message.

(** [insertMessageSchema] omits [id], [read], [createdAt]. *)
Module InsertMessage.
Record t : Type := mk {
  senderId : Z;
  receiverId : Z;
  content : string
}.
End InsertMessage.

(** ** JavaScript numbers of the scorer *)

(** Binary64 values as the rationals they denote. [round x] is the finite
    binary64 value nearest to [x], a tie going to the even significand, and
    [truncate x] the nearest one toward zero: 53 significant bits, and
    multiples of [2^-1074] below [2^-1022]. Overflow to an infinity is out
    of reach of the numbers rounded here, which stay below 16. *)
Module Binary64.

Definition pow2 (e : Z) : Q := (2 ^ e)%Q.

(** The exponent [e] with [2^e <= x < 2^(e+1)], for [x > 0]. *)
Definition binade (x : Q) : Z :=
  let e0 := Z.log2 (Qnum x) - Z.log2 (Zpos (Qden x)) in
  if Qle_bool (pow2 e0) x then e0 else e0 - 1.

(** The distance between neighbouring binary64 values at [x]. *)
Definition ulp (x : Q) : Q := pow2 (Z.max (binade x - 52) (-1074)).

(** The integer nearest to [q], a tie going to the even one. *)
Definition nearestEven (q : Q) : Z :=
  let f := Qfloor q in
  match (q - inject_Z f ?= 1 # 2)%Q with
  | Lt => f
  | Gt => f + 1
  | Eq => if Z.even f then f else f + 1
  end.

Definition roundPositive (x : Q) : Q := (inject_Z (nearestEven (x / ulp x)) * ulp x)%Q.

Definition truncatePositive (x : Q) : Q := (inject_Z (Qfloor (x / ulp x)) * ulp x)%Q.

(** [f] on the magnitude of [x], with the sign of [x]. *)
Definition bySign (f : Q -> Q) (x : Q) : Q :=
  let x' := Qred x in
  match (x' ?= 0)%Q with
  | Eq => 0%Q
  | Gt => f x'
  | Lt => (- f (- x'))%Q
  end.

Definition round : Q -> Q := bySign roundPositive.

Definition truncate : Q -> Q := bySign truncatePositive.

End Binary64.

Module JsMath.

(** [Math.min(a, b)]. *)
Definition min (a b : Q) : Q := if Qle_bool a b then a else b.

(** [Math.round(x)]: the nearest integer, a tie going up. *)
Definition round (x : Q) : Z := Qfloor (x + (1 # 2)).

(** [Math.floor(x)]. *)
Definition floor (x : Q) : Z := Qfloor x.

(** [a > b]. *)
Definition gt (a b : Q) : bool := negb (Qle_bool a b).

Definition ofNat (n : nat) : Q := inject_Z (Z.of_nat n).

(** [a * b] on two binary64 values: the exact product, rounded. *)
Definition mul (a b : Q) : Q := Binary64.round (a * b).

(** The Number [Math.random()] returns for the draw [r]: a binary64 value,
    [r] itself when it is one and else the next one toward zero, so that a
    draw in [0, 1) gives a Number in [0, 1). *)
Definition random (r : Q) : Q := Binary64.truncate r.

End JsMath.

(** [xs.sort(cmp)]: [cmp a b < 0] puts [a] first; [Array.prototype.sort] is
    stable, so elements that compare equal keep their order. *)
Section ArraySort.
Context {A : Type} (cmp : A -> A -> Z).

Fixpoint insertSorted (x : A) (l : list A) : list A :=
  match l with
  | [] => [x]
  | y :: l' => if cmp x y <=? 0 then x :: y :: l' else y :: insertSorted x l'
  end.

Definition Array_sort (l : list A) : list A := fold_right insertSorted [] l.

End ArraySort.

(** The comparator [(a, b) => b.matchScore - a.matchScore]. *)
Definition byScoreDesc (a b : GymMatch.t) : Z :=
  GymMatch.matchScore b - GymMatch.matchScore a.

(** [String(n)] for an integer, as a template literal prints it. *)
Definition numToString (n : Z) : string := NilZero.string_of_int (Z.to_int n).

(** JavaScript truthiness of an optional number: [undefined], [null] and [0]
    are falsy. *)
Definition truthyNum (x : OptNum) : bool :=
  match x with
  | Num n => negb (n =? 0)
  | _ => false
  end.

(** The value a nullable integer column or field receives from a payload. *)
Definition toColumn (x : OptNum) : option Z :=
  match x with
  | Num n => Some n
  | _ => None
  end.

(** The values of a PostgreSQL [integer] column, and of a parameter that
    is compared with one or stored in one. *)
Definition int32 (z : Z) : bool := (-2147483648 <=? z) && (z <=? 2147483647).

(** What the database answers to an integer parameter outside that range
    (SQLSTATE 22003); the driver rejects the query with it. *)
Definition outOfRange (n : Z) : JsError :=
  let quote := String (ascii_of_nat 34) EmptyString in
  Error ("value " ++ quote ++ numToString n ++ quote ++ " is out of range for type integer").

(** The error, if any, that a payload value bound to an [integer] column
    meets. *)
Definition rangeError (x : OptNum) : option JsError :=
  match x with
  | Num n => if int32 n then None else Some (outOfRange n)
  | _ => None
  end.

(** The predicate shared by both [getUserMatchByUsers]: the record joins the
    two users, in either direction. *)
Definition joins (senderId receiverId : Z) (m : UserMatch.t) : bool :=
  ((UserMatch.senderId m =? senderId) && (UserMatch.receiverId m =? receiverId) ||
   (UserMatch.senderId m =? receiverId) && (UserMatch.receiverId m =? senderId))%bool.

(** ** [Map<K, V>]: insertion-ordered, one entry per key *)

Module JsMap.
Section Map.
Context {K V : Type} (eqb : K -> K -> bool).

Definition t : Type := list (K * V).

(** [m.get(k)]. *)
Fixpoint get (m : t) (k : K) : option V :=
  match m with
  | [] => None
  | (k', v) :: m' => if eqb k' k then Some v else get m' k
  end.

(** [m.set(k, v)]: an existing key keeps its place, a new key goes last. *)
Fixpoint set (m : t) (k : K) (v : V) : t :=
  match m with
  | [] => [(k, v)]
  | (k', v') :: m' => if eqb k' k then (k', v) :: m' else (k', v') :: set m' k v
  end.

(** [m.delete(k)], with the boolean it returns. *)
Fixpoint delete (m : t) (k : K) : t * bool :=
  match m with
  | [] => ([], false)
  | (k', v') :: m' =>
      if eqb k' k then (m', true)
      else let (r, b) := delete m' k in ((k', v') :: r, b)
  end.

(** [Array.from(m.values())]. *)
Definition values (m : t) : list V := map snd m.

Definition keys (m : t) : list K := map fst m.

End Map.
Arguments t : clear implicits.
End JsMap.

(** ** The goal tables of the two scorers *)

(** [goalToAmenity] of [MemStorage.getMatchesForUser], in the order
  [Object.entries] walks it. *)
Definition goalToAmenity : list (string * list string) :=
[ ("Build Muscle", ["Free Weights"; "Weight Training"; "Personal Training"; "Strength Equipment"]);
  ("Weight Loss", ["Cardio Equipment"; "Classes"; "Swimming Pool"; "Group Training"]);
  ("Improve Strength", ["Free Weights"; "Weight Training"; "CrossFit"; "Functional Training"]);
  ("Cardio", ["Treadmills"; "Ellipticals"; "Rowing Machines"; "Cardio Equipment"]);
  ("Flexibility", ["Yoga Classes"; "Stretching Area"; "Group Classes"]);
  ("Endurance", ["Cardio Equipment"; "Swimming Pool"; "Running Track"]);
  ("Agility", ["Functional Training"; "CrossFit"; "Group Classes"]) ].

(** [goalToAmenity] of [DatabaseStorage.getMatchesForUser]. *)
Definition dbGoalToAmenity : list (string * list string) :=
[ ("Build Muscle", ["Free Weights"; "Weight Training"; "Personal Training"]);
  ("Weight Loss", ["Cardio Equipment"; "Classes"; "Swimming Pool"]);
  ("Improve Strength", ["Free Weights"; "Weight Training"; "CrossFit"]) ].

(** The property names every object literal inherits from
  [Object.prototype]. [obj[key]] finds them when [obj] has no own property
  [key]; each holds a function (or, for [__proto__], the prototype object),
  hence a truthy value that is not an array. *)
Definition objectPrototypeKeys : list string :=
[ "constructor"; "__proto__"; "hasOwnProperty"; "isPrototypeOf";
  "propertyIsEnumerable"; "toLocaleString"; "toString"; "valueOf";
  "__defineGetter__"; "__defineSetter__"; "__lookupGetter__"; "__lookupSetter__" ].

(** What [obj[key]] evaluates to for an object literal of string arrays. *)
Inductive PropValue : Type :=
| OwnArray (xs : list string)
| Inherited
| Missing.

Fixpoint ownProperty (obj : list (string * list string)) (key : string) : option (list string) :=
match obj with
| [] => None
| (k, v) :: obj' => if String.eqb k key then Some v else ownProperty obj' key
end.

Definition getProperty (obj : list (string * list string)) (key : string) : PropValue :=
match ownProperty obj key with
| Some xs => OwnArray xs
| None => if existsb (String.eqb key) objectPrototypeKeys then Inherited else Missing
end.

(** ** [MemStorage] ([server/storage.ts]) *)

Module MemStorage.

Record t : Type := mk {
  userStore : JsMap.t Z User.t;
  gymStore : JsMap.t Z Gym.t;
  savedGymStore : JsMap.t string SavedGym.t;
  userMatchStore : JsMap.t Z UserMatch.t;
  messageStore : JsMap.t Z Message.t;
  userIdCounter : Z;
  gymIdCounter : Z;
  savedGymIdCounter : Z;
  userMatchIdCounter : Z;
  messageIdCounter : Z
}.

Definition getUser (st : t) (id : Z) : option User.t :=
  JsMap.get Z.eqb (userStore st) id.

Definition getGym (st : t) (id : Z) : option Gym.t :=
  JsMap.get Z.eqb (gymStore st) id.

Definition getAllGyms (st : t) : list Gym.t :=
  JsMap.values (gymStore st).

(** *** The scorer of [getMatchesForUser] *)

(** The three mutable locals [matchScore], [totalFactors], [matchingFactors]. *)
Record Locals : Type := mkLocals {
  matchScore : Q;
  totalFactors : Z;
  matchingFactors : Q
}.

(** The two counters of the goal loop. *)
Record GoalCounters : Type := mkGoalCounters {
  matchCount : nat;
  amenityMatchCount : nat
}.

(** The [for (const [knownGoal, amenities] of Object.entries(goalToAmenity))]
    loop followed by the generic fallback. *)
Definition relatedAmenities (goalLower : string) : list string :=
  let related :=
    flat_map
      (fun entry : string * list string =>
         let knownGoal := JsString.toLowerCase (fst entry) in
         if (JsString.includes goalLower knownGoal ||
             JsString.includes knownGoal goalLower)%bool
         then snd entry else [])
      goalToAmenity in
  if Nat.eqb (List.length related) 0
  then ["Classes"; "Personal Training"; "Equipment"]
  else related.

(** The test of the innermost [gym.amenities?.forEach] of the goal loop. *)
Definition amenityMatches (amenityLower gymAmenity : string) : bool :=
  (JsString.includes (JsString.toLowerCase gymAmenity) amenityLower ||
   JsString.includes amenityLower (JsString.toLowerCase gymAmenity))%bool.

(** How often [amenityMatchCount++] runs for one goal. *)
Definition goalHits (goal : string) (gymAmenities : list string) : nat :=
  list_sum
    (map (fun amenity =>
            List.length
              (filter (amenityMatches (JsString.toLowerCase amenity)) gymAmenities))
         (relatedAmenities (JsString.toLowerCase goal))).

(** One round of [user.fitnessGoals.forEach]. *)
Definition goalStep (gymAmenities : list string) (c : GoalCounters) (goal : string)
  : GoalCounters :=
  let hits := goalHits goal gymAmenities in
  let foundMatch := Nat.ltb 0 hits in
  mkGoalCounters
    (if foundMatch then S (matchCount c) else matchCount c)
    (amenityMatchCount c + hits).

Definition goalLoop (goals gymAmenities : list string) : GoalCounters :=
  fold_left (goalStep gymAmenities) goals (mkGoalCounters 0 0).

(** [matchCount / user.fitnessGoals.length]. *)
Definition goalMatchPercentage (goals gymAmenities : list string) : Q :=
  (JsMath.ofNat (matchCount (goalLoop goals gymAmenities)) /
   JsMath.ofNat (List.length goals))%Q.

(** The block guarded by
    [user.fitnessGoals && gym.amenities && user.fitnessGoals.length > 0]. *)
Definition goalDimension (user : User.t) (gym : Gym.t) (l : Locals) : Locals :=
  match User.fitnessGoals user, Gym.amenities gym with
  | Some goals, Some gymAmenities =>
      if Nat.ltb 0 (List.length goals) then
        let totalFactors1 := totalFactors l + 1 in
        let c := goalLoop goals gymAmenities in
        let matchingFactors1 :=
          if Nat.ltb 0 (List.length goals) then
            let pct := goalMatchPercentage goals gymAmenities in
            if JsMath.gt pct (1 # 2) then (matchingFactors l + pct)%Q
            else matchingFactors l
          else matchingFactors l in
        mkLocals
          (matchScore l +
           inject_Z (Z.min 15 (Z.of_nat (amenityMatchCount c) * 3)))%Q
          totalFactors1 matchingFactors1
      else l
  | _, _ => l
  end.

(** The test of the inner loop of the preference block. *)
Definition preferenceMatches1 (prefLower amenity : string) : bool :=
  let amenityLower := JsString.toLowerCase amenity in
  (JsString.includes prefLower amenityLower ||
   JsString.includes amenityLower prefLower ||
   existsb
     (fun word => (JsString.includes prefLower word &&
                   Nat.ltb 3 (String.length word))%bool)
     (JsString.split_space amenityLower))%bool.

(** The final value of [preferenceMatches]. *)
Definition preferenceMatches (prefs gymAmenities : list string) : nat :=
  fold_left
    (fun n preference =>
       (n + List.length
              (filter (preferenceMatches1 (JsString.toLowerCase preference))
                      gymAmenities))%nat)
    prefs 0%nat.

(** [Math.min(1, preferenceMatches / user.gymPreferences.length)]. *)
Definition prefMatchPercentage (prefs gymAmenities : list string) : Q :=
  JsMath.min 1 (JsMath.ofNat (preferenceMatches prefs gymAmenities) /
                JsMath.ofNat (List.length prefs))%Q.

(** The block guarded by
    [user.gymPreferences && user.gymPreferences.length > 0 && gym.amenities]. *)
Definition preferenceDimension (user : User.t) (gym : Gym.t) (l : Locals) : Locals :=
  match User.gymPreferences user, Gym.amenities gym with
  | Some prefs, Some gymAmenities =>
      if Nat.ltb 0 (List.length prefs) then
        let totalFactors1 := totalFactors l + 1 in
        let n := preferenceMatches prefs gymAmenities in
        if Nat.ltb 0 (List.length prefs) then
          mkLocals
            (matchScore l + inject_Z (Z.min 20 (Z.of_nat n * 5)))%Q
            totalFactors1
            (matchingFactors l + prefMatchPercentage prefs gymAmenities)%Q
        else mkLocals (matchScore l) totalFactors1 (matchingFactors l)
      else l
  | _, _ => l
  end.

(** The locals after both dimensions have run. *)
Definition dimensions (user : User.t) (gym : Gym.t) : Locals :=
  preferenceDimension user gym (goalDimension user gym (mkLocals 70 0 0)).

(** [const factorScore = (matchingFactors / totalFactors) * 20]. *)
Definition factorScore (l : Locals) : Q :=
  ((matchingFactors l / inject_Z (totalFactors l)) * 20)%Q.

(** The body of the [allGyms.map] callback: the score of one gym. *)
Definition score (user : User.t) (gym : Gym.t) : Z :=
  let l := dimensions user gym in
  let matchScore1 :=
    if 0 <? totalFactors l then (matchScore l + factorScore l)%Q else matchScore l in
  Z.min 100 (JsMath.round matchScore1).

Definition getMatchesForUser (st : t) (userId : Z) : list GymMatch.t :=
  match getUser st userId with
  | None => []
  | Some user =>
      Array_sort byScoreDesc
        (map (fun gym => GymMatch.mk gym (score user gym)) (getAllGyms st))
  end.

(** *** Saved gyms *)

Definition getSavedGymKey (userId gymId : Z) : string :=
  numToString userId ++ "-" ++ numToString gymId.

Definition getSavedGym (st : t) (userId gymId : Z) : option SavedGym.t :=
  JsMap.get String.eqb (savedGymStore st) (getSavedGymKey userId gymId).

Definition getSavedGymsByUser (st : t) (userId : Z) : list SavedGym.t :=
  filter (fun savedGym => SavedGym.userId savedGym =? userId)
         (JsMap.values (savedGymStore st)).

Definition setSavedGymStore (st : t) (m : JsMap.t string SavedGym.t) : t :=
  mk (userStore st) (gymStore st) m (userMatchStore st) (messageStore st)
     (userIdCounter st) (gymIdCounter st) (savedGymIdCounter st)
     (userMatchIdCounter st) (messageIdCounter st).

Definition setSavedGymIdCounter (st : t) (n : Z) : t :=
  mk (userStore st) (gymStore st) (savedGymStore st) (userMatchStore st)
     (messageStore st) (userIdCounter st) (gymIdCounter st) n
     (userMatchIdCounter st) (messageIdCounter st).

Definition saveGym (st : t) (now : Z) (savedGymData : InsertSavedGym.t)
  : t * SavedGym.t :=
  let userId := InsertSavedGym.userId savedGymData in
  let gymId := InsertSavedGym.gymId savedGymData in
  let key := getSavedGymKey userId gymId in
  match getSavedGym st userId gymId with
  | Some existing =>
      (* Update match score if provided *)
      if truthyNum (InsertSavedGym.matchScore savedGymData) then
        let existing1 :=
          SavedGym.mk (SavedGym.id existing) (SavedGym.userId existing)
            (SavedGym.gymId existing)
            (toColumn (InsertSavedGym.matchScore savedGymData))
            (SavedGym.savedAt existing) in
        (setSavedGymStore st (JsMap.set String.eqb (savedGymStore st) key existing1),
         existing1)
      else (st, existing)
  | None =>
      let id := savedGymIdCounter st in
      let savedGym :=
        SavedGym.mk id userId gymId
          (toColumn (InsertSavedGym.matchScore savedGymData)) now in
      (setSavedGymStore (setSavedGymIdCounter st (id + 1))
         (JsMap.set String.eqb (savedGymStore st) key savedGym),
       savedGym)
  end.

Definition deleteSavedGym (st : t) (userId gymId : Z) : t * bool :=
  let (m, b) := JsMap.delete String.eqb (savedGymStore st)
                  (getSavedGymKey userId gymId) in
  (setSavedGymStore st m, b).

(** *** User matches *)

Definition setUserMatchStore (st : t) (m : JsMap.t Z UserMatch.t) : t :=
  mk (userStore st) (gymStore st) (savedGymStore st) m (messageStore st)
     (userIdCounter st) (gymIdCounter st) (savedGymIdCounter st)
     (userMatchIdCounter st) (messageIdCounter st).

Definition setUserMatchIdCounter (st : t) (n : Z) : t :=
  mk (userStore st) (gymStore st) (savedGymStore st) (userMatchStore st)
     (messageStore st) (userIdCounter st) (gymIdCounter st)
     (savedGymIdCounter st) n (messageIdCounter st).

Definition getUserMatch (st : t) (id : Z) : option UserMatch.t :=
  JsMap.get Z.eqb (userMatchStore st) id.

Definition getUserMatchByUsers (st : t) (senderId receiverId : Z)
  : option UserMatch.t :=
  find (joins senderId receiverId) (JsMap.values (userMatchStore st)).

Definition updateUserMatchStatus (st : t) (now : Z) (id : Z) (status : string)
  : JsResult (t * UserMatch.t) :=
  match JsMap.get Z.eqb (userMatchStore st) id with
  | None => Threw (Error ("User match with id " ++ numToString id ++ " not found"))
  | Some m =>
      let updatedMatch :=
        UserMatch.mk (UserMatch.id m) (UserMatch.senderId m)
          (UserMatch.receiverId m) status (UserMatch.matchScore m)
          (UserMatch.createdAt m) now in
      Returned
        (setUserMatchStore st (JsMap.set Z.eqb (userMatchStore st) id updatedMatch),
         updatedMatch)
  end.

(** [InsertUserMatch] carries no [status], so
    [userMatchData.status || "pending"] is ["pending"]. *)
Definition createUserMatch (st : t) (now : Z) (userMatchData : InsertUserMatch.t)
  : JsResult (t * UserMatch.t) :=
  match getUserMatchByUsers st (InsertUserMatch.senderId userMatchData)
          (InsertUserMatch.receiverId userMatchData) with
  | Some existingMatch =>
      if String.eqb (UserMatch.status existingMatch) "pending" then
        if ((UserMatch.senderId existingMatch =? InsertUserMatch.receiverId userMatchData) &&
            (UserMatch.receiverId existingMatch =? InsertUserMatch.senderId userMatchData))%bool
        then updateUserMatchStatus st now (UserMatch.id existingMatch) "accepted"
        else Returned (st, existingMatch)
      else Returned (st, existingMatch)
  | None =>
      let id := userMatchIdCounter st in
      let userMatch :=
        UserMatch.mk id (InsertUserMatch.senderId userMatchData)
          (InsertUserMatch.receiverId userMatchData) "pending"
          (InsertUserMatch.matchScore userMatchData) now now in
      Returned
        (setUserMatchStore (setUserMatchIdCounter st (id + 1))
           (JsMap.set Z.eqb (userMatchStore st) id userMatch),
         userMatch)
  end.

Definition deleteUserMatch (st : t) (id : Z) : t * bool :=
  let (m, b) := JsMap.delete Z.eqb (userMatchStore st) id in
  (setUserMatchStore st m, b).

(** [(a, b) => b.createdAt.getTime() - a.createdAt.getTime()]. *)
Definition byNewest (a b : UserMatch.t) : Z :=
  UserMatch.createdAt b - UserMatch.createdAt a.

(** [!status || match.status === status] for the optional [status]
    argument; the empty string is falsy. *)
Definition statusFilter (status : option string) (m : UserMatch.t) : bool :=
  match status with
  | None => true
  | Some s => (String.eqb s "" || String.eqb (UserMatch.status m) s)%bool
  end.

(** Sort by most recent first. *)
Definition getUserMatches (st : t) (userId : Z) (status : option string)
  : list UserMatch.t :=
  Array_sort byNewest
    (filter
       (fun m =>
          (((UserMatch.senderId m =? userId) || (UserMatch.receiverId m =? userId)) &&
           statusFilter status m)%bool)
       (JsMap.values (userMatchStore st))).

(** *** Users *)

Definition setUserStore (st : t) (m : JsMap.t Z User.t) : t :=
  mk m (gymStore st) (savedGymStore st) (userMatchStore st) (messageStore st)
     (userIdCounter st) (gymIdCounter st) (savedGymIdCounter st)
     (userMatchIdCounter st) (messageIdCounter st).

(** No cascading delete: only the user record goes. *)
Definition deleteUser (st : t) (id : Z) : t * bool :=
  let (m, b) := JsMap.delete Z.eqb (userStore st) id in
  (setUserStore st m, b).

(** *** Messages *)

Definition setMessageStore (st : t) (m : JsMap.t Z Message.t) : t :=
  mk (userStore st) (gymStore st) (savedGymStore st) (userMatchStore st) m
     (userIdCounter st) (gymIdCounter st) (savedGymIdCounter st)
     (userMatchIdCounter st) (messageIdCounter st).

Definition setMessageIdCounter (st : t) (n : Z) : t :=
  mk (userStore st) (gymStore st) (savedGymStore st) (userMatchStore st)
     (messageStore st) (userIdCounter st) (gymIdCounter st)
     (savedGymIdCounter st) (userMatchIdCounter st) n.

Definition between (userId otherUserId : Z) (m : Message.t) : bool :=
  ((Message.senderId m =? userId) && (Message.receiverId m =? otherUserId) ||
   (Message.senderId m =? otherUserId) && (Message.receiverId m =? userId))%bool.

Definition byOldest (a b : Message.t) : Z :=
  Message.createdAt a - Message.createdAt b.

(** Sort by created time ascending. *)
Definition getMessages (st : t) (userId otherUserId : Z) : list Message.t :=
  Array_sort byOldest
    (filter (between userId otherUserId) (JsMap.values (messageStore st))).

Definition unreadFor (userId : Z) (m : Message.t) : bool :=
  ((Message.receiverId m =? userId) && negb (Message.read m))%bool.

Definition getUnreadMessageCount (st : t) (userId : Z) : Z :=
  Z.of_nat (List.length (filter (unreadFor userId) (JsMap.values (messageStore st)))).

Definition createMessage (st : t) (now : Z) (messageData : InsertMessage.t)
  : t * Message.t :=
  let id := messageIdCounter st in
  let message :=
    Message.mk id (InsertMessage.senderId messageData)
      (InsertMessage.receiverId messageData) (InsertMessage.content messageData)
      false now in
  (setMessageStore (setMessageIdCounter st (id + 1))
     (JsMap.set Z.eqb (messageStore st) id message),
   message).

(** The unread messages from [senderId] to [receiverId], as the [filter]
    sees them before the [forEach] starts. *)
Definition unreadFrom (receiverId senderId : Z) (m : Message.t) : bool :=
  ((Message.senderId m =? senderId) && (Message.receiverId m =? receiverId) &&
   negb (Message.read m))%bool.

Definition markOne (store : JsMap.t Z Message.t) (message : Message.t)
  : JsMap.t Z Message.t :=
  JsMap.set Z.eqb store (Message.id message)
    (Message.mk (Message.id message) (Message.senderId message)
       (Message.receiverId message) (Message.content message) true
       (Message.createdAt message)).

Definition markMessagesAsRead (st : t) (receiverId senderId : Z) : t :=
  setMessageStore st
    (fold_left markOne
       (filter (unreadFrom receiverId senderId) (JsMap.values (messageStore st)))
       (messageStore st)).

End MemStorage.

(** ** [DatabaseStorage] ([server/database-storage.ts])

    A table is the list of its rows, in the order in which a query without
    [ORDER BY] returns them; the database is free in that order, and in the
    order of rows that tie under an [ORDER BY]. [serial] columns draw their
    value from a sequence kept next to the table; in a database that
    satisfies its primary-key constraints the value drawn is not in use
    yet. An INSERT into [user_matches] or [messages] is described for rows
    the table accepts: sender and receiver are ids of stored users, as the
    foreign keys demand, and a match score is within the range of its
    [integer] column; [saveGym], which a handler calls with a score taken
    from the request body as it is, has the refusal modelled. *)

Module DatabaseStorage.

Record t : Type := mk {
  users : list User.t;
  gyms : list Gym.t;
  savedGyms : list SavedGym.t;
  userMatches : list UserMatch.t;
  messages : list Message.t;
  savedGymsSeq : Z;
  userMatchesSeq : Z;
  messagesSeq : Z
}.

(** [Array.isArray(x) ? x : []] on a nullable array column. *)
Definition arrayOrEmpty (x : TextArray) : TextArray :=
  match x with
  | Some xs => Some xs
  | None => Some []
  end.

Definition getUser (st : t) (id : Z) : option User.t :=
  match filter (fun u => User.id u =? id) (users st) with
  | [] => None
  | dbUser :: _ =>
      Some (User.mk (User.id dbUser) (User.username dbUser) (User.name dbUser)
              (arrayOrEmpty (User.fitnessGoals dbUser))
              (arrayOrEmpty (User.gymPreferences dbUser))
              (User.isAdmin dbUser))
  end.

Definition getGym (st : t) (id : Z) : option Gym.t :=
  hd_error (filter (fun g => Gym.id g =? id) (gyms st)).

Definition getAllGyms (st : t) : list Gym.t := gyms st.

(** *** The scorer of [getMatchesForUser] *)

(** [Math.floor(Math.random() * 15) + 75], for the draw [r]: the product
    is the binary64 product, so the double nearest to 0.6 gives
    [floor(9) + 75] although 15 times that double is below 9. *)
Definition baseScore (r : Q) : Z :=
  JsMath.floor (JsMath.mul (JsMath.random r) 15) + 75.

(** One round of [user.fitnessGoals.forEach]:
    [const relatedAmenities = goalToAmenity[goal] || []] followed by
    [relatedAmenities.forEach]. An inherited property is truthy and has no
    [forEach], so calling it raises a [TypeError]. *)
Definition boost (gymAmenities : list string) (matchScore : Z) (goal : string)
  : JsResult Z :=
  match getProperty dbGoalToAmenity goal with
  | Inherited => Threw (TypeError "relatedAmenities.forEach is not a function")
  | OwnArray relatedAmenities =>
      Returned
        (fold_left
           (fun acc amenity =>
              if existsb (String.eqb amenity) gymAmenities then acc + 2 else acc)
           relatedAmenities matchScore)
  | Missing => Returned matchScore
  end.

Fixpoint boostAll (gymAmenities : list string) (matchScore : Z) (goals : list string)
  : JsResult Z :=
  match goals with
  | [] => Returned matchScore
  | goal :: goals' =>
      matchScore1 <- boost gymAmenities matchScore goal ;;
      boostAll gymAmenities matchScore1 goals'
  end.

(** The body of the [allGyms.map] callback, for the draw [r]. *)
Definition score (r : Q) (user : User.t) (gym : Gym.t) : JsResult Z :=
  let matchScore := baseScore r in
  matchScore1 <-
    match User.fitnessGoals user, Gym.amenities gym with
    | Some goals, Some gymAmenities => boostAll gymAmenities matchScore goals
    | _, _ => Returned matchScore
    end ;;
  Returned (Z.min matchScore1 100).

(** [allGyms.map]: the gym at position [i] consumes the draw [rand (k + i)],
    where [k] draws have been consumed before the call. *)
Fixpoint scoreAll (rand : nat -> Q) (k : nat) (user : User.t) (allGyms : list Gym.t)
  : JsResult (list GymMatch.t) :=
  match allGyms with
  | [] => Returned []
  | gym :: rest =>
      s <- score (rand k) user gym ;;
      scored <- scoreAll rand (S k) user rest ;;
      Returned (GymMatch.mk gym s :: scored)
  end.

Definition getMatchesForUser (rand : nat -> Q) (k : nat) (st : t) (userId : Z)
  : JsResult (list GymMatch.t) :=
  match getUser st userId with
  | None => Returned []
  | Some user =>
      scored <- scoreAll rand k user (getAllGyms st) ;;
      Returned (Array_sort byScoreDesc scored)
  end.

(** *** Saved gyms *)

Definition setSavedGyms (st : t) (rows : list SavedGym.t) (seq : Z) : t :=
  mk (users st) (gyms st) rows (userMatches st) (messages st)
     seq (userMatchesSeq st) (messagesSeq st).

Definition getSavedGym (st : t) (userId gymId : Z) : option SavedGym.t :=
  hd_error
    (filter (fun s => ((SavedGym.userId s =? userId) && (SavedGym.gymId s =? gymId))%bool)
            (savedGyms st)).

(** [savedGymData.matchScore !== existingSavedGym.matchScore]; a column
    value is a number or [null], never [undefined]. *)
Definition strictNeq (x : OptNum) (col : option Z) : bool :=
  match x, col with
  | Undefined, _ => true
  | Null, None => false
  | Null, Some _ => true
  | Num _, None => true
  | Num n, Some c => negb (n =? c)
  end.

(** [.set({ matchScore: x })] on one row, for a value [x] other than
    [undefined]. *)
Definition setMatchScore (x : OptNum) (row : SavedGym.t) : SavedGym.t :=
  SavedGym.mk (SavedGym.id row) (SavedGym.userId row) (SavedGym.gymId row)
    (toColumn x) (SavedGym.savedAt row).

(** [saveGym] from the point where [getSavedGym] has answered [existing].
    The query builder raises on [.set({ matchScore: undefined })], which
    has no column to assign; the database refuses a score outside the
    range of the [integer] column, in the UPDATE as in the INSERT, and the
    rejected statement leaves the table as it was. The rows of
    [saved_gyms] carry no unique key on (user, gym): the INSERT adds its
    row whatever the table holds by then. *)
Definition saveGymFrom (st : t) (now : Z) (savedGymData : InsertSavedGym.t)
    (existing : option SavedGym.t) : t * JsResult (option SavedGym.t) :=
  match existing with
  | Some existingSavedGym =>
      (* Update match score if needed *)
      if strictNeq (InsertSavedGym.matchScore savedGymData)
           (SavedGym.matchScore existingSavedGym) then
        match InsertSavedGym.matchScore savedGymData with
        | Undefined => (st, Threw (Error "No values to set"))
        | x =>
            match rangeError x with
            | Some e => (st, Threw e)
            | None =>
                let hit row := SavedGym.id row =? SavedGym.id existingSavedGym in
                let rows :=
                  map (fun row => if hit row then setMatchScore x row else row)
                      (savedGyms st) in
                (setSavedGyms st rows (savedGymsSeq st),
                 Returned (hd_error (filter hit rows)))
            end
        end
      else (st, Returned (Some existingSavedGym))
  | None =>
      match rangeError (InsertSavedGym.matchScore savedGymData) with
      | Some e => (st, Threw e)
      | None =>
          let savedGym :=
            SavedGym.mk (savedGymsSeq st) (InsertSavedGym.userId savedGymData)
              (InsertSavedGym.gymId savedGymData)
              (toColumn (InsertSavedGym.matchScore savedGymData)) now in
          (setSavedGyms st (savedGyms st ++ [savedGym]) (savedGymsSeq st + 1),
           Returned (Some savedGym))
      end
  end.

Definition saveGym (st : t) (now : Z) (savedGymData : InsertSavedGym.t)
  : t * JsResult (option SavedGym.t) :=
  saveGymFrom st now savedGymData
    (getSavedGym st (InsertSavedGym.userId savedGymData)
       (InsertSavedGym.gymId savedGymData)).

(** *** User matches *)

Definition setUserMatches (st : t) (rows : list UserMatch.t) (seq : Z) : t :=
  mk (users st) (gyms st) (savedGyms st) rows (messages st)
     (savedGymsSeq st) seq (messagesSeq st).

Definition getUserMatch (st : t) (id : Z) : option UserMatch.t :=
  hd_error (filter (fun m => UserMatch.id m =? id) (userMatches st)).

Definition getUserMatchByUsers (st : t) (senderId receiverId : Z)
  : option UserMatch.t :=
  hd_error (filter (joins senderId receiverId) (userMatches st)).

Definition updateUserMatchStatus (st : t) (now : Z) (id : Z) (status : string)
  : t * option UserMatch.t :=
  let hit row := UserMatch.id row =? id in
  let rows :=
    map (fun row =>
           if hit row
           then UserMatch.mk (UserMatch.id row) (UserMatch.senderId row)
                  (UserMatch.receiverId row) status (UserMatch.matchScore row)
                  (UserMatch.createdAt row) now
           else row)
        (userMatches st) in
  (setUserMatches st rows (userMatchesSeq st), hd_error (filter hit rows)).

Definition createUserMatch (st : t) (now : Z) (userMatchData : InsertUserMatch.t)
  : t * option UserMatch.t :=
  match getUserMatchByUsers st (InsertUserMatch.senderId userMatchData)
          (InsertUserMatch.receiverId userMatchData) with
  | Some existingMatch =>
      if String.eqb (UserMatch.status existingMatch) "pending" then
        if ((UserMatch.senderId existingMatch =? InsertUserMatch.receiverId userMatchData) &&
            (UserMatch.receiverId existingMatch =? InsertUserMatch.senderId userMatchData))%bool
        then updateUserMatchStatus st now (UserMatch.id existingMatch) "accepted"
        else (st, Some existingMatch)
      else (st, Some existingMatch)
  | None =>
      let userMatch :=
        UserMatch.mk (userMatchesSeq st) (InsertUserMatch.senderId userMatchData)
          (InsertUserMatch.receiverId userMatchData) "pending"
          (InsertUserMatch.matchScore userMatchData) now now in
      (setUserMatches st (userMatches st ++ [userMatch]) (userMatchesSeq st + 1),
       Some userMatch)
  end.


(** *** Messages *)

Definition setMessages (st : t) (rows : list Message.t) (seq : Z) : t :=
  mk (users st) (gyms st) (savedGyms st) (userMatches st) rows
     (savedGymsSeq st) (userMatchesSeq st) seq.

Definition byCreatedAt (a b : Message.t) : Z :=
  Message.createdAt a - Message.createdAt b.

(** [ORDER BY created_at]; rows with equal [createdAt] come in table
    order here, and the database may return them in any order. *)
Definition getMessages (st : t) (userId otherUserId : Z) : list Message.t :=
  Array_sort byCreatedAt
    (filter
       (fun m =>
          ((Message.senderId m =? userId) && (Message.receiverId m =? otherUserId) ||
           (Message.senderId m =? otherUserId) && (Message.receiverId m =? userId))%bool)
       (messages st)).

Definition getUnreadMessageCount (st : t) (userId : Z) : Z :=
  Z.of_nat
    (List.length
       (filter
          (fun m => ((Message.receiverId m =? userId) && negb (Message.read m))%bool)
          (messages st))).

Definition createMessage (st : t) (now : Z) (messageData : InsertMessage.t)
  : t * Message.t :=
  let message :=
    Message.mk (messagesSeq st) (InsertMessage.senderId messageData)
      (InsertMessage.receiverId messageData) (InsertMessage.content messageData)
      false now in
  (setMessages st (messages st ++ [message]) (messagesSeq st + 1), message).

(** The UPDATE, row by row. The rows are written where they stood; the
    database may return them in another order afterwards. *)
Definition markMessagesAsRead (st : t) (receiverId senderId : Z) : t :=
  setMessages st
    (map (fun m =>
            if ((Message.receiverId m =? receiverId) &&
                (Message.senderId m =? senderId) &&
                negb (Message.read m))%bool
            then Message.mk (Message.id m) (Message.senderId m)
                   (Message.receiverId m) (Message.content m) true
                   (Message.createdAt m)
            else m)
         (messages st))
    (messagesSeq st).

(** *** Further queries and deletions *)

Definition byNewest (a b : UserMatch.t) : Z :=
  UserMatch.createdAt b - UserMatch.createdAt a.

(** [if (status)] selects the query with the status clause; the empty
    string is falsy. Rows with equal [createdAt] come in table order here;
    the database may return them in any order. *)
Definition getUserMatches (st : t) (userId : Z) (status : option string)
  : list UserMatch.t :=
  let mine m := ((UserMatch.senderId m =? userId) || (UserMatch.receiverId m =? userId))%bool in
  match status with
  | Some s =>
      if String.eqb s "" then Array_sort byNewest (filter mine (userMatches st))
      else
        Array_sort byNewest
          (filter (fun m => (mine m && String.eqb (UserMatch.status m) s)%bool)
                  (userMatches st))
  | None => Array_sort byNewest (filter mine (userMatches st))
  end.

(** [deleted.length > 0] after [DELETE ... WHERE id = $1 RETURNING id]. *)
Definition deleteUserMatch (st : t) (id : Z) : t * bool :=
  let deleted := filter (fun m => UserMatch.id m =? id) (userMatches st) in
  (setUserMatches st (filter (fun m => negb (UserMatch.id m =? id)) (userMatches st))
     (userMatchesSeq st),
   Nat.ltb 0 (List.length deleted)).

Definition savedBy (userId gymId : Z) (s : SavedGym.t) : bool :=
  ((SavedGym.userId s =? userId) && (SavedGym.gymId s =? gymId))%bool.

Definition deleteSavedGym (st : t) (userId gymId : Z) : t * bool :=
  let deleted := filter (savedBy userId gymId) (savedGyms st) in
  (setSavedGyms st (filter (fun s => negb (savedBy userId gymId s)) (savedGyms st))
     (savedGymsSeq st),
   Nat.ltb 0 (List.length deleted)).

Definition byLatestSaved (a b : SavedGym.t) : Z :=
  SavedGym.savedAt b - SavedGym.savedAt a.

Definition getSavedGymsByUser (st : t) (userId : Z) : list SavedGym.t :=
  Array_sort byLatestSaved
    (filter (fun s => SavedGym.userId s =? userId) (savedGyms st)).

(** The rows a user takes part in. *)
Definition matchOf (id : Z) (m : UserMatch.t) : bool :=
  ((UserMatch.senderId m =? id) || (UserMatch.receiverId m =? id))%bool.

Definition messageOf (id : Z) (m : Message.t) : bool :=
  ((Message.senderId m =? id) || (Message.receiverId m =? id))%bool.

(** What the database does while [deleteUser] runs. In the run [Direct]
    every statement of the direct SQL path succeeds. In a run [Fallback] a
    statement of the direct path fails: its [catch] rolls the transaction
    back and rethrows, and the outer [catch] runs the four DELETE
    statements of the ORM path one after the other, outside any
    transaction; [failing] is the one of them that fails, if any. *)
Inductive OrmStatement : Type :=
| DeleteSavedGyms
| DeleteUserMatches
| DeleteMessages
| DeleteUsers.

Inductive Run : Type :=
| Direct
| Fallback (failing : option OrmStatement).

Definition fails (failing : option OrmStatement) (s : OrmStatement) : bool :=
  match failing, s with
  | Some DeleteSavedGyms, DeleteSavedGyms => true
  | Some DeleteUserMatches, DeleteUserMatches => true
  | Some DeleteMessages, DeleteMessages => true
  | Some DeleteUsers, DeleteUsers => true
  | _, _ => false
  end.

(** The transaction of the direct SQL path: it commits when the last
    DELETE removed a user row and rolls back otherwise. *)
Definition deleteUserDirect (st : t) (id : Z) : t * bool :=
  let savedGyms1 := filter (fun s => negb (SavedGym.userId s =? id)) (savedGyms st) in
  let userMatches1 := filter (fun m => negb (matchOf id m)) (userMatches st) in
  let messages1 := filter (fun m => negb (messageOf id m)) (messages st) in
  let userResult := filter (fun u => User.id u =? id) (users st) in
  let users1 := filter (fun u => negb (User.id u =? id)) (users st) in
  if Nat.ltb 0 (List.length userResult)
  then (mk users1 (gyms st) savedGyms1 userMatches1 messages1
          (savedGymsSeq st) (userMatchesSeq st) (messagesSeq st),
        true)
  else (st, false).

(** The ORM path. Each statement is committed on its own; the statement
    that fails raises, the outermost [catch] answers [false], and what the
    statements before it deleted stays deleted. *)
Definition deleteUserOrm (st : t) (id : Z) (failing : option OrmStatement) : t * bool :=
  if fails failing DeleteSavedGyms then (st, false)
  else
    let st1 :=
      setSavedGyms st (filter (fun s => negb (SavedGym.userId s =? id)) (savedGyms st))
        (savedGymsSeq st) in
    if fails failing DeleteUserMatches then (st1, false)
    else
      let st2 :=
        setUserMatches st1 (filter (fun m => negb (matchOf id m)) (userMatches st1))
          (userMatchesSeq st1) in
      if fails failing DeleteMessages then (st2, false)
      else
        let st3 :=
          setMessages st2 (filter (fun m => negb (messageOf id m)) (messages st2))
            (messagesSeq st2) in
        if fails failing DeleteUsers then (st3, false)
        else
          let deleted := filter (fun u => User.id u =? id) (users st3) in
          let success := Nat.ltb 0 (List.length deleted) in
          (mk (filter (fun u => negb (User.id u =? id)) (users st3)) (gyms st3)
              (savedGyms st3) (userMatches st3) (messages st3)
              (savedGymsSeq st3) (userMatchesSeq st3) (messagesSeq st3),
           success).

(** [deleteUser] in the run [run]; its own lookup of the user succeeds. *)
Definition deleteUser (st : t) (run : Run) (id : Z) : t * bool :=
  match getUser st id with
  | None => (st, false)
  | Some _ =>
      match run with
      | Direct => deleteUserDirect st id
      | Fallback failing => deleteUserOrm st id failing
      end
  end.

End DatabaseStorage.

(** ** The match and message handlers of [server/routes.ts]

    [storage] is the exported [DatabaseStorage] instance. [reqUser] is
    [req.user.id] when [req.isAuthenticated()] holds and [None] otherwise; a
    request body is given as the result of its [safeParse]. *)

Module Routes.

Inductive Body : Type :=
| JsonMessageText (message : string)
| JsonUserMatch (m : option UserMatch.t)
| JsonNewMessage (m : Message.t)
| JsonMessages (ms : list Message.t)
| NoContent.

Record Response : Type := mkResponse {
  status : Z;
  body : Body
}.

(** [app.post("/api/user-matches", ...)]. *)
Definition postUserMatches (st : DatabaseStorage.t) (now : Z) (reqUser : option Z)
    (parseResult : option InsertUserMatch.t) : DatabaseStorage.t * Response :=
  match reqUser with
  | None => (st, mkResponse 401 (JsonMessageText "Authentication required"))
  | Some userId =>
      match parseResult with
      | None => (st, mkResponse 400 (JsonMessageText "Invalid match data"))
      | Some matchData =>
          if negb (InsertUserMatch.senderId matchData =? userId) then
            (st, mkResponse 403 (JsonMessageText "You can only create matches for yourself"))
          else
            match DatabaseStorage.getUser st (InsertUserMatch.receiverId matchData) with
            | None => (st, mkResponse 404 (JsonMessageText "User not found"))
            | Some _ =>
                let (st1, userMatch) := DatabaseStorage.createUserMatch st now matchData in
                (st1, mkResponse 201 (JsonUserMatch userMatch))
            end
      end
  end.

(** [!status || !["accepted", "rejected"].includes(status)]. *)
Definition invalidStatus (status : option string) : bool :=
  match status with
  | None => true
  | Some s =>
      (String.eqb s "" || negb (existsb (String.eqb s) ["accepted"; "rejected"]))%bool
  end.

(** [app.put("/api/user-matches/:id", ...)]; [status] is [req.body.status],
    [None] when the body has none. *)
Definition putUserMatch (st : DatabaseStorage.t) (now : Z) (reqUser : option Z)
    (matchId : Z) (status : option string) : DatabaseStorage.t * Response :=
  match reqUser with
  | None => (st, mkResponse 401 (JsonMessageText "Authentication required"))
  | Some userId =>
      if invalidStatus status then
        (st, mkResponse 400 (JsonMessageText "Valid status required (accepted or rejected)"))
      else
        match DatabaseStorage.getUserMatch st matchId with
        | None => (st, mkResponse 404 (JsonMessageText "Match not found"))
        | Some m =>
            if negb (UserMatch.receiverId m =? userId) then
              (st, mkResponse 403
                     (JsonMessageText "You can only respond to matches sent to you"))
            else
              let (st1, updatedMatch) :=
                DatabaseStorage.updateUserMatchStatus st now matchId
                  (match status with Some s => s | None => "" end) in
              (st1, mkResponse 200 (JsonUserMatch updatedMatch))
        end
  end.

(** [!match || match.status !== "accepted"]. *)
Definition notMatched (m : option UserMatch.t) : bool :=
  match m with
  | None => true
  | Some m1 => negb (String.eqb (UserMatch.status m1) "accepted")
  end.

(** [app.get("/api/messages/:userId", ...)]. *)
Definition getMessagesWith (st : DatabaseStorage.t) (reqUser : option Z)
    (otherUserId : Z) : DatabaseStorage.t * Response :=
  match reqUser with
  | None => (st, mkResponse 401 (JsonMessageText "Authentication required"))
  | Some currentUserId =>
      match DatabaseStorage.getUser st otherUserId with
      | None => (st, mkResponse 404 (JsonMessageText "User not found"))
      | Some _ =>
          if notMatched (DatabaseStorage.getUserMatchByUsers st currentUserId otherUserId) then
            (st, mkResponse 403
                   (JsonMessageText "You can only message users you've matched with"))
          else
            let messages := DatabaseStorage.getMessages st currentUserId otherUserId in
            let st1 := DatabaseStorage.markMessagesAsRead st currentUserId otherUserId in
            (st1, mkResponse 200 (JsonMessages messages))
      end
  end.

(** [app.post("/api/messages", ...)]. *)
Definition postMessages (st : DatabaseStorage.t) (now : Z) (reqUser : option Z)
    (parseResult : option InsertMessage.t) : DatabaseStorage.t * Response :=
  match reqUser with
  | None => (st, mkResponse 401 (JsonMessageText "Authentication required"))
  | Some userId =>
      match parseResult with
      | None => (st, mkResponse 400 (JsonMessageText "Invalid message data"))
      | Some messageData =>
          if negb (InsertMessage.senderId messageData =? userId) then
            (st, mkResponse 403 (JsonMessageText "You can only send messages as yourself"))
          else
            match DatabaseStorage.getUser st (InsertMessage.receiverId messageData) with
            | None => (st, mkResponse 404 (JsonMessageText "Recipient not found"))
            | Some _ =>
                if notMatched
                     (DatabaseStorage.getUserMatchByUsers st
                        (InsertMessage.senderId messageData)
                        (InsertMessage.receiverId messageData)) then
                  (st, mkResponse 403
                         (JsonMessageText "You can only message users you've matched with"))
                else
                  let (st1, message) := DatabaseStorage.createMessage st now messageData in
                  (st1, mkResponse 201 (JsonNewMessage message))
            end
      end
  end.

(** [app.get("/api/messages/unread/count", ...)]. *)
Definition getUnreadCount (st : DatabaseStorage.t) (reqUser : option Z) : option Z :=
  match reqUser with
  | None => None
  | Some userId => Some (DatabaseStorage.getUnreadMessageCount st userId)
  end.

(** The spec's names for the four operations, each performed by the
    authenticated actor itself. *)
Definition requestMatch (st : DatabaseStorage.t) (now senderId receiverId : Z)
    (matchScore : option Z) :=
  postUserMatches st now (Some senderId)
    (Some (InsertUserMatch.mk senderId receiverId matchScore)).

Definition respondToMatch (st : DatabaseStorage.t) (now matchId actorId : Z)
    (newStatus : string) :=
  putUserMatch st now (Some actorId) matchId (Some newStatus).

Definition sendMessage (st : DatabaseStorage.t) (now senderId receiverId : Z)
    (content : string) :=
  postMessages st now (Some senderId)
    (Some (InsertMessage.mk senderId receiverId content)).

Definition getConversation (st : DatabaseStorage.t) (userId otherUserId : Z) :=
  getMessagesWith st (Some userId) otherUserId.

Definition unreadCount (st : DatabaseStorage.t) (userId : Z) : Z :=
  DatabaseStorage.getUnreadMessageCount st userId.

(** [app.delete("/api/user-matches/:id", ...)] from the point where the
    awaited [getUserMatch] has returned [found], on the storage [st] as it
    is by then. *)
Definition deleteUserMatchFrom (st : DatabaseStorage.t) (userId matchId : Z)
    (found : option UserMatch.t) : DatabaseStorage.t * Response :=
  match found with
  | None => (st, mkResponse 404 (JsonMessageText "Match not found"))
  | Some m =>
      if (negb (UserMatch.senderId m =? userId) &&
          negb (UserMatch.receiverId m =? userId))%bool then
        (st, mkResponse 403
               (JsonMessageText "You can only delete matches you're part of"))
      else
        let (st1, success) := DatabaseStorage.deleteUserMatch st matchId in
        if negb success then
          (st1, mkResponse 500 (JsonMessageText "Failed to delete match"))
        else (st1, mkResponse 204 NoContent)
  end.

(** The whole handler, run with no other request between its lookup and
    its deletion. *)
Definition deleteUserMatch (st : DatabaseStorage.t) (reqUser : option Z) (matchId : Z)
  : DatabaseStorage.t * Response :=
  match reqUser with
  | None => (st, mkResponse 401 (JsonMessageText "Authentication required"))
  | Some userId =>
      deleteUserMatchFrom st userId matchId (DatabaseStorage.getUserMatch st matchId)
  end.

(** [app.delete("/api/saved-gyms/:gymId", ...)]. *)
Definition deleteSavedGym (st : DatabaseStorage.t) (reqUser : option Z) (gymId : Z)
  : DatabaseStorage.t * Response :=
  match reqUser with
  | None => (st, mkResponse 401 (JsonMessageText "Authentication required"))
  | Some userId =>
      let (st1, success) := DatabaseStorage.deleteSavedGym st userId gymId in
      if negb success then (st1, mkResponse 404 (JsonMessageText "Saved gym not found"))
      else (st1, mkResponse 204 NoContent)
  end.

(** [app.delete("/api/admin/users/:id", ...)] from the point where the
    awaited [storage.getUser] has returned [found], on the storage [st] as
    it is by then; [run] is the run of the [deleteUser] it calls. *)
Definition deleteAdminUserFrom (st : DatabaseStorage.t) (run : DatabaseStorage.Run)
    (userId : Z) (found : option User.t) : DatabaseStorage.t * Response :=
  match found with
  | None => (st, mkResponse 404 (JsonMessageText "User not found"))
  | Some user =>
      if User.isAdmin user then
        (st, mkResponse 403 (JsonMessageText "Cannot delete admin users"))
      else
        let (st1, success) := DatabaseStorage.deleteUser st run userId in
        if success then
          match DatabaseStorage.getUser st1 userId with
          | Some _ =>
              (st1, mkResponse 500
                      (JsonMessageText "Failed to delete user - user still exists"))
          | None => (st1, mkResponse 200 (JsonMessageText "User deleted successfully"))
          end
        else (st1, mkResponse 500 (JsonMessageText "Failed to delete user"))
  end.

(** The whole handler, run with no other request between its lookup and
    the deletion; here [reqUser] is the whole [req.user], whose [isAdmin]
    the guard reads. *)
Definition deleteAdminUser (st : DatabaseStorage.t) (run : DatabaseStorage.Run)
    (reqUser : option User.t) (userId : Z) : DatabaseStorage.t * Response :=
  let forbidden := (st, mkResponse 403 (JsonMessageText "Admin access required")) in
  match reqUser with
  | None => forbidden
  | Some admin =>
      if negb (User.isAdmin admin) then forbidden
      else deleteAdminUserFrom st run userId (DatabaseStorage.getUser st userId)
  end.

End Routes.

(** ** [app.post("/api/saved-gyms", ...)] *)

Module SavedGymRoutes.

Inductive Body : Type :=
| JsonMessageText (message : string)
| JsonSavedGym (s : option SavedGym.t).

Record Response : Type := mkResponse {
  status : Z;
  body : Body
}.


End SavedGymRoutes.

(** ** The WebSocket gateway of [server/routes.ts]

    A socket is named by a number; [connectedClients] maps a user id to the
    socket registered for it, and [readyState] gives the state each socket
    is in when an event is handled. A call [socket.send(JSON.stringify(e))]
    is recorded as the pair of the socket and [e]. *)

Module Gateway.

(** [WebSocket.OPEN]. *)
Definition OPEN : Z := 1.

(** What [JSON.parse(message.toString())] yields, as far as the handler
    looks: [Unparseable] when it throws or yields no object. The ids are
    numbers and the content is a string, as the client sends them; [None]
    stands for a field that is missing or [null]. *)
Inductive ClientEvent : Type :=
| Unparseable
| SendMessage (senderId receiverId : option Z) (content : option string)
| ReadMessages (senderId : option Z)
| UnknownType.

Inductive ServerEvent : Type :=
| ErrorEvent (message : string)
| MessageSent (message : Message.t)
| NewMessage (message : Message.t)
| MessagesRead (senderId : Z).

Definition Sends : Type := list (Z * ServerEvent).

(** [wss.on('connection', ...)] up to the registration: [userId] is what
    [parseInt] made of the query string, [None] for [NaN]. The boolean
    tells whether the socket was kept; it is closed otherwise. *)
Definition onConnection (connectedClients : JsMap.t Z Z) (ws : Z) (userId : option Z)
  : JsMap.t Z Z * bool :=
  match userId with
  | None => (connectedClients, false)
  | Some u =>
      if u =? 0 then (connectedClients, false)
      else (JsMap.set Z.eqb connectedClients u ws, true)
  end.

(** [ws.on('close', ...)] of the connection opened for [userId]. *)
Definition onClose (connectedClients : JsMap.t Z Z) (userId : Z) : JsMap.t Z Z :=
  fst (JsMap.delete Z.eqb connectedClients userId).

(** The forwarding step of [send_message]. *)
Definition forward (connectedClients : JsMap.t Z Z) (readyState : Z -> Z)
    (receiverId : Z) (message : Message.t) : Sends :=
  match JsMap.get Z.eqb connectedClients receiverId with
  | Some receiverSocket =>
      if readyState receiverSocket =? OPEN
      then [(receiverSocket, NewMessage message)] else []
  | None => []
  end.

(** [ws.on('message', ...)] of the connection [ws] opened for [userId]. *)
Definition onMessage (storage : DatabaseStorage.t) (connectedClients : JsMap.t Z Z)
    (readyState : Z -> Z) (now : Z) (ws userId : Z) (data : ClientEvent)
  : DatabaseStorage.t * Sends :=
  match data with
  | Unparseable => (storage, [(ws, ErrorEvent "Failed to process message")])
  | SendMessage (Some senderId) (Some receiverId) (Some content) =>
      if ((senderId =? 0) || (receiverId =? 0) || String.eqb content "")%bool then
        (storage, [(ws, ErrorEvent "Invalid message data")])
      else if negb (senderId =? userId) then
        (storage, [(ws, ErrorEvent "You can only send messages as yourself")])
      else if Routes.notMatched
                (DatabaseStorage.getUserMatchByUsers storage senderId receiverId) then
        (storage, [(ws, ErrorEvent "You can only message users you've matched with")])
      else
        let (storage1, message) :=
          DatabaseStorage.createMessage storage now
            (InsertMessage.mk senderId receiverId content) in
        (storage1,
         (ws, MessageSent message) :: forward connectedClients readyState receiverId message)
  | SendMessage _ _ _ => (storage, [(ws, ErrorEvent "Invalid message data")])
  | ReadMessages (Some senderId) =>
      if senderId =? 0 then (storage, [(ws, ErrorEvent "Sender ID required")])
      else
        (DatabaseStorage.markMessagesAsRead storage userId senderId,
         [(ws, MessagesRead senderId)])
  | ReadMessages None => (storage, [(ws, ErrorEvent "Sender ID required")])
  | UnknownType => (storage, [(ws, ErrorEvent "Unknown message type")])
  end.

End Gateway.

(** ** Predicates and sample data used in the statements *)

(** What the three locals of the [MemStorage] callback satisfy at every
    point. *)
Definition LocalsOk (l : MemStorage.Locals) : Prop :=
  (70 <= MemStorage.matchScore l)%Q /\
  0 <= MemStorage.totalFactors l /\
  (0 <= MemStorage.matchingFactors l)%Q.

(** A goal that names an inherited property of [goalToAmenity]. *)
Definition inheritedGoal (goal : string) : bool :=
  match getProperty dbGoalToAmenity goal with
  | Inherited => true
  | _ => false
  end.

(** A label array that is [null] or empty. *)
Definition noLabels (x : TextArray) : Prop := x = None \/ x = Some [].

Module Sample.

(** Two profiles without goals and preferences. *)
Definition ann : User.t := User.mk 1 "ann" "Ann" (Some []) (Some []) false.
Definition bob : User.t := User.mk 2 "bob" "Bob" (Some []) (Some []) false.

(** One goal outside the table that no amenity of [saunaGym] matches, and
    one preference that [saunaGym] matches fully. *)
Definition zumbaUser : User.t :=
  User.mk 1 "ann" "Ann" (Some ["Zumba"]) (Some ["Sauna"]) false.

(** [zumbaUser] with the goals removed. *)
Definition saunaUser : User.t :=
  User.mk 1 "ann" "Ann" (Some []) (Some ["Sauna"]) false.

(** A profile whose only goal names an inherited property. *)
Definition constructorUser : User.t :=
  User.mk 1 "ann" "Ann" (Some ["constructor"]) (Some []) false.

Definition saunaGym : Gym.t := Gym.mk 1 "City Fitness Club" (Some ["Sauna"]).

Definition memOf (user : User.t) : MemStorage.t :=
  MemStorage.mk [(1, user)] [(1, saunaGym)] [] [] [] 2 2 1 1 1.

Definition dbOf (user : User.t) : DatabaseStorage.t :=
  DatabaseStorage.mk [user] [saunaGym] [] [] [] 1 1 1.

(** Two users and nothing else. *)
Definition pairDb : DatabaseStorage.t :=
  DatabaseStorage.mk [ann; bob] [] [] [] [] 1 1 1.

(** Bob's pending request to Ann. *)
Definition bobToAnn : UserMatch.t := UserMatch.mk 1 2 1 "pending" None 10 10.

Definition pendingDb : DatabaseStorage.t :=
  DatabaseStorage.mk [ann; bob] [] [] [bobToAnn] [] 1 2 1.

(** Ann and Bob matched, no message yet. *)
Definition annAndBob : UserMatch.t := UserMatch.mk 1 1 2 "accepted" None 10 20.

Definition matchedDb : DatabaseStorage.t :=
  DatabaseStorage.mk [ann; bob] [] [] [annAndBob] [] 1 2 1.

(** User 1 has saved gym 1 with score 85. *)
Definition saved85 : SavedGym.t := SavedGym.mk 1 1 1 (Some 85) 10.

Definition savedMem : MemStorage.t :=
  MemStorage.mk [(1, ann)] [(1, saunaGym)] [("1-1", saved85)] [] [] 2 2 2 1 1.

Definition savedDb : DatabaseStorage.t :=
  DatabaseStorage.mk [ann] [saunaGym] [saved85] [] [] 2 1 1.

(** The profiles and the gym of above with other letter case. *)
Definition zumbaUserUpper : User.t :=
  User.mk 1 "ann" "Ann" (Some ["ZUMBA"]) (Some ["sauna"]) false.

Definition saunaGymUpper : Gym.t := Gym.mk 1 "City Fitness Club" (Some ["SAUNA"]).

(** A gym that lists no amenity. *)
Definition bareGym : Gym.t := Gym.mk 2 "Iron Hall" None.

(** One listed goal and the same goal in lower case; a gym with one of the
    amenities related to it. *)
Definition muscleUser : User.t :=
  User.mk 1 "ann" "Ann" (Some ["Build Muscle"; "build muscle"]) (Some []) false.

Definition weightsGym : Gym.t :=
  Gym.mk 1 "City Fitness Club" (Some ["Free Weights"; "Sauna"]).

(** Ann and Bob matched, with one unread message from Ann to Bob, in both
    storages. *)
Definition hello : Message.t := Message.mk 1 1 2 "hello" false 30.

Definition chatDb : DatabaseStorage.t :=
  DatabaseStorage.mk [ann; bob] [] [] [annAndBob] [hello] 1 2 2.

Definition chatMem : MemStorage.t :=
  MemStorage.mk [(1, ann); (2, bob)] [] [] [(1, annAndBob)] [(1, hello)] 3 1 1 2 2.

(** An administrator besides Ann and Bob; Ann has saved a gym and talks to
    Bob. *)
Definition root : User.t := User.mk 3 "root" "Root" (Some []) (Some []) true.

Definition adminDb : DatabaseStorage.t :=
  DatabaseStorage.mk [ann; bob; root] [saunaGym] [saved85] [annAndBob] [hello] 2 2 2.

(** Bob is connected on socket 7; every socket is open. *)
Definition bobOnline : JsMap.t Z Z := [(2, 7)].

Definition allOpen (ws : Z) : Z := Gateway.OPEN.

End Sample.

(** ** Predicates and functions used in the further properties *)

(** A label array with every label in lower case. *)
Definition lowerLabels (x : TextArray) : TextArray :=
  option_map (map JsString.toLowerCase) x.

Definition lowerUser (u : User.t) : User.t :=
  User.mk (User.id u) (User.username u) (User.name u)
    (lowerLabels (User.fitnessGoals u)) (lowerLabels (User.gymPreferences u))
    (User.isAdmin u).

Definition lowerGym (g : Gym.t) : Gym.t :=
  Gym.mk (Gym.id g) (Gym.name g) (lowerLabels (Gym.amenities g)).

(** Labels made of ASCII code units only: on these [toLowerCase] folds
    exactly the letters A to Z and [length] counts the characters, as the
    embedding has it. *)
Definition asciiString (s : string) : bool :=
  forallb (fun c => Nat.ltb (nat_of_ascii c) 128) (list_ascii_of_string s).

Definition asciiLabels (x : TextArray) : bool :=
  match x with
  | Some xs => forallb asciiString xs
  | None => true
  end.

Definition asciiUser (u : User.t) : bool :=
  (asciiLabels (User.fitnessGoals u) && asciiLabels (User.gymPreferences u))%bool.

Definition asciiGym (g : Gym.t) : bool := asciiLabels (Gym.amenities g).

(** A gym without a single amenity: the array is [null] or empty. *)
Definition noAmenities (g : Gym.t) : Prop := noLabels (Gym.amenities g).

(** The three locals within the given bounds: the score between [lo] and
    [hi], at most [n] dimensions counted, and [matchingFactors] between 0
    and [totalFactors]. *)
Definition LocalsWithin (lo hi : Q) (n : Z) (l : MemStorage.Locals) : Prop :=
  (lo <= MemStorage.matchScore l)%Q /\ (MemStorage.matchScore l <= hi)%Q /\
  0 <= MemStorage.totalFactors l <= n /\
  (0 <= MemStorage.matchingFactors l)%Q /\
  (MemStorage.matchingFactors l <= inject_Z (MemStorage.totalFactors l))%Q.

(** At most one record joins any two users. *)
Definition PairUnique (rows : list UserMatch.t) : Prop :=
  forall a b : Z, (List.length (filter (joins a b) rows) <= 1)%nat.


(** Every message id is below the sequence and no two messages share one. *)
Definition MessageIdsFresh (st : DatabaseStorage.t) : Prop :=
  (forall m : Message.t,
      In m (DatabaseStorage.messages st) -> Message.id m < DatabaseStorage.messagesSeq st) /\
  NoDup (map Message.id (DatabaseStorage.messages st)).

(** The same message up to its [read] flag. *)
Definition sameButRead (m m' : Message.t) : Prop :=
  Message.id m' = Message.id m /\ Message.senderId m' = Message.senderId m /\
  Message.receiverId m' = Message.receiverId m /\
  Message.content m' = Message.content m /\
  Message.createdAt m' = Message.createdAt m.

(** [m] with the given status and update time. *)
Definition withStatus (m : UserMatch.t) (status : string) (now : Z) : UserMatch.t :=
  UserMatch.mk (UserMatch.id m) (UserMatch.senderId m) (UserMatch.receiverId m)
    status (UserMatch.matchScore m) (UserMatch.createdAt m) now.

(** Every user-match id is below the sequence and no two rows share one:
    what the primary key and the [serial] column guarantee. *)
Definition MatchIdsFresh (st : DatabaseStorage.t) : Prop :=
  (forall m : UserMatch.t,
      In m (DatabaseStorage.userMatches st) ->
      UserMatch.id m < DatabaseStorage.userMatchesSeq st) /\
  NoDup (map UserMatch.id (DatabaseStorage.userMatches st)).

(** One POST /api/user-matches request: the clock, the authenticated user
    and the parsed body. *)
Record MatchRequest : Type := mkMatchRequest {
  requestTime : Z;
  requestUser : option Z;
  requestBody : option InsertUserMatch.t
}.

(** The storage after a sequence of such requests. *)
Definition afterRequests (st : DatabaseStorage.t) (reqs : list MatchRequest)
  : DatabaseStorage.t :=
  fold_left
    (fun st1 req =>
       fst (Routes.postUserMatches st1 (requestTime req) (requestUser req)
              (requestBody req)))
    reqs st.

(** The rows [getUserMatches] selects for a user and an optional status. *)
Definition listedFor (userId : Z) (status : option string) (m : UserMatch.t) : bool :=
  (((UserMatch.senderId m =? userId) || (UserMatch.receiverId m =? userId)) &&
   MemStorage.statusFilter status m)%bool.

(** The row tests of [getUnreadMessageCount] and [markMessagesAsRead] of
    [DatabaseStorage], and the row update of the latter. *)
Definition unreadTo (userId : Z) (m : Message.t) : bool :=
  ((Message.receiverId m =? userId) && negb (Message.read m))%bool.

Definition unreadFromTo (receiverId senderId : Z) (m : Message.t) : bool :=
  ((Message.receiverId m =? receiverId) && (Message.senderId m =? senderId) &&
   negb (Message.read m))%bool.

Definition markRow (receiverId senderId : Z) (m : Message.t) : Message.t :=
  if unreadFromTo receiverId senderId m
  then Message.mk (Message.id m) (Message.senderId m) (Message.receiverId m)
         (Message.content m) true (Message.createdAt m)
  else m.

(** A goal that is an own key of the [DatabaseStorage] goal table. *)
Definition listedGoal (goal : string) : bool :=
  match ownProperty dbGoalToAmenity goal with
  | Some _ => true
  | None => false
  end.

(** A [MemStorage] store whose records sit under their own id, with every
    key below the id counter and no key twice: how [set(id, record)] with
    a counter that only grows leaves a store. *)
Definition KeyedBy {V : Type} (idOf : V -> Z) (counter : Z) (m : JsMap.t Z V) : Prop :=
  Forall (fun e => fst e = idOf (snd e) /\ fst e < counter) m /\
  NoDup (JsMap.keys m).

Definition MessageStoreKeyed (st : MemStorage.t) : Prop :=
  KeyedBy Message.id (MemStorage.messageIdCounter st) (MemStorage.messageStore st).

Definition MatchStoreKeyed (st : MemStorage.t) : Prop :=
  KeyedBy UserMatch.id (MemStorage.userMatchIdCounter st) (MemStorage.userMatchStore st).

(** The two storages hold the same messages, in whatever order each keeps
    them, and will hand out the same next id. *)
Definition sameMessages (mem : MemStorage.t) (db : DatabaseStorage.t) : Prop :=
  Permutation (JsMap.values (MemStorage.messageStore mem)) (DatabaseStorage.messages db) /\
  MemStorage.messageIdCounter mem = DatabaseStorage.messagesSeq db.

(** The same for user matches. *)
Definition sameMatches (mem : MemStorage.t) (db : DatabaseStorage.t) : Prop :=
  Permutation (JsMap.values (MemStorage.userMatchStore mem))
    (DatabaseStorage.userMatches db) /\
  MemStorage.userMatchIdCounter mem = DatabaseStorage.userMatchesSeq db.

(** A nullable [integer] column holds the value. *)
Definition int32Column (x : option Z) : bool :=
  match x with
  | Some n => int32 n
  | None => true
  end.

(** What the foreign keys and the column type of [user_matches] ask of a
    row to insert. *)
Definition MatchInsertable (db : DatabaseStorage.t) (d : InsertUserMatch.t) : Prop :=
  DatabaseStorage.getUser db (InsertUserMatch.senderId d) <> None /\
  DatabaseStorage.getUser db (InsertUserMatch.receiverId d) <> None /\
  int32Column (InsertUserMatch.matchScore d) = true.

(** What the foreign keys of [messages] ask of a row to insert. *)
Definition MessageInsertable (db : DatabaseStorage.t) (d : InsertMessage.t) : Prop :=
  DatabaseStorage.getUser db (InsertMessage.senderId d) <> None /\
  DatabaseStorage.getUser db (InsertMessage.receiverId d) <> None.

(** * Properties *)

(** ** Rational arithmetic of the scorer *)

Lemma ofNat_nonneg (n : nat) : (0 <= JsMath.ofNat n)%Q.
Proof.
  unfold JsMath.ofNat, Qle; simpl. lia.
Qed.

Lemma ratio_nonneg (a b : nat) : (0 <= JsMath.ofNat a / JsMath.ofNat b)%Q.
Proof.
  unfold Qdiv. apply Qmult_le_0_compat.
  - apply ofNat_nonneg.
  - apply Qinv_le_0_compat, ofNat_nonneg.
Qed.

Lemma min_nonneg (a b : Q) : (0 <= a)%Q -> (0 <= b)%Q -> (0 <= JsMath.min a b)%Q.
Proof.
  intros Ha Hb. unfold JsMath.min. destruct (Qle_bool a b); assumption.
Qed.

Lemma min_le_l (a b : Q) : (JsMath.min a b <= a)%Q.
Proof.
  unfold JsMath.min. destruct (Qle_bool a b) eqn:E.
  - apply Qle_refl.
  - apply Qlt_le_weak, Qnot_le_lt. intro H.
    apply Qle_bool_iff in H. congruence.
Qed.

Lemma inject_Z_nonneg (z : Z) : 0 <= z -> (0 <= inject_Z z)%Q.
Proof.
  intro H. unfold Qle; simpl. lia.
Qed.

Lemma round_ge (z : Z) (x : Q) : (inject_Z z <= x)%Q -> z <= JsMath.round x.
Proof.
  intro H. unfold JsMath.round.
  rewrite <- (Qfloor_Z z). apply Qfloor_resp_le.
  apply Qle_trans with x; [assumption|].
  rewrite <- (Qplus_0_r x) at 1. apply Qplus_le_r. discriminate.
Qed.

(** ** Binary64 rounding *)

Lemma pow2_pos (e : Z) : (0 < Binary64.pow2 e)%Q.
Proof.
  apply Qpower_0_lt. reflexivity.
Qed.

Lemma pow2_le (a b : Z) : a <= b -> (Binary64.pow2 a <= Binary64.pow2 b)%Q.
Proof.
  intro H. apply Qpower_le_compat_l; [exact H|discriminate].
Qed.

Lemma pow2_lt_inv (a b : Z) : (Binary64.pow2 a < Binary64.pow2 b)%Q -> a < b.
Proof.
  intro H. apply (Qpower_lt_compat_l_inv 2); [exact H|reflexivity].
Qed.

Lemma pow2_inject (n : Z) : 0 <= n -> (inject_Z (2 ^ n) == Binary64.pow2 n)%Q.
Proof.
  intro H. unfold Binary64.pow2. now rewrite Zpower_Qpower.
Qed.

Lemma pow2_minus (a b : Z) :
  (Binary64.pow2 (a - b) == Binary64.pow2 a / Binary64.pow2 b)%Q.
Proof.
  apply Qpower_minus. discriminate.
Qed.

Lemma binade_spec (x : Q) :
  (0 < x)%Q ->
  (Binary64.pow2 (Binary64.binade x) <= x)%Q /\
  (x < Binary64.pow2 (Binary64.binade x + 1))%Q.
Proof.
  intro Hx. destruct x as [n d].
  assert (Hn : 0 < n) by (unfold Qlt in Hx; simpl in Hx; lia).
  unfold Binary64.binade. cbn [Qnum Qden].
  set (a := Z.log2 n). set (b := Z.log2 (Z.pos d)).
  assert (Ha0 : 0 <= a) by apply Z.log2_nonneg.
  assert (Hb0 : 0 <= b) by apply Z.log2_nonneg.
  destruct (Z.log2_spec n Hn) as [Ha1 Ha2]. fold a in Ha1, Ha2.
  destruct (Z.log2_spec (Z.pos d) (Pos2Z.is_pos d)) as [Hb1 Hb2]. fold b in Hb1, Hb2.
  assert (HA1 : (Binary64.pow2 a <= inject_Z n)%Q).
  { rewrite <- pow2_inject by assumption. now rewrite <- Zle_Qle. }
  assert (HA2 : (inject_Z n < Binary64.pow2 (a + 1))%Q).
  { rewrite <- pow2_inject by lia. now rewrite <- Zlt_Qlt. }
  assert (HB1 : (Binary64.pow2 b <= inject_Z (Z.pos d))%Q).
  { rewrite <- pow2_inject by assumption. now rewrite <- Zle_Qle. }
  assert (HB2 : (inject_Z (Z.pos d) < Binary64.pow2 (b + 1))%Q).
  { rewrite <- pow2_inject by lia. now rewrite <- Zlt_Qlt. }
  assert (Hxd : (n # d == inject_Z n / inject_Z (Z.pos d))%Q) by apply Qmake_Qdiv.
  assert (Hd : (0 < inject_Z (Z.pos d))%Q) by (rewrite <- (Zlt_Qlt 0); lia).
  pose proof (pow2_pos a) as Pa. pose proof (pow2_pos b) as Pb.
  pose proof (pow2_pos (a + 1)) as Pa1. pose proof (pow2_pos (b + 1)) as Pb1.
  assert (Hup : (n # d < Binary64.pow2 (a - b + 1))%Q).
  { replace (a - b + 1) with (a + 1 - b) by lia.
    rewrite pow2_minus, Hxd.
    apply Qlt_shift_div_r; [exact Hd|].
    unfold Qdiv. rewrite <- Qmult_assoc, (Qmult_comm (/ _)), Qmult_assoc.
    apply Qlt_shift_div_l; [exact Pb|].
    apply Qle_lt_trans with (inject_Z n * inject_Z (Z.pos d))%Q.
    - apply Qmult_le_l; [rewrite <- (Zlt_Qlt 0); exact Hn|exact HB1].
    - apply Qmult_lt_r; [exact Hd|exact HA2]. }
  assert (Hlo : (Binary64.pow2 (a - b - 1) <= n # d)%Q).
  { replace (a - b - 1) with (a - (b + 1)) by lia.
    rewrite pow2_minus, Hxd.
    apply Qle_shift_div_l; [exact Hd|].
    unfold Qdiv. rewrite <- Qmult_assoc, (Qmult_comm (/ _)), Qmult_assoc.
    apply Qle_shift_div_r; [exact Pb1|].
    apply Qle_trans with (inject_Z n * inject_Z (Z.pos d))%Q.
    - apply Qmult_le_compat_r; [exact HA1|apply Qlt_le_weak; exact Hd].
    - apply Qmult_le_l; [rewrite <- (Zlt_Qlt 0); exact Hn|].
      apply Qlt_le_weak; exact HB2. }
  destruct (Qle_bool (Binary64.pow2 (a - b)) (n # d)) eqn:E.
  - apply Qle_bool_iff in E. split; [exact E|exact Hup].
  - split; [exact Hlo|].
    replace (a - b - 1 + 1) with (a - b) by lia.
    apply Qnot_le_lt. intro H. apply Qle_bool_iff in H. congruence.
Qed.

Lemma nearestEven_floor (q : Q) :
  Qfloor q <= Binary64.nearestEven q <= Qfloor q + 1.
Proof.
  unfold Binary64.nearestEven.
  destruct (q - inject_Z (Qfloor q) ?= 1 # 2)%Q; [destruct (Z.even _)| |]; lia.
Qed.

Lemma nearestEven_below (q : Q) (N : Z) :
  (q < inject_Z N - (1 # 2))%Q -> Binary64.nearestEven q <= N - 1.
Proof.
  intro H. pose proof (nearestEven_floor q) as [_ Hs].
  pose proof (Qfloor_le q) as Hf.
  assert (Hlt : (inject_Z (Qfloor q) < inject_Z N)%Q) by lra.
  rewrite <- Zlt_Qlt in Hlt.
  destruct (Z.eq_dec (Qfloor q) (N - 1)) as [E|E]; [|lia].
  unfold Binary64.nearestEven.
  assert (Hc : (q - inject_Z (Qfloor q) < 1 # 2)%Q).
  { rewrite E. unfold Z.sub. rewrite inject_Z_plus.
    change (inject_Z (- (1))) with (- (1))%Q. lra. }
  destruct (q - inject_Z (Qfloor q) ?= 1 # 2)%Q eqn:C.
  - apply Qeq_alt in C. lra.
  - lia.
  - apply Qgt_alt in C. lra.
Qed.

Lemma nearestEven_nonneg (q : Q) : (0 <= q)%Q -> 0 <= Binary64.nearestEven q.
Proof.
  intro H. pose proof (nearestEven_floor q) as [Hl _].
  assert (0 <= Qfloor q); [|lia].
  change 0 with (Qfloor 0). now apply Qfloor_resp_le.
Qed.

Lemma ulp_pos (x : Q) : (0 < Binary64.ulp x)%Q.
Proof.
  apply pow2_pos.
Qed.

Lemma bySign_comp (f : Q -> Q) (x y : Q) :
  (x == y)%Q -> Binary64.bySign f x = Binary64.bySign f y.
Proof.
  intro H. unfold Binary64.bySign. now rewrite (Qred_complete x y H).
Qed.

Lemma bySign_pos (f : Q -> Q) (x : Q) :
  (0 < x)%Q -> Binary64.bySign f x = f (Qred x).
Proof.
  intro H. unfold Binary64.bySign.
  assert (Hc : (Qred x ?= 0)%Q = Gt).
  { apply Qgt_alt. now rewrite Qred_correct. }
  now rewrite Hc.
Qed.

Lemma bySign_zero (f : Q -> Q) (x : Q) :
  (x == 0)%Q -> Binary64.bySign f x = 0%Q.
Proof.
  intro H. unfold Binary64.bySign.
  assert (Hc : (Qred x ?= 0)%Q = Eq).
  { apply Qeq_alt. now rewrite Qred_correct. }
  now rewrite Hc.
Qed.

Lemma truncate_nonneg (x : Q) : (0 <= x)%Q -> (0 <= Binary64.truncate x)%Q.
Proof.
  intro H. unfold Binary64.truncate.
  destruct (Qlt_le_dec 0 x) as [Hp|Hn].
  - rewrite bySign_pos by exact Hp. unfold Binary64.truncatePositive.
    pose proof (Qred_correct x) as Hr. set (y := Qred x) in *.
    pose proof (ulp_pos y) as Hu.
    apply Qmult_le_0_compat; [|now apply Qlt_le_weak].
    rewrite <- (Zle_Qle 0). change 0 with (Qfloor 0). apply Qfloor_resp_le.
    apply Qle_shift_div_l; [exact Hu|]. lra.
  - rewrite bySign_zero by lra. apply Qle_refl.
Qed.

Lemma round_nonneg (x : Q) : (0 <= x)%Q -> (0 <= Binary64.round x)%Q.
Proof.
  intro H. unfold Binary64.round.
  destruct (Qlt_le_dec 0 x) as [Hp|Hn].
  - rewrite bySign_pos by exact Hp. unfold Binary64.roundPositive.
    pose proof (Qred_correct x) as Hr. set (y := Qred x) in *.
    pose proof (ulp_pos y) as Hu.
    apply Qmult_le_0_compat; [|now apply Qlt_le_weak].
    rewrite <- (Zle_Qle 0). apply nearestEven_nonneg.
    apply Qle_shift_div_l; [exact Hu|]. lra.
  - rewrite bySign_zero by lra. apply Qle_refl.
Qed.

(** A binary64 value below 1 is at most [1 - 2^-53]. *)
Lemma truncate_below_one (x : Q) :
  (0 <= x)%Q -> (x < 1)%Q -> (Binary64.truncate x <= 1 - Binary64.pow2 (-53))%Q.
Proof.
  intros H0 H1. unfold Binary64.truncate.
  destruct (Qlt_le_dec 0 x) as [Hp|Hn].
  - rewrite bySign_pos by exact Hp.
    set (y := Qred x).
    assert (Hy0 : (0 < y)%Q) by (unfold y; now rewrite Qred_correct).
    assert (Hy1 : (y < 1)%Q) by (unfold y; now rewrite Qred_correct).
    destruct (binade_spec y Hy0) as [Hlo Hhi].
    pose proof (ulp_pos y) as Hu.
    assert (He : Binary64.binade y < 0).
    { apply pow2_lt_inv. apply Qle_lt_trans with y; [exact Hlo|]. exact Hy1. }
    assert (Hfl : (Binary64.truncatePositive y <= y)%Q).
    { unfold Binary64.truncatePositive.
      apply Qle_trans with (y / Binary64.ulp y * Binary64.ulp y)%Q.
      - apply Qmult_le_compat_r; [apply Qfloor_le|now apply Qlt_le_weak].
      - unfold Qdiv. rewrite <- Qmult_assoc, (Qmult_comm (/ _)), Qmult_inv_r.
        + rewrite Qmult_1_r. apply Qle_refl.
        + intro E. rewrite E in Hu. discriminate. }
    destruct (Z.eq_dec (Binary64.binade y) (-1)) as [E|E].
    + unfold Binary64.truncatePositive, Binary64.ulp in *. rewrite E in *.
      change (Z.max (-1 - 52) (-1074)) with (-53) in *.
      assert (Hk : Qfloor (y / Binary64.pow2 (-53)) <= 2 ^ 53 - 1).
      { assert (Hq : (y / Binary64.pow2 (-53) < inject_Z (2 ^ 53))%Q).
        { apply Qlt_shift_div_r; [exact Hu|].
          change (inject_Z (2 ^ 53) * Binary64.pow2 (-53))%Q with
            ((9007199254740992 # 1) * (1 # 9007199254740992))%Q.
          setoid_replace ((9007199254740992 # 1) * (1 # 9007199254740992))%Q with 1%Q
            by reflexivity.
          exact Hy1. }
        pose proof (Qfloor_le (y / Binary64.pow2 (-53))) as Hf.
        assert (Hl : (inject_Z (Qfloor (y / Binary64.pow2 (-53))) < inject_Z (2 ^ 53))%Q)
          by lra.
        rewrite <- Zlt_Qlt in Hl. lia. }
      rewrite Zle_Qle in Hk.
      apply Qle_trans with (inject_Z (2 ^ 53 - 1) * Binary64.pow2 (-53))%Q.
      * apply Qmult_le_compat_r; [exact Hk|now apply Qlt_le_weak].
      * vm_compute. discriminate.
    + apply Qle_trans with y; [exact Hfl|].
      apply Qle_trans with (Binary64.pow2 (-1)).
      * apply Qlt_le_weak. apply Qlt_le_trans with (Binary64.pow2 (Binary64.binade y + 1));
          [exact Hhi|]. apply pow2_le. lia.
      * vm_compute. discriminate.
  - rewrite bySign_zero by lra. vm_compute. discriminate.
Qed.

(** The product of a binary64 value below 1 and 15 rounds to less than 15. *)
Lemma round_below_15 (y : Q) :
  (0 <= y)%Q -> (y <= 15 * (1 - Binary64.pow2 (-53)))%Q -> (Binary64.round y < 15)%Q.
Proof.
  intros H0 H1. unfold Binary64.round.
  destruct (Qlt_le_dec 0 y) as [Hp|Hn].
  - rewrite bySign_pos by exact Hp.
    set (z := Qred y).
    assert (Hz0 : (0 < z)%Q) by (unfold z; now rewrite Qred_correct).
    assert (Hz1 : (z <= 15 * (1 - Binary64.pow2 (-53)))%Q)
      by (unfold z; now rewrite Qred_correct).
    destruct (binade_spec z Hz0) as [Hlo Hhi].
    pose proof (ulp_pos z) as Hu.
    assert (He : Binary64.binade z < 4).
    { apply pow2_lt_inv. apply Qle_lt_trans with z; [exact Hlo|].
      apply Qle_lt_trans with (15 * (1 - Binary64.pow2 (-53)))%Q; [exact Hz1|].
      vm_compute. reflexivity. }
    unfold Binary64.roundPositive.
    destruct (Z.eq_dec (Binary64.binade z) 3) as [E|E].
    + unfold Binary64.ulp in *. rewrite E in *.
      change (Z.max (3 - 52) (-1074)) with (-49) in *.
      assert (Hk : Binary64.nearestEven (z / Binary64.pow2 (-49)) <= 15 * 2 ^ 49 - 1).
      { apply nearestEven_below. apply Qlt_shift_div_r; [exact Hu|].
        apply Qle_lt_trans with (15 * (1 - Binary64.pow2 (-53)))%Q; [exact Hz1|].
        vm_compute. reflexivity. }
      rewrite Zle_Qle in Hk.
      apply Qle_lt_trans with (inject_Z (15 * 2 ^ 49 - 1) * Binary64.pow2 (-49))%Q.
      * apply Qmult_le_compat_r; [exact Hk|now apply Qlt_le_weak].
      * vm_compute. reflexivity.
    + pose proof (nearestEven_floor (z / Binary64.ulp z)) as [_ Hs].
      pose proof (Qfloor_le (z / Binary64.ulp z)) as Hf.
      assert (Hn : (inject_Z (Binary64.nearestEven (z / Binary64.ulp z)) <=
                    z / Binary64.ulp z + 1)%Q).
      { apply Qle_trans with (inject_Z (Qfloor (z / Binary64.ulp z) + 1)).
        - now rewrite <- Zle_Qle.
        - rewrite inject_Z_plus. change (inject_Z 1) with 1%Q. lra. }
      assert (Hu2 : (Binary64.ulp z <= Binary64.pow2 (-50))%Q).
      { unfold Binary64.ulp. apply pow2_le. lia. }
      assert (Hz8 : (z < Binary64.pow2 3)%Q).
      { apply Qlt_le_trans with (Binary64.pow2 (Binary64.binade z + 1)); [exact Hhi|].
        apply pow2_le. lia. }
      apply Qle_lt_trans with ((z / Binary64.ulp z + 1) * Binary64.ulp z)%Q.
      * apply Qmult_le_compat_r; [exact Hn|now apply Qlt_le_weak].
      * assert (Eq1 : ((z / Binary64.ulp z + 1) * Binary64.ulp z == z + Binary64.ulp z)%Q).
        { field. intro E0. rewrite E0 in Hu. discriminate. }
        rewrite Eq1.
        apply Qlt_le_trans with (Binary64.pow2 3 + Binary64.pow2 (-50))%Q.
        -- apply Qplus_lt_le_compat; assumption.
        -- vm_compute. discriminate.
  - rewrite bySign_zero by lra. reflexivity.
Qed.

(** ** The [MemStorage] scorer *)

Lemma add_bonus_ok (x : Q) (b : Z) : (70 <= x)%Q -> 0 <= b -> (70 <= x + inject_Z b)%Q.
Proof.
  intros Hx Hb.
  rewrite <- (Qplus_0_r 70). apply Qplus_le_compat; [assumption|].
  now apply inject_Z_nonneg.
Qed.

Lemma add_nonneg (x y : Q) : (0 <= x)%Q -> (0 <= y)%Q -> (0 <= x + y)%Q.
Proof.
  intros Hx Hy. rewrite <- (Qplus_0_r 0). now apply Qplus_le_compat.
Qed.

Lemma goalDimension_ok (user : User.t) (gym : Gym.t) (l : MemStorage.Locals) :
  LocalsOk l -> LocalsOk (MemStorage.goalDimension user gym l).
Proof.
  intros (Hs & Ht & Hm). unfold MemStorage.goalDimension.
  destruct (User.fitnessGoals user) as [goals|]; [|now repeat split].
  destruct (Gym.amenities gym) as [gymAmenities|]; [|now repeat split].
  destruct (Nat.ltb 0 (List.length goals)); [|now repeat split].
  repeat split; simpl.
  - apply add_bonus_ok; [assumption|lia].
  - lia.
  - destruct (JsMath.gt _ _); [|assumption].
    apply add_nonneg; [assumption|]. apply ratio_nonneg.
Qed.

Lemma preferenceDimension_ok (user : User.t) (gym : Gym.t) (l : MemStorage.Locals) :
  LocalsOk l -> LocalsOk (MemStorage.preferenceDimension user gym l).
Proof.
  intros (Hs & Ht & Hm). unfold MemStorage.preferenceDimension.
  destruct (User.gymPreferences user) as [prefs|]; [|now repeat split].
  destruct (Gym.amenities gym) as [gymAmenities|]; [|now repeat split].
  destruct (Nat.ltb 0 (List.length prefs)); [|now repeat split].
  repeat split; simpl.
  - apply add_bonus_ok; [assumption|lia].
  - lia.
  - apply add_nonneg; [assumption|].
    apply min_nonneg; [discriminate|apply ratio_nonneg].
Qed.

Lemma dimensions_ok (user : User.t) (gym : Gym.t) :
  LocalsOk (MemStorage.dimensions user gym).
Proof.
  apply preferenceDimension_ok, goalDimension_ok.
  repeat split; simpl; try lia; discriminate.
Qed.

Lemma factorScore_nonneg (l : MemStorage.Locals) :
  LocalsOk l -> (0 <= MemStorage.factorScore l)%Q.
Proof.
  intros (_ & Ht & Hm). unfold MemStorage.factorScore.
  apply Qmult_le_0_compat; [|discriminate].
  unfold Qdiv. apply Qmult_le_0_compat; [assumption|].
  apply Qinv_le_0_compat. now apply inject_Z_nonneg.
Qed.

(** The [MemStorage] score of any gym for any profile lies in [70, 100]. *)
Lemma mem_score_bounds (user : User.t) (gym : Gym.t) :
  70 <= MemStorage.score user gym <= 100.
Proof.
  unfold MemStorage.score. split; [|apply Z.le_min_l].
  apply Z.min_glb; [lia|].
  pose proof (dimensions_ok user gym) as Hok.
  pose proof (factorScore_nonneg _ Hok) as Hf.
  destruct Hok as (Hs & _ & _).
  apply round_ge.
  destruct (0 <? MemStorage.totalFactors (MemStorage.dimensions user gym)).
  - change (inject_Z 70) with 70%Q.
    rewrite <- (Qplus_0_r 70). now apply Qplus_le_compat.
  - exact Hs.
Qed.

(** ** Sorting *)

Section SortFacts.
Context {A : Type} (cmp : A -> A -> Z).

Lemma insertSorted_perm (x : A) (l : list A) :
  Permutation (insertSorted cmp x l) (x :: l).
Proof.
  induction l as [|y l IH]; simpl; [reflexivity|].
  destruct (cmp x y <=? 0); [reflexivity|].
  rewrite IH. apply perm_swap.
Qed.

Lemma Array_sort_perm (l : list A) : Permutation (Array_sort cmp l) l.
Proof.
  induction l as [|x l IH]; simpl; [reflexivity|].
  rewrite insertSorted_perm. now constructor.
Qed.

Lemma Array_sort_In (l : list A) (x : A) : In x (Array_sort cmp l) <-> In x l.
Proof.
  split; apply Permutation_in; [|symmetry]; apply Array_sort_perm.
Qed.

(** A list whose elements never compare greater than a later one is left
    as it is. *)
Lemma Array_sort_fixed (l : list A) :
  (forall x y, In x l -> In y l -> cmp x y <= 0) -> Array_sort cmp l = l.
Proof.
  induction l as [|x l IH]; intro H; simpl; [reflexivity|].
  fold (Array_sort cmp l). rewrite IH.
  - destruct l as [|y l']; simpl; [reflexivity|].
    assert (Hxy : cmp x y <= 0) by (apply H; simpl; auto).
    apply Z.leb_le in Hxy. now rewrite Hxy.
  - intros a b Ha Hb. apply H; now right.
Qed.

End SortFacts.

(** ** The [DatabaseStorage] scorer *)

Lemma random_mul_15 (r : Q) :
  (0 <= r)%Q -> (r < 1)%Q ->
  (0 <= JsMath.mul (JsMath.random r) 15)%Q /\ (JsMath.mul (JsMath.random r) 15 < 15)%Q.
Proof.
  intros H0 H1. unfold JsMath.mul, JsMath.random.
  pose proof (truncate_nonneg r H0) as Ht0.
  pose proof (truncate_below_one r H0 H1) as Ht1.
  split.
  - apply round_nonneg. lra.
  - apply round_below_15; lra.
Qed.

Lemma baseScore_bounds (r : Q) : (0 <= r)%Q -> (r < 1)%Q -> 75 <= DatabaseStorage.baseScore r <= 89.
Proof.
  intros H0 H1. unfold DatabaseStorage.baseScore, JsMath.floor.
  destruct (random_mul_15 r H0 H1) as [Hlo Hhi].
  set (y := JsMath.mul (JsMath.random r) 15) in *.
  assert (Hf0 : 0 <= Qfloor y).
  { change 0 with (Qfloor 0). now apply Qfloor_resp_le. }
  assert (Hf1 : Qfloor y < 15).
  { rewrite Zlt_Qlt. apply Qle_lt_trans with y; [apply Qfloor_le|exact Hhi]. }
  lia.
Qed.

Lemma baseScore_comp (r1 r2 : Q) :
  (r1 == r2)%Q -> DatabaseStorage.baseScore r1 = DatabaseStorage.baseScore r2.
Proof.
  intro H. unfold DatabaseStorage.baseScore, JsMath.random, Binary64.truncate.
  now rewrite (bySign_comp Binary64.truncatePositive r1 r2 H).
Qed.

(** The rounding of the product is the source's: for the double nearest to
    0.6 the base score is 84, where the exact product would floor to 8. *)
Lemma baseScore_rounds_the_product :
  DatabaseStorage.baseScore (5404319552844595 # 9007199254740992) = 84 /\
  Qfloor ((5404319552844595 # 9007199254740992) * 15) + 75 = 83.
Proof.
  split; reflexivity.
Qed.

Lemma boost_fold_ge (gymAmenities related : list string) (z : Z) :
  z <= fold_left
         (fun acc amenity =>
            if existsb (String.eqb amenity) gymAmenities then acc + 2 else acc)
         related z.
Proof.
  revert z. induction related as [|a related IH]; intro z; simpl; [lia|].
  destruct (existsb _ _); [|apply IH].
  specialize (IH (z + 2)). lia.
Qed.

Lemma boost_ge (gymAmenities : list string) (z z' : Z) (goal : string) :
  DatabaseStorage.boost gymAmenities z goal = Returned z' -> z <= z'.
Proof.
  unfold DatabaseStorage.boost.
  destruct (getProperty dbGoalToAmenity goal); intro H; inversion H; subst.
  - apply boost_fold_ge.
  - lia.
Qed.

Lemma boostAll_ge (gymAmenities goals : list string) (z z' : Z) :
  DatabaseStorage.boostAll gymAmenities z goals = Returned z' -> z <= z'.
Proof.
  revert z. induction goals as [|goal goals IH]; intros z H; simpl in H.
  - inversion H. lia.
  - destruct (DatabaseStorage.boost gymAmenities z goal) as [z1|e] eqn:E;
      simpl in H; [|discriminate].
    apply boost_ge in E. apply IH in H. lia.
Qed.

Lemma boostAll_returns (gymAmenities goals : list string) (z : Z) :
  existsb inheritedGoal goals = false ->
  exists z', DatabaseStorage.boostAll gymAmenities z goals = Returned z'.
Proof.
  revert z. induction goals as [|goal goals IH]; intros z H; simpl in *.
  - now exists z.
  - apply orb_false_iff in H as [Hg Hrest].
    unfold DatabaseStorage.boost. unfold inheritedGoal in Hg.
    destruct (getProperty dbGoalToAmenity goal); try discriminate; simpl;
      now apply IH.
Qed.

Lemma boostAll_throws (gymAmenities goals : list string) (z : Z) :
  existsb inheritedGoal goals = true ->
  DatabaseStorage.boostAll gymAmenities z goals =
  Threw (TypeError "relatedAmenities.forEach is not a function").
Proof.
  revert z. induction goals as [|goal goals IH]; intros z H; simpl in *.
  - discriminate.
  - unfold DatabaseStorage.boost. unfold inheritedGoal in H.
    destruct (getProperty dbGoalToAmenity goal); simpl in *; auto.
Qed.

(** The callback throws as soon as one goal names an inherited property
    and the gym has an amenity array. *)
Lemma db_score_throws (r : Q) (user : User.t) (gym : Gym.t)
    (goals gymAmenities : list string) :
  User.fitnessGoals user = Some goals -> Gym.amenities gym = Some gymAmenities ->
  existsb inheritedGoal goals = true ->
  DatabaseStorage.score r user gym =
  Threw (TypeError "relatedAmenities.forEach is not a function").
Proof.
  intros Hg Ha Hi. unfold DatabaseStorage.score. rewrite Hg, Ha.
  now rewrite (boostAll_throws gymAmenities goals _ Hi).
Qed.

(** Whenever the [DatabaseStorage] callback returns, its score lies in
    [75, 100]. *)
Lemma db_score_bounds (r : Q) (user : User.t) (gym : Gym.t) (s : Z) :
  (0 <= r)%Q -> (r < 1)%Q ->
  DatabaseStorage.score r user gym = Returned s -> 75 <= s <= 100.
Proof.
  intros H0 H1. pose proof (baseScore_bounds r H0 H1) as Hb.
  unfold DatabaseStorage.score.
  destruct (User.fitnessGoals user) as [goals|];
    [destruct (Gym.amenities gym) as [gymAmenities|]|]; simpl.
  - destruct (DatabaseStorage.boostAll _ _ _) as [z|e] eqn:E; simpl; [|discriminate].
    apply boostAll_ge in E. intro H. inversion H. lia.
  - intro H. inversion H. lia.
  - intro H. inversion H. lia.
Qed.

(** The callback returns unless a goal names an inherited property while the
    gym has an amenity array. *)
Lemma db_score_returns (r : Q) (user : User.t) (gym : Gym.t) :
  match User.fitnessGoals user with
  | Some goals => existsb inheritedGoal goals = false
  | None => True
  end ->
  exists s, DatabaseStorage.score r user gym = Returned s.
Proof.
  unfold DatabaseStorage.score.
  destruct (User.fitnessGoals user) as [goals|];
    [destruct (Gym.amenities gym) as [gymAmenities|]|]; simpl; intro H;
    try (eexists; reflexivity).
  destruct (boostAll_returns gymAmenities goals (DatabaseStorage.baseScore r) H)
    as [z Hz].
  rewrite Hz. simpl. eexists; reflexivity.
Qed.

(** ** Determinism (C1) *)

Lemma scoreAll_draws (rand1 rand2 : nat -> Q) (user : User.t) (allGyms : list Gym.t) :
  forall k1 k2 : nat,
  (forall i : nat, (i < List.length allGyms)%nat -> (rand1 (k1 + i)%nat == rand2 (k2 + i)%nat)%Q) ->
  DatabaseStorage.scoreAll rand1 k1 user allGyms =
  DatabaseStorage.scoreAll rand2 k2 user allGyms.
Proof.
  induction allGyms as [|gym rest IH]; intros k1 k2 H; simpl; [reflexivity|].
  assert (E : DatabaseStorage.score (rand1 k1) user gym =
              DatabaseStorage.score (rand2 k2) user gym).
  { unfold DatabaseStorage.score.
    rewrite (baseScore_comp (rand1 k1) (rand2 k2)); [reflexivity|].
    specialize (H 0%nat). rewrite !Nat.add_0_r in H. apply H. simpl. lia. }
  rewrite E. rewrite (IH (S k1) (S k2)); [reflexivity|].
  intros i Hi. specialize (H (S i)).
  rewrite !Nat.add_succ_r in H. simpl. apply H. simpl. lia.
Qed.

(** C1, counterexample: on one stored state and one user,
    [DatabaseStorage.getMatchesForUser] scores the same gym 75 when
    [Math.random()] yields 0 and 82 when it yields 1/2. *)
Lemma C1_db_scores_differ_between_calls :
  DatabaseStorage.getMatchesForUser (fun _ => 0%Q) 0 (Sample.dbOf Sample.ann) 1 =
    Returned [GymMatch.mk Sample.saunaGym 75] /\
  DatabaseStorage.getMatchesForUser (fun _ => (1 # 2)%Q) 0 (Sample.dbOf Sample.ann) 1 =
    Returned [GymMatch.mk Sample.saunaGym 82] /\
  DatabaseStorage.getMatchesForUser (fun _ => 0%Q) 0 (Sample.dbOf Sample.ann) 1 <>
  DatabaseStorage.getMatchesForUser (fun _ => (1 # 2)%Q) 0 (Sample.dbOf Sample.ann) 1.
Proof.
  split; [reflexivity|]. split; [reflexivity|].
  intro H. vm_compute in H. discriminate.
Qed.

(** C1, amended: [MemStorage.getMatchesForUser] is a function of the stored
    users and gyms alone (two states that agree on them give the same ranked
    scores, whatever their other stores and counters hold); the result of
    [DatabaseStorage.getMatchesForUser] is a function of the stored state and
    of the [Math.random()] draws it consumes, one per gym: two calls that
    see the same draws return the same outcome. *)
Theorem C1_scores_determined_by_inputs_and_draws
    (m1 m2 : MemStorage.t) (d : DatabaseStorage.t) (userId : Z)
    (rand1 rand2 : nat -> Q) (k1 k2 : nat) :
  MemStorage.userStore m1 = MemStorage.userStore m2 ->
  MemStorage.gymStore m1 = MemStorage.gymStore m2 ->
  (forall i : nat, (i < List.length (DatabaseStorage.gyms d))%nat ->
                   (rand1 (k1 + i)%nat == rand2 (k2 + i)%nat)%Q) ->
  MemStorage.getMatchesForUser m1 userId = MemStorage.getMatchesForUser m2 userId /\
  DatabaseStorage.getMatchesForUser rand1 k1 d userId =
  DatabaseStorage.getMatchesForUser rand2 k2 d userId.
Proof.
  intros Hu Hg Hr. split.
  - unfold MemStorage.getMatchesForUser, MemStorage.getUser, MemStorage.getAllGyms.
    now rewrite Hu, Hg.
  - unfold DatabaseStorage.getMatchesForUser.
    destruct (DatabaseStorage.getUser d userId) as [user|]; [|reflexivity].
    unfold DatabaseStorage.getAllGyms.
    now rewrite (scoreAll_draws rand1 rand2 user _ k1 k2 Hr).
Qed.

Lemma C1_scores_determined_witness :
  MemStorage.getMatchesForUser (Sample.memOf Sample.zumbaUser) 1 =
  MemStorage.getMatchesForUser
    (MemStorage.setSavedGymIdCounter (Sample.memOf Sample.zumbaUser) 9) 1 /\
  DatabaseStorage.getMatchesForUser (fun _ => (1 # 2)%Q) 0 (Sample.dbOf Sample.zumbaUser) 1 =
  DatabaseStorage.getMatchesForUser (fun n => (Z.of_nat n # 10)%Q) 5
    (Sample.dbOf Sample.zumbaUser) 1.
Proof.
  apply (C1_scores_determined_by_inputs_and_draws
           (Sample.memOf Sample.zumbaUser)
           (MemStorage.setSavedGymIdCounter (Sample.memOf Sample.zumbaUser) 9)
           (Sample.dbOf Sample.zumbaUser) 1
           (fun _ => (1 # 2)%Q) (fun n => (Z.of_nat n # 10)%Q) 0 5).
  - reflexivity.
  - reflexivity.
  - intros i Hi. simpl in Hi. assert (i = 0%nat) by lia. subst. reflexivity.
Defined.

(** ** Profiles without goals and preferences (C2) *)

Lemma goalDimension_noLabels (user : User.t) (gym : Gym.t) (l : MemStorage.Locals) :
  noLabels (User.fitnessGoals user) -> MemStorage.goalDimension user gym l = l.
Proof.
  unfold MemStorage.goalDimension. intros [H|H]; rewrite H; [reflexivity|].
  now destruct (Gym.amenities gym).
Qed.

Lemma preferenceDimension_noLabels (user : User.t) (gym : Gym.t) (l : MemStorage.Locals) :
  noLabels (User.gymPreferences user) -> MemStorage.preferenceDimension user gym l = l.
Proof.
  unfold MemStorage.preferenceDimension. intros [H|H]; rewrite H; [reflexivity|].
  now destruct (Gym.amenities gym).
Qed.

Lemma mem_score_noLabels (user : User.t) (gym : Gym.t) :
  noLabels (User.fitnessGoals user) -> noLabels (User.gymPreferences user) ->
  MemStorage.score user gym = 70.
Proof.
  intros Hg Hp. unfold MemStorage.score, MemStorage.dimensions.
  rewrite goalDimension_noLabels by assumption.
  rewrite preferenceDimension_noLabels by assumption.
  reflexivity.
Qed.

(** C2, counterexample: for the profile without goals and preferences the
    [DatabaseStorage] scorer returns 75 when [Math.random()] yields 0, and
    never 70 for a draw in [0, 1). *)
Lemma C2_db_empty_profile_not_70 :
  DatabaseStorage.score 0 Sample.ann Sample.saunaGym = Returned 75 /\
  DatabaseStorage.score 0 Sample.ann Sample.saunaGym <> Returned 70.
Proof.
  split; [reflexivity|discriminate].
Qed.

(** C2, amended: for a profile whose goals and preferences are empty (or
    [null]), the [MemStorage] scorer gives every gym exactly 70, and
    [MemStorage.getMatchesForUser] returns the gyms in stored order, each
    with score 70; the [DatabaseStorage] scorer gives such a profile its
    random base alone, [Math.floor(Math.random() * 15) + 75] with the
    product rounded as binary64 rounds it, which lies between 75 and 89
    for a draw in [0, 1). *)
Theorem C2_empty_profile_scores (user : User.t) :
  noLabels (User.fitnessGoals user) -> noLabels (User.gymPreferences user) ->
  (forall gym : Gym.t, MemStorage.score user gym = 70) /\
  (forall (st : MemStorage.t) (userId : Z),
      MemStorage.getUser st userId = Some user ->
      MemStorage.getMatchesForUser st userId =
      map (fun gym => GymMatch.mk gym 70) (MemStorage.getAllGyms st)) /\
  (forall (r : Q) (gym : Gym.t), (0 <= r)%Q -> (r < 1)%Q ->
      DatabaseStorage.score r user gym = Returned (DatabaseStorage.baseScore r) /\
      75 <= DatabaseStorage.baseScore r <= 89).
Proof.
  intros Hg Hp. split; [|split].
  - intro gym. now apply mem_score_noLabels.
  - intros st userId Hu. unfold MemStorage.getMatchesForUser. rewrite Hu.
    rewrite (map_ext _ (fun gym => GymMatch.mk gym 70)).
    + apply Array_sort_fixed. intros x y Hx Hy.
      apply in_map_iff in Hx as (gx & <- & _).
      apply in_map_iff in Hy as (gy & <- & _).
      unfold byScoreDesc. simpl. lia.
    + intro gym. now rewrite mem_score_noLabels.
  - intros r gym H0 H1.
    pose proof (baseScore_bounds r H0 H1) as Hb. split; [|exact Hb].
    unfold DatabaseStorage.score.
    assert (E : Z.min (DatabaseStorage.baseScore r) 100 = DatabaseStorage.baseScore r)
      by lia.
    destruct Hg as [H|H]; rewrite H; [|destruct (Gym.amenities gym)];
      cbn [DatabaseStorage.boostAll bindJs]; now rewrite E.
Qed.

Lemma C2_empty_profile_scores_witness :
  (forall gym : Gym.t, MemStorage.score Sample.ann gym = 70) /\
  (forall (st : MemStorage.t) (userId : Z),
      MemStorage.getUser st userId = Some Sample.ann ->
      MemStorage.getMatchesForUser st userId =
      map (fun gym => GymMatch.mk gym 70) (MemStorage.getAllGyms st)) /\
  (forall (r : Q) (gym : Gym.t), (0 <= r)%Q -> (r < 1)%Q ->
      DatabaseStorage.score r Sample.ann gym = Returned (DatabaseStorage.baseScore r) /\
      75 <= DatabaseStorage.baseScore r <= 89).
Proof.
  apply (C2_empty_profile_scores Sample.ann).
  - right. reflexivity.
  - right. reflexivity.
Defined.

(** ** The goal dimension below its threshold (C3) *)

Lemma nonempty_length {A : Type} (l : list A) : l <> [] -> Nat.ltb 0 (List.length l) = true.
Proof.
  destruct l; [congruence|reflexivity].
Qed.

Lemma goalDimension_counts
    (user : User.t) (gym : Gym.t) (goals gymAmenities : list string)
    (l : MemStorage.Locals) :
  User.fitnessGoals user = Some goals -> goals <> [] ->
  Gym.amenities gym = Some gymAmenities ->
  MemStorage.totalFactors (MemStorage.goalDimension user gym l) =
    MemStorage.totalFactors l + 1 /\
  ((MemStorage.goalMatchPercentage goals gymAmenities <= 1 # 2)%Q ->
   MemStorage.matchingFactors (MemStorage.goalDimension user gym l) =
     MemStorage.matchingFactors l) /\
  ((1 # 2 < MemStorage.goalMatchPercentage goals gymAmenities)%Q ->
   MemStorage.matchingFactors (MemStorage.goalDimension user gym l) =
     (MemStorage.matchingFactors l + MemStorage.goalMatchPercentage goals gymAmenities)%Q).
Proof.
  intros Hg Hne Ha. unfold MemStorage.goalDimension.
  rewrite Hg, Ha, (nonempty_length goals Hne).
  cbn [MemStorage.totalFactors MemStorage.matchingFactors].
  split; [reflexivity|]. unfold JsMath.gt. split; intro Hr.
  - apply Qle_bool_iff in Hr. now rewrite Hr.
  - destruct (Qle_bool (MemStorage.goalMatchPercentage goals gymAmenities) (1 # 2)) eqn:E;
      [|reflexivity].
    apply Qle_bool_iff in E. lra.
Qed.

Lemma goalDimension_below_threshold
    (user : User.t) (gym : Gym.t) (goals gymAmenities : list string)
    (l : MemStorage.Locals) :
  User.fitnessGoals user = Some goals -> goals <> [] ->
  Gym.amenities gym = Some gymAmenities ->
  (MemStorage.goalMatchPercentage goals gymAmenities <= 1 # 2)%Q ->
  MemStorage.totalFactors (MemStorage.goalDimension user gym l) =
    MemStorage.totalFactors l + 1 /\
  MemStorage.matchingFactors (MemStorage.goalDimension user gym l) =
    MemStorage.matchingFactors l.
Proof.
  intros Hg Hne Ha Hr.
  destruct (goalDimension_counts user gym goals gymAmenities l Hg Hne Ha) as [Ht [Hm _]].
  split; [exact Ht|now apply Hm].
Qed.

(** C3, counterexample: the goal "Zumba" matches no amenity of a gym that
    offers only a sauna, so the goal ratio is 0; the goal dimension still
    raises [totalFactors] to 1, the preference "Sauna" matches fully, and
    the factor adjustment is 10, not the 20 the same profile receives once
    its goals are removed: the scores are 85 and 95. *)
Lemma C3_unmatched_goals_halve_the_adjustment :
  (MemStorage.goalMatchPercentage ["Zumba"] ["Sauna"] <= 1 # 2)%Q /\
  MemStorage.totalFactors
    (MemStorage.goalDimension Sample.zumbaUser Sample.saunaGym
       (MemStorage.mkLocals 70 0 0)) = 1 /\
  (MemStorage.factorScore (MemStorage.dimensions Sample.zumbaUser Sample.saunaGym) == 10)%Q /\
  (MemStorage.factorScore (MemStorage.dimensions Sample.saunaUser Sample.saunaGym) == 20)%Q /\
  MemStorage.score Sample.zumbaUser Sample.saunaGym = 85 /\
  MemStorage.score Sample.saunaUser Sample.saunaGym = 95.
Proof.
  repeat split; try reflexivity. discriminate.
Qed.

(** C3, amended: in the goal dimension [totalFactors] is incremented as soon
    as the profile has at least one goal and the gym has an amenity array,
    whatever the goal ratio; only [matchingFactors] depends on the ratio: a
    ratio above 0.5 is added to it and a ratio of at most 0.5 adds nothing.
    With a ratio of at most 0.5 the adjustment [(matchingFactors /
    totalFactors) * 20] is therefore computed over two dimensions when the
    preference dimension runs as well, which makes it [prefMatchPercentage
    * 10], and it is 0 when the profile has no preferences; with a ratio
    above 0.5 it is [(ratio + prefMatchPercentage) * 10] and [ratio * 20]. *)
Theorem C3_goal_dimension_counts_whatever_the_ratio
    (user : User.t) (gym : Gym.t) (goals gymAmenities : list string) :
  User.fitnessGoals user = Some goals -> goals <> [] ->
  Gym.amenities gym = Some gymAmenities ->
  (forall l : MemStorage.Locals,
      MemStorage.totalFactors (MemStorage.goalDimension user gym l) =
        MemStorage.totalFactors l + 1) /\
  ((MemStorage.goalMatchPercentage goals gymAmenities <= 1 # 2)%Q ->
   (forall l : MemStorage.Locals,
       MemStorage.matchingFactors (MemStorage.goalDimension user gym l) =
         MemStorage.matchingFactors l) /\
   (forall prefs : list string,
       User.gymPreferences user = Some prefs -> prefs <> [] ->
       MemStorage.totalFactors (MemStorage.dimensions user gym) = 2 /\
       (MemStorage.factorScore (MemStorage.dimensions user gym) ==
        MemStorage.prefMatchPercentage prefs gymAmenities * 10)%Q) /\
   (noLabels (User.gymPreferences user) ->
       MemStorage.totalFactors (MemStorage.dimensions user gym) = 1 /\
       (MemStorage.factorScore (MemStorage.dimensions user gym) == 0)%Q)) /\
  ((1 # 2 < MemStorage.goalMatchPercentage goals gymAmenities)%Q ->
   (forall l : MemStorage.Locals,
       MemStorage.matchingFactors (MemStorage.goalDimension user gym l) =
         (MemStorage.matchingFactors l +
          MemStorage.goalMatchPercentage goals gymAmenities)%Q) /\
   (forall prefs : list string,
       User.gymPreferences user = Some prefs -> prefs <> [] ->
       MemStorage.totalFactors (MemStorage.dimensions user gym) = 2 /\
       (MemStorage.factorScore (MemStorage.dimensions user gym) ==
        (MemStorage.goalMatchPercentage goals gymAmenities +
         MemStorage.prefMatchPercentage prefs gymAmenities) * 10)%Q) /\
   (noLabels (User.gymPreferences user) ->
       MemStorage.totalFactors (MemStorage.dimensions user gym) = 1 /\
       (MemStorage.factorScore (MemStorage.dimensions user gym) ==
        MemStorage.goalMatchPercentage goals gymAmenities * 20)%Q)).
Proof.
  intros Hg Hne Ha.
  pose proof (fun l => goalDimension_counts user gym goals gymAmenities l Hg Hne Ha)
    as Hgoal.
  destruct (Hgoal (MemStorage.mkLocals 70 0 0)) as [Ht [Hlow Hhigh]].
  cbn [MemStorage.totalFactors MemStorage.matchingFactors] in Ht, Hlow, Hhigh.
  assert (Hprefs : forall prefs : list string,
             User.gymPreferences user = Some prefs -> prefs <> [] ->
             forall l : MemStorage.Locals,
               MemStorage.totalFactors (MemStorage.preferenceDimension user gym l) =
                 MemStorage.totalFactors l + 1 /\
               MemStorage.matchingFactors (MemStorage.preferenceDimension user gym l) =
                 (MemStorage.matchingFactors l +
                  MemStorage.prefMatchPercentage prefs gymAmenities)%Q).
  { intros prefs Hp Hpne l. unfold MemStorage.preferenceDimension.
    rewrite Hp, Ha, (nonempty_length prefs Hpne). split; reflexivity. }
  split; [intro l; apply (Hgoal l)|]. split; intro Hr.
  - specialize (Hlow Hr). split; [intro l; now apply (Hgoal l)|]. split.
    + intros prefs Hp Hpne. unfold MemStorage.factorScore, MemStorage.dimensions.
      destruct (Hprefs prefs Hp Hpne
                  (MemStorage.goalDimension user gym (MemStorage.mkLocals 70 0 0)))
        as [Ht2 Hm2].
      rewrite Ht2, Hm2, Ht, Hlow. split; [reflexivity|].
      change (inject_Z (0 + 1 + 1)) with 2%Q. field.
    + intro Hp. unfold MemStorage.factorScore, MemStorage.dimensions.
      rewrite preferenceDimension_noLabels by assumption.
      rewrite Ht, Hlow. split; [reflexivity|]. reflexivity.
  - specialize (Hhigh Hr). split; [intro l; now apply (Hgoal l)|]. split.
    + intros prefs Hp Hpne. unfold MemStorage.factorScore, MemStorage.dimensions.
      destruct (Hprefs prefs Hp Hpne
                  (MemStorage.goalDimension user gym (MemStorage.mkLocals 70 0 0)))
        as [Ht2 Hm2].
      rewrite Ht2, Hm2, Ht, Hhigh. split; [reflexivity|].
      change (inject_Z (0 + 1 + 1)) with 2%Q. field.
    + intro Hp. unfold MemStorage.factorScore, MemStorage.dimensions.
      rewrite preferenceDimension_noLabels by assumption.
      rewrite Ht, Hhigh. split; [reflexivity|].
      change (inject_Z (0 + 1)) with 1%Q. field.
Qed.

Lemma C3_goal_dimension_counts_witness :
  MemStorage.totalFactors
    (MemStorage.goalDimension Sample.zumbaUser Sample.saunaGym
       (MemStorage.mkLocals 70 0 0)) = 0 + 1 /\
  MemStorage.totalFactors (MemStorage.dimensions Sample.zumbaUser Sample.saunaGym) = 2 /\
  (MemStorage.factorScore (MemStorage.dimensions Sample.zumbaUser Sample.saunaGym) ==
   MemStorage.prefMatchPercentage ["Sauna"] ["Sauna"] * 10)%Q.
Proof.
  destruct (C3_goal_dimension_counts_whatever_the_ratio
              Sample.zumbaUser Sample.saunaGym ["Zumba"] ["Sauna"])
    as [Htotal [Hlow _]].
  - reflexivity.
  - discriminate.
  - reflexivity.
  - split; [apply (Htotal (MemStorage.mkLocals 70 0 0))|].
    destruct Hlow as [_ [Hprefs _]].
    + vm_compute. discriminate.
    + apply (Hprefs ["Sauna"]); [reflexivity|discriminate].
Defined.

(** ** Range of the scores (C8, C10) *)

Lemma baseScore_ge (r : Q) : (0 <= r)%Q -> 75 <= DatabaseStorage.baseScore r.
Proof.
  intro H0. unfold DatabaseStorage.baseScore, JsMath.floor, JsMath.mul, JsMath.random.
  assert (Hlo : 0 <= Qfloor (Binary64.round (Binary64.truncate r * 15))).
  { change 0 with (Qfloor 0). apply Qfloor_resp_le. apply round_nonneg.
    pose proof (truncate_nonneg r H0). lra. }
  lia.
Qed.

Lemma db_score_ge (r : Q) (user : User.t) (gym : Gym.t) (s : Z) :
  (0 <= r)%Q -> DatabaseStorage.score r user gym = Returned s -> 75 <= s.
Proof.
  intros H0. pose proof (baseScore_ge r H0) as Hb.
  unfold DatabaseStorage.score.
  destruct (User.fitnessGoals user) as [goals|];
    [destruct (Gym.amenities gym) as [gymAmenities|]|]; simpl.
  - destruct (DatabaseStorage.boostAll _ _ _) as [z|e] eqn:E; simpl; [|discriminate].
    apply boostAll_ge in E. intro H. inversion H. lia.
  - intro H. inversion H. lia.
  - intro H. inversion H. lia.
Qed.

Lemma scoreAll_ge (rand : nat -> Q) (user : User.t) (allGyms : list Gym.t) :
  (forall n : nat, (0 <= rand n)%Q) ->
  forall (k : nat) (l : list GymMatch.t) (gm : GymMatch.t),
  DatabaseStorage.scoreAll rand k user allGyms = Returned l ->
  In gm l -> 75 <= GymMatch.matchScore gm.
Proof.
  intro Hr. induction allGyms as [|gym rest IH]; intros k l gm H Hin; simpl in H.
  - inversion H; subst. contradiction.
  - destruct (DatabaseStorage.score (rand k) user gym) as [s|e] eqn:Es;
      simpl in H; [|discriminate].
    destruct (DatabaseStorage.scoreAll rand (S k) user rest) as [scored|e] eqn:Er;
      simpl in H; [|discriminate].
    inversion H; subst. destruct Hin as [<-|Hin].
    + simpl. eapply db_score_ge; [apply Hr|exact Es].
    + eapply IH; eauto.
Qed.

(** C8, the failing input evaluated: for a profile whose only goal is the
    string "constructor" and a gym with an amenity array,
    [goalToAmenity[goal]] is the inherited [Object.prototype.constructor],
    and the [DatabaseStorage] callback raises a [TypeError] instead of
    returning a score, whatever [Math.random()] yields, so that
    [DatabaseStorage.getMatchesForUser] raises it too; the [MemStorage]
    scorer returns 70 on the same input. *)
Theorem C8_db_scorer_raises_on_inherited_goal (rand : nat -> Q) (k : nat) :
  DatabaseStorage.score (rand k) Sample.constructorUser Sample.saunaGym =
    Threw (TypeError "relatedAmenities.forEach is not a function") /\
  DatabaseStorage.getMatchesForUser rand k (Sample.dbOf Sample.constructorUser) 1 =
    Threw (TypeError "relatedAmenities.forEach is not a function") /\
  MemStorage.score Sample.constructorUser Sample.saunaGym = 70.
Proof.
  repeat split.
Qed.

(** C10: no gym is scored below 70. The [MemStorage] scorer returns at
    least 70 for every profile and gym, and so does every entry of its
    ranking; every score the [DatabaseStorage] scorer returns is at least 70
    for draws of [Math.random()] (which are never negative), it does return
    one for every profile none of whose goals names an inherited property,
    and every entry of a ranking it returns is at least 70. *)
Theorem C10_no_score_below_70 (rand : nat -> Q) :
  (forall n : nat, (0 <= rand n)%Q) ->
  (forall (user : User.t) (gym : Gym.t), 70 <= MemStorage.score user gym) /\
  (forall (st : MemStorage.t) (userId : Z) (gm : GymMatch.t),
      In gm (MemStorage.getMatchesForUser st userId) -> 70 <= GymMatch.matchScore gm) /\
  (forall (n : nat) (user : User.t) (gym : Gym.t) (s : Z),
      DatabaseStorage.score (rand n) user gym = Returned s -> 70 <= s) /\
  (forall (n : nat) (user : User.t) (gym : Gym.t) (goals : list string),
      User.fitnessGoals user = Some goals -> existsb inheritedGoal goals = false ->
      exists s : Z, DatabaseStorage.score (rand n) user gym = Returned s /\ 70 <= s) /\
  (forall (k : nat) (st : DatabaseStorage.t) (userId : Z)
          (l : list GymMatch.t) (gm : GymMatch.t),
      DatabaseStorage.getMatchesForUser rand k st userId = Returned l ->
      In gm l -> 70 <= GymMatch.matchScore gm).
Proof.
  intro Hr. split; [|split; [|split; [|split]]].
  - intros user gym. apply mem_score_bounds.
  - intros st userId gm. unfold MemStorage.getMatchesForUser.
    destruct (MemStorage.getUser st userId) as [user|]; [|contradiction].
    rewrite Array_sort_In, in_map_iff. intros (gym & <- & _). simpl.
    apply mem_score_bounds.
  - intros n user gym s H.
    pose proof (db_score_ge (rand n) user gym s (Hr n) H). lia.
  - intros n user gym goals Hg Hi.
    destruct (db_score_returns (rand n) user gym) as [s Hs].
    + now rewrite Hg.
    + exists s. split; [assumption|].
      pose proof (db_score_ge (rand n) user gym s (Hr n) Hs). lia.
  - intros k st userId l gm. unfold DatabaseStorage.getMatchesForUser.
    destruct (DatabaseStorage.getUser st userId) as [user|].
    + destruct (DatabaseStorage.scoreAll rand k user (DatabaseStorage.getAllGyms st))
        as [scored|e] eqn:E; simpl; [|discriminate].
      intros H Hin. inversion H; subst. apply Array_sort_In in Hin.
      pose proof (scoreAll_ge rand user _ Hr k scored gm E Hin). lia.
    + intros H Hin. inversion H; subst. contradiction.
Qed.

Lemma C10_no_score_below_70_witness :
  70 <= MemStorage.score Sample.zumbaUser Sample.saunaGym /\
  exists s : Z,
    DatabaseStorage.score (1 # 2) Sample.zumbaUser Sample.saunaGym = Returned s /\ 70 <= s.
Proof.
  destruct (C10_no_score_below_70 (fun _ => (1 # 2)%Q)) as (Hm & _ & _ & Hd & _).
  - intro n. discriminate.
  - split; [apply Hm|].
    apply (Hd 0%nat Sample.zumbaUser Sample.saunaGym ["Zumba"]); reflexivity.
Defined.

(** ** Lists and maps *)

Lemma find_hd_filter {A : Type} (p : A -> bool) (l : list A) :
  find p l = hd_error (filter p l).
Proof.
  induction l as [|x l IH]; simpl; [reflexivity|].
  now destruct (p x).
Qed.

Lemma filter_nil_In {A : Type} (p : A -> bool) (l : list A) (x : A) :
  filter p l = [] -> In x l -> p x = false.
Proof.
  intros H Hin. destruct (p x) eqn:E; [|reflexivity].
  assert (Hf : In x (filter p l)) by (apply filter_In; auto).
  rewrite H in Hf. contradiction.
Qed.

Lemma joins_sym (a b : Z) (m : UserMatch.t) : joins a b m = joins b a m.
Proof.
  unfold joins. apply orb_comm.
Qed.

Lemma filter_joins_sym (a b : Z) (l : list UserMatch.t) :
  filter (joins a b) l = filter (joins b a) l.
Proof.
  apply filter_ext. intro m. apply joins_sym.
Qed.

Section MapFacts.
Context {K V : Type} (eqb : K -> K -> bool).
Hypothesis eqb_refl : forall k : K, eqb k k = true.

Lemma get_set_same (m : JsMap.t K V) (k : K) (v : V) :
  JsMap.get eqb (JsMap.set eqb m k v) k = Some v.
Proof.
  induction m as [|[k' v'] m IH]; simpl.
  - now rewrite eqb_refl.
  - destruct (eqb k' k) eqn:E; simpl; now rewrite E.
Qed.

Lemma get_In_values (m : JsMap.t K V) (k : K) (v : V) :
  JsMap.get eqb m k = Some v -> In v (JsMap.values m).
Proof.
  induction m as [|[k' v'] m IH]; simpl; [discriminate|].
  destruct (eqb k' k).
  - intro H. inversion H. now left.
  - intro H. right. now apply IH.
Qed.

(** Storing a value that satisfies [p] in a map where none does leaves
    exactly that value. *)
Lemma filter_values_set_new (p : V -> bool) (m : JsMap.t K V) (k : K) (v : V) :
  filter p (JsMap.values m) = [] -> p v = true ->
  filter p (JsMap.values (JsMap.set eqb m k v)) = [v].
Proof.
  intros H Hv. induction m as [|[k' v'] m IH]; simpl in *.
  - now rewrite Hv.
  - destruct (p v') eqn:E; [discriminate|].
    destruct (eqb k' k); simpl.
    + now rewrite Hv, H.
    + rewrite E. now apply IH.
Qed.

(** Overwriting the only value that satisfies [p] with another one that
    does. *)
Lemma filter_values_set_replace (p : V -> bool) (m : JsMap.t K V) (k : K) (v0 v : V) :
  JsMap.get eqb m k = Some v0 -> filter p (JsMap.values m) = [v0] ->
  p v0 = true -> p v = true ->
  filter p (JsMap.values (JsMap.set eqb m k v)) = [v].
Proof.
  intros Hget H Hv0 Hv. induction m as [|[k' v'] m IH]; simpl in *; [discriminate|].
  destruct (eqb k' k) eqn:E; simpl.
  - inversion Hget; subst v'. rewrite Hv0 in H. inversion H as [H'].
    now rewrite Hv, H'.
  - destruct (p v') eqn:Ep.
    + inversion H as [[Hv' H']]. exfalso.
      apply get_In_values in Hget.
      pose proof (filter_nil_In p _ v0 H' Hget). congruence.
    + now apply IH.
Qed.

End MapFacts.

(** ** Reciprocal match requests (C4) *)

Lemma db_getUser_users (st st' : DatabaseStorage.t) (id : Z) :
  DatabaseStorage.users st' = DatabaseStorage.users st ->
  DatabaseStorage.getUser st' id = DatabaseStorage.getUser st id.
Proof.
  intro H. unfold DatabaseStorage.getUser. now rewrite H.
Qed.

Lemma db_createUserMatch_fresh (st : DatabaseStorage.t) (now a b : Z) (sc : option Z) :
  filter (joins a b) (DatabaseStorage.userMatches st) = [] ->
  let m0 := UserMatch.mk (DatabaseStorage.userMatchesSeq st) a b "pending" sc now now in
  let st1 := DatabaseStorage.setUserMatches st (DatabaseStorage.userMatches st ++ [m0])
               (DatabaseStorage.userMatchesSeq st + 1) in
  DatabaseStorage.createUserMatch st now (InsertUserMatch.mk a b sc) = (st1, Some m0) /\
  filter (joins a b) (DatabaseStorage.userMatches st1) = [m0].
Proof.
  intros H m0 st1. split.
  - unfold DatabaseStorage.createUserMatch, DatabaseStorage.getUserMatchByUsers.
    simpl. now rewrite H.
  - subst st1. simpl. rewrite filter_app, H. simpl.
    unfold joins. simpl. now rewrite !Z.eqb_refl.
Qed.

Lemma db_createUserMatch_reciprocal
    (st : DatabaseStorage.t) (now a b : Z) (sc : option Z) (m0 : UserMatch.t) :
  filter (joins a b) (DatabaseStorage.userMatches st) = [m0] ->
  UserMatch.status m0 = "pending" ->
  UserMatch.senderId m0 = a -> UserMatch.receiverId m0 = b ->
  let m := UserMatch.mk (UserMatch.id m0) a b "accepted" (UserMatch.matchScore m0)
             (UserMatch.createdAt m0) now in
  exists st2 returned,
    DatabaseStorage.createUserMatch st now (InsertUserMatch.mk b a sc) = (st2, returned) /\
    DatabaseStorage.users st2 = DatabaseStorage.users st /\
    filter (joins a b) (DatabaseStorage.userMatches st2) = [m].
Proof.
  intros H Hst Hs Hr m.
  set (upd := fun row : UserMatch.t =>
                if UserMatch.id row =? UserMatch.id m0
                then UserMatch.mk (UserMatch.id row) (UserMatch.senderId row)
                       (UserMatch.receiverId row) "accepted" (UserMatch.matchScore row)
                       (UserMatch.createdAt row) now
                else row).
  assert (Hupd : forall row, joins a b (upd row) = joins a b row).
  { intro row. unfold upd. now destruct (UserMatch.id row =? UserMatch.id m0). }
  assert (Hfilter : filter (joins a b) (map upd (DatabaseStorage.userMatches st)) = [m]).
  { assert (E : forall l, filter (joins a b) (map upd l) = map upd (filter (joins a b) l)).
    { induction l as [|x l IH]; simpl; [reflexivity|].
      rewrite Hupd. destruct (joins a b x); simpl; now rewrite IH. }
    rewrite E, H. simpl. unfold upd. rewrite Z.eqb_refl. subst m. now rewrite Hs, Hr. }
  unfold DatabaseStorage.createUserMatch, DatabaseStorage.getUserMatchByUsers.
  simpl. rewrite <- filter_joins_sym, H. simpl.
  rewrite Hst, Hs, Hr, !Z.eqb_refl. simpl.
  unfold DatabaseStorage.updateUserMatchStatus. fold upd.
  eexists. eexists. split; [reflexivity|]. split; [reflexivity|exact Hfilter].
Qed.

Lemma mem_createUserMatch_fresh (st : MemStorage.t) (now a b : Z) (sc : option Z) :
  filter (joins a b) (JsMap.values (MemStorage.userMatchStore st)) = [] ->
  let id := MemStorage.userMatchIdCounter st in
  let m0 := UserMatch.mk id a b "pending" sc now now in
  exists st1,
    MemStorage.createUserMatch st now (InsertUserMatch.mk a b sc) = Returned (st1, m0) /\
    JsMap.get Z.eqb (MemStorage.userMatchStore st1) id = Some m0 /\
    filter (joins a b) (JsMap.values (MemStorage.userMatchStore st1)) = [m0].
Proof.
  intros H id m0.
  unfold MemStorage.createUserMatch, MemStorage.getUserMatchByUsers.
  rewrite find_hd_filter. simpl. rewrite H. simpl.
  eexists. split; [reflexivity|]. simpl. split.
  - apply get_set_same. apply Z.eqb_refl.
  - apply filter_values_set_new; [assumption|].
    unfold joins. simpl. now rewrite !Z.eqb_refl.
Qed.

Lemma mem_createUserMatch_reciprocal
    (st : MemStorage.t) (now a b : Z) (sc : option Z) (m0 : UserMatch.t) :
  JsMap.get Z.eqb (MemStorage.userMatchStore st) (UserMatch.id m0) = Some m0 ->
  filter (joins a b) (JsMap.values (MemStorage.userMatchStore st)) = [m0] ->
  UserMatch.status m0 = "pending" ->
  UserMatch.senderId m0 = a -> UserMatch.receiverId m0 = b ->
  let m := UserMatch.mk (UserMatch.id m0) a b "accepted" (UserMatch.matchScore m0)
             (UserMatch.createdAt m0) now in
  exists st2,
    MemStorage.createUserMatch st now (InsertUserMatch.mk b a sc) = Returned (st2, m) /\
    filter (joins a b) (JsMap.values (MemStorage.userMatchStore st2)) = [m].
Proof.
  intros Hget H Hst Hs Hr m.
  unfold MemStorage.createUserMatch, MemStorage.getUserMatchByUsers.
  rewrite find_hd_filter. simpl. rewrite <- filter_joins_sym, H. simpl.
  rewrite Hst, Hs, Hr, !Z.eqb_refl. simpl.
  unfold MemStorage.updateUserMatchStatus. rewrite Hget, Hs, Hr.
  eexists. split; [reflexivity|]. simpl.
  apply (filter_values_set_replace Z.eqb (joins a b) _ _ m0 m Hget H).
  - assert (Hin : In m0 (filter (joins a b) (JsMap.values (MemStorage.userMatchStore st))))
      by (rewrite H; now left).
    now apply filter_In in Hin.
  - unfold joins. simpl. now rewrite !Z.eqb_refl.
Qed.

Lemma rows_without_id (rows : list UserMatch.t) (id : Z) (f : UserMatch.t -> UserMatch.t) :
  (forall row, In row rows -> UserMatch.id row <> id) ->
  map (fun row => if UserMatch.id row =? id then f row else row) rows = rows /\
  filter (fun row => UserMatch.id row =? id) rows = [].
Proof.
  induction rows as [|x rows IH]; intro H; [split; reflexivity|].
  assert (Hx : (UserMatch.id x =? id) = false).
  { apply Z.eqb_neq. apply H. now left. }
  destruct IH as [IH1 IH2]; [intros row Hin; apply H; now right|].
  cbn [map filter]. rewrite Hx, IH1, IH2. split; reflexivity.
Qed.

(** C4: when nothing joins the users [a] and [b] yet, a request from [a] to
    [b] creates one record for the pair, pending, with [a] as its sender,
    and answers 201 with it; the request from [b] to [a] that follows finds
    that record, changes it to accepted with a new [updatedAt] and nothing
    else, answers 201 with the changed record, and adds no row: afterwards
    the table holds the rows from before the two requests and that one
    accepted record, which is the only record that joins the pair. This
    holds for the two POST /api/user-matches requests served one after the
    other from [DatabaseStorage], whose ids are unique and below the
    sequence as the serial primary key has them, once [a] and [b] exist
    and the score of the first request is one the integer column holds;
    and likewise for the two [createUserMatch] calls of [MemStorage], which
    both return. *)
Theorem C4_reciprocal_request_accepts
    (dst : DatabaseStorage.t) (mst : MemStorage.t)
    (a b now1 now2 : Z) (sc1 sc2 : option Z) :
  DatabaseStorage.getUser dst a <> None ->
  DatabaseStorage.getUser dst b <> None ->
  int32Column sc1 = true ->
  MatchIdsFresh dst ->
  filter (joins a b) (DatabaseStorage.userMatches dst) = [] ->
  filter (joins a b) (JsMap.values (MemStorage.userMatchStore mst)) = [] ->
  (let m0 := UserMatch.mk (DatabaseStorage.userMatchesSeq dst) a b "pending" sc1 now1 now1 in
   let m := UserMatch.mk (DatabaseStorage.userMatchesSeq dst) a b "accepted" sc1 now1 now2 in
   let dst1 := DatabaseStorage.setUserMatches dst (DatabaseStorage.userMatches dst ++ [m0])
                 (DatabaseStorage.userMatchesSeq dst + 1) in
   let dst2 := DatabaseStorage.setUserMatches dst (DatabaseStorage.userMatches dst ++ [m])
                 (DatabaseStorage.userMatchesSeq dst + 1) in
   Routes.requestMatch dst now1 a b sc1 =
     (dst1, Routes.mkResponse 201 (Routes.JsonUserMatch (Some m0))) /\
   filter (joins a b) (DatabaseStorage.userMatches dst1) = [m0] /\
   Routes.requestMatch dst1 now2 b a sc2 =
     (dst2, Routes.mkResponse 201 (Routes.JsonUserMatch (Some m))) /\
   filter (joins a b) (DatabaseStorage.userMatches dst2) = [m]) /\
  (let id := MemStorage.userMatchIdCounter mst in
   let m0 := UserMatch.mk id a b "pending" sc1 now1 now1 in
   let m := UserMatch.mk id a b "accepted" sc1 now1 now2 in
   let mst1 := MemStorage.setUserMatchStore (MemStorage.setUserMatchIdCounter mst (id + 1))
                 (JsMap.set Z.eqb (MemStorage.userMatchStore mst) id m0) in
   let mst2 := MemStorage.setUserMatchStore mst1
                 (JsMap.set Z.eqb (MemStorage.userMatchStore mst1) id m) in
   MemStorage.createUserMatch mst now1 (InsertUserMatch.mk a b sc1) = Returned (mst1, m0) /\
   filter (joins a b) (JsMap.values (MemStorage.userMatchStore mst1)) = [m0] /\
   MemStorage.createUserMatch mst1 now2 (InsertUserMatch.mk b a sc2) = Returned (mst2, m) /\
   filter (joins a b) (JsMap.values (MemStorage.userMatchStore mst2)) = [m]).
Proof.
  intros Hua Hub _ [Hlt _] Hd Hm. split.
  - intros m0 m dst1 dst2.
    destruct (db_createUserMatch_fresh dst now1 a b sc1 Hd) as [Hc1 Hf1].
    fold m0 in Hc1, Hf1. fold dst1 in Hc1, Hf1.
    assert (Hrows : forall row, In row (DatabaseStorage.userMatches dst) ->
                                UserMatch.id row <> DatabaseStorage.userMatchesSeq dst).
    { intros row Hin. specialize (Hlt row Hin). lia. }
    destruct (rows_without_id (DatabaseStorage.userMatches dst)
                (DatabaseStorage.userMatchesSeq dst)
                (fun row => UserMatch.mk (UserMatch.id row) (UserMatch.senderId row)
                              (UserMatch.receiverId row) "accepted"
                              (UserMatch.matchScore row) (UserMatch.createdAt row) now2)
                Hrows) as [Hmap Hhit].
    assert (Hjm : joins a b m = true).
    { unfold joins, m. cbn [UserMatch.senderId UserMatch.receiverId].
      now rewrite !Z.eqb_refl. }
    assert (Hf2 : filter (joins a b) (DatabaseStorage.userMatches dst2) = [m]).
    { unfold dst2. cbn [DatabaseStorage.userMatches DatabaseStorage.setUserMatches].
      rewrite filter_app, Hd. cbn [filter app]. now rewrite Hjm. }
    split; [|split; [exact Hf1|split; [|exact Hf2]]].
    + unfold Routes.requestMatch, Routes.postUserMatches.
      cbn [InsertUserMatch.senderId InsertUserMatch.receiverId].
      rewrite Z.eqb_refl. cbn [negb].
      destruct (DatabaseStorage.getUser dst b); [|congruence].
      now rewrite Hc1.
    + unfold Routes.requestMatch, Routes.postUserMatches.
      cbn [InsertUserMatch.senderId InsertUserMatch.receiverId].
      rewrite Z.eqb_refl. cbn [negb].
      rewrite (db_getUser_users dst dst1 a eq_refl).
      destruct (DatabaseStorage.getUser dst a); [|congruence].
      unfold DatabaseStorage.createUserMatch, DatabaseStorage.getUserMatchByUsers.
      cbn [InsertUserMatch.senderId InsertUserMatch.receiverId].
      rewrite <- filter_joins_sym, Hf1. cbn [hd_error].
      unfold m0 at 1 2 3. cbn [UserMatch.status UserMatch.senderId UserMatch.receiverId
                               UserMatch.id].
      rewrite !Z.eqb_refl. cbn [String.eqb Ascii.eqb Bool.eqb andb].
      unfold DatabaseStorage.updateUserMatchStatus, dst1.
      cbn [DatabaseStorage.userMatches DatabaseStorage.setUserMatches
           DatabaseStorage.userMatchesSeq].
      change (UserMatch.id m0) with (DatabaseStorage.userMatchesSeq dst).
      rewrite map_app, Hmap. cbn [map].
      change (UserMatch.id m0) with (DatabaseStorage.userMatchesSeq dst).
      rewrite Z.eqb_refl.
      change (UserMatch.mk _ _ _ "accepted" _ _ now2) with m.
      rewrite filter_app, Hhit. cbn [filter app].
      change (UserMatch.id m) with (DatabaseStorage.userMatchesSeq dst).
      rewrite Z.eqb_refl. reflexivity.
  - intros id m0 m mst1 mst2.
    destruct (mem_createUserMatch_fresh mst now1 a b sc1 Hm) as (st1 & Hc1 & Hg1 & Hf1).
    fold id in Hc1, Hg1, Hf1. fold m0 in Hc1, Hg1, Hf1.
    assert (E1 : st1 = mst1).
    { unfold MemStorage.createUserMatch, MemStorage.getUserMatchByUsers in Hc1.
      rewrite find_hd_filter in Hc1.
      cbn [InsertUserMatch.senderId InsertUserMatch.receiverId] in Hc1.
      rewrite Hm in Hc1. cbn [hd_error] in Hc1. inversion Hc1. reflexivity. }
    subst st1.
    destruct (mem_createUserMatch_reciprocal mst1 now2 a b sc2 m0 Hg1 Hf1
                eq_refl eq_refl eq_refl) as (st2 & Hc2 & Hf2).
    cbn [UserMatch.id UserMatch.matchScore UserMatch.createdAt m0] in Hc2, Hf2.
    fold id in Hc2, Hf2. fold m in Hc2, Hf2.
    assert (E2 : st2 = mst2).
    { unfold MemStorage.createUserMatch, MemStorage.getUserMatchByUsers in Hc2.
      rewrite find_hd_filter in Hc2.
      cbn [InsertUserMatch.senderId InsertUserMatch.receiverId] in Hc2.
      rewrite <- filter_joins_sym, Hf1 in Hc2. cbn [hd_error] in Hc2.
      unfold m0 at 1 2 3 4 in Hc2.
      cbn [UserMatch.status UserMatch.senderId UserMatch.receiverId UserMatch.id] in Hc2.
      rewrite !Z.eqb_refl in Hc2. cbn [String.eqb Ascii.eqb Bool.eqb andb] in Hc2.
      unfold MemStorage.updateUserMatchStatus in Hc2. rewrite Hg1 in Hc2.
      inversion Hc2. reflexivity. }
    subst st2.
    split; [exact Hc1|]. split; [exact Hf1|]. split; [exact Hc2|exact Hf2].
Qed.

Lemma C4_reciprocal_request_accepts_witness :
  Routes.requestMatch Sample.pairDb 100 1 2 None =
    (DatabaseStorage.setUserMatches Sample.pairDb
       [UserMatch.mk 1 1 2 "pending" None 100 100] 2,
     Routes.mkResponse 201
       (Routes.JsonUserMatch (Some (UserMatch.mk 1 1 2 "pending" None 100 100)))) /\
  filter (joins 1 2)
    (DatabaseStorage.userMatches
       (DatabaseStorage.setUserMatches Sample.pairDb
          [UserMatch.mk 1 1 2 "pending" None 100 100] 2)) =
    [UserMatch.mk 1 1 2 "pending" None 100 100] /\
  Routes.requestMatch
    (DatabaseStorage.setUserMatches Sample.pairDb
       [UserMatch.mk 1 1 2 "pending" None 100 100] 2) 200 2 1 None =
    (DatabaseStorage.setUserMatches Sample.pairDb
       [UserMatch.mk 1 1 2 "accepted" None 100 200] 2,
     Routes.mkResponse 201
       (Routes.JsonUserMatch (Some (UserMatch.mk 1 1 2 "accepted" None 100 200)))) /\
  filter (joins 1 2)
    (DatabaseStorage.userMatches
       (DatabaseStorage.setUserMatches Sample.pairDb
          [UserMatch.mk 1 1 2 "accepted" None 100 200] 2)) =
    [UserMatch.mk 1 1 2 "accepted" None 100 200].
Proof.
  destruct (C4_reciprocal_request_accepts Sample.pairDb (Sample.memOf Sample.ann)
              1 2 100 200 None None) as [H _].
  - vm_compute. discriminate.
  - vm_compute. discriminate.
  - reflexivity.
  - split; [intros m []|constructor].
  - reflexivity.
  - reflexivity.
  - exact H.
Defined.

(** ** Responding to a match (C6) *)

(** C6: when [m] is the match stored under its id and the authenticated
    actor [u] is not its receiver, PUT /api/user-matches/:id with status
    "accepted" or "rejected" answers 403 and returns the storage as it was,
    so [m] is still stored, with every field unchanged. *)
Theorem C6_only_the_receiver_responds
    (st : DatabaseStorage.t) (now : Z) (m : UserMatch.t) (u : Z) (newStatus : string) :
  DatabaseStorage.getUserMatch st (UserMatch.id m) = Some m ->
  u <> UserMatch.receiverId m ->
  newStatus = "accepted" \/ newStatus = "rejected" ->
  Routes.respondToMatch st now (UserMatch.id m) u newStatus =
    (st, Routes.mkResponse 403
           (Routes.JsonMessageText "You can only respond to matches sent to you")) /\
  DatabaseStorage.getUserMatch
    (fst (Routes.respondToMatch st now (UserMatch.id m) u newStatus))
    (UserMatch.id m) = Some m.
Proof.
  intros Hm Hu Hs.
  assert (E : Routes.respondToMatch st now (UserMatch.id m) u newStatus =
              (st, Routes.mkResponse 403
                     (Routes.JsonMessageText "You can only respond to matches sent to you"))).
  { unfold Routes.respondToMatch, Routes.putUserMatch.
    assert (Hv : Routes.invalidStatus (Some newStatus) = false)
      by (destruct Hs; subst; reflexivity).
    rewrite Hv, Hm.
    assert (Hne : (UserMatch.receiverId m =? u) = false) by (apply Z.eqb_neq; congruence).
    now rewrite Hne. }
  rewrite E. split; [reflexivity|exact Hm].
Qed.

Lemma C6_only_the_receiver_responds_witness :
  Routes.respondToMatch Sample.pendingDb 30 1 2 "accepted" =
    (Sample.pendingDb,
     Routes.mkResponse 403
       (Routes.JsonMessageText "You can only respond to matches sent to you")) /\
  DatabaseStorage.getUserMatch
    (fst (Routes.respondToMatch Sample.pendingDb 30 1 2 "accepted")) 1 =
    Some Sample.bobToAnn.
Proof.
  apply (C6_only_the_receiver_responds Sample.pendingDb 30 Sample.bobToAnn 2 "accepted").
  - reflexivity.
  - discriminate.
  - left. reflexivity.
Defined.

(** ** Sending a message without an accepted match (C5) *)

Lemma notMatched_without_accepted (st : DatabaseStorage.t) (s r : Z) :
  (forall m : UserMatch.t,
      In m (DatabaseStorage.userMatches st) -> joins s r m = true ->
      UserMatch.status m <> "accepted") ->
  Routes.notMatched (DatabaseStorage.getUserMatchByUsers st s r) = true.
Proof.
  intro H. unfold DatabaseStorage.getUserMatchByUsers.
  destruct (filter (joins s r) (DatabaseStorage.userMatches st)) as [|m1 l] eqn:E;
    simpl; [reflexivity|].
  assert (Hin : In m1 (filter (joins s r) (DatabaseStorage.userMatches st)))
    by (rewrite E; now left).
  apply filter_In in Hin as [Hin Hj].
  apply negb_true_iff, String.eqb_neq. now apply H.
Qed.

(** C5, counterexample: user 1 sends to the id 99, which no user has; no
    match joins them, and the answer is 404 "Recipient not found", not the
    403 of an authorization failure. *)
Lemma C5_unknown_recipient_is_not_found :
  filter (joins 1 99) (DatabaseStorage.userMatches Sample.pairDb) = [] /\
  Routes.sendMessage Sample.pairDb 30 1 99 "hi" =
    (Sample.pairDb, Routes.mkResponse 404 (Routes.JsonMessageText "Recipient not found")) /\
  Routes.status (snd (Routes.sendMessage Sample.pairDb 30 1 99 "hi")) <> 403.
Proof.
  repeat split; try reflexivity. discriminate.
Qed.

(** C5, amended: when no accepted match joins [s] and [r] in either
    direction, POST /api/messages by [s] to an existing user [r] answers 403
    "You can only message users you've matched with", and to an id that no
    user has it answers 404 "Recipient not found"; in both cases the storage
    is returned as it was, so no message is created. *)
Theorem C5_no_message_without_accepted_match
    (st : DatabaseStorage.t) (now s r : Z) (c : string) :
  (forall m : UserMatch.t,
      In m (DatabaseStorage.userMatches st) -> joins s r m = true ->
      UserMatch.status m <> "accepted") ->
  (DatabaseStorage.getUser st r <> None ->
   Routes.sendMessage st now s r c =
     (st, Routes.mkResponse 403
            (Routes.JsonMessageText "You can only message users you've matched with"))) /\
  (DatabaseStorage.getUser st r = None ->
   Routes.sendMessage st now s r c =
     (st, Routes.mkResponse 404 (Routes.JsonMessageText "Recipient not found"))) /\
  DatabaseStorage.messages (fst (Routes.sendMessage st now s r c)) =
    DatabaseStorage.messages st.
Proof.
  intro H. pose proof (notMatched_without_accepted st s r H) as Hn.
  unfold Routes.sendMessage, Routes.postMessages. simpl.
  rewrite Z.eqb_refl. simpl. rewrite Hn.
  destruct (DatabaseStorage.getUser st r); repeat split; congruence.
Qed.

Lemma C5_no_message_without_accepted_match_witness :
  Routes.sendMessage Sample.pendingDb 30 1 2 "hi" =
    (Sample.pendingDb,
     Routes.mkResponse 403
       (Routes.JsonMessageText "You can only message users you've matched with")).
Proof.
  apply (C5_no_message_without_accepted_match Sample.pendingDb 30 1 2 "hi").
  - intros m [<-|[]] _. discriminate.
  - vm_compute. discriminate.
Defined.

(** ** Unread counts around a conversation (C7) *)

Lemma filter_none {A : Type} (p : A -> bool) (l : list A) :
  (forall x, In x l -> p x = false) -> filter p l = [].
Proof.
  induction l as [|x l IH]; intro H; simpl; [reflexivity|].
  rewrite (H x) by now left. apply IH. intros y Hy. apply H. now right.
Qed.

Lemma unread_zero (st : DatabaseStorage.t) (b : Z) :
  DatabaseStorage.getUnreadMessageCount st b = 0 ->
  forall x : Message.t,
    In x (DatabaseStorage.messages st) ->
    ((Message.receiverId x =? b) && negb (Message.read x))%bool = false.
Proof.
  unfold DatabaseStorage.getUnreadMessageCount. intros H x Hin.
  apply (filter_nil_In
           (fun m => ((Message.receiverId m =? b) && negb (Message.read m))%bool)
           (DatabaseStorage.messages st)); [|assumption].
  destruct (filter _ (DatabaseStorage.messages st)); [reflexivity|].
  simpl in H. lia.
Qed.

(** C7: let [a] and [b] be existing users whose pair lookup returns an
    accepted match, and let [b] have no unread message. Then POST
    /api/messages by [a] to [b] answers 201 with a message stored with
    [read = false], after which [b]'s unread count is 1; GET
    /api/messages/[a] by [b] then answers 200 with a conversation that
    contains the message, and leaves [b]'s unread count at 0. *)
Theorem C7_unread_count_follows_conversation
    (st : DatabaseStorage.t) (now a b : Z) (c : string) (m : UserMatch.t) :
  DatabaseStorage.getUser st a <> None ->
  DatabaseStorage.getUser st b <> None ->
  DatabaseStorage.getUserMatchByUsers st a b = Some m ->
  UserMatch.status m = "accepted" ->
  Routes.unreadCount st b = 0 ->
  exists st1 msg st2 msgs,
    Routes.sendMessage st now a b c =
      (st1, Routes.mkResponse 201 (Routes.JsonNewMessage msg)) /\
    Message.read msg = false /\
    Message.senderId msg = a /\ Message.receiverId msg = b /\
    Message.content msg = c /\
    In msg (DatabaseStorage.messages st1) /\
    Routes.unreadCount st1 b = 1 /\
    Routes.getConversation st1 b a =
      (st2, Routes.mkResponse 200 (Routes.JsonMessages msgs)) /\
    In msg msgs /\
    Routes.unreadCount st2 b = 0.
Proof.
  intros Hua Hub Hm Hacc Hunread.
  set (msg := Message.mk (DatabaseStorage.messagesSeq st) a b c false now).
  set (st1 := DatabaseStorage.setMessages st (DatabaseStorage.messages st ++ [msg])
                (DatabaseStorage.messagesSeq st + 1)).
  pose proof (unread_zero st b Hunread) as Hold.
  assert (Hnm : forall x y, Routes.notMatched (DatabaseStorage.getUserMatchByUsers st x y) =
                            Routes.notMatched (DatabaseStorage.getUserMatchByUsers st y x)).
  { intros x y. unfold DatabaseStorage.getUserMatchByUsers.
    now rewrite (filter_joins_sym x y). }
  assert (Hok : Routes.notMatched (DatabaseStorage.getUserMatchByUsers st a b) = false).
  { rewrite Hm. simpl. now rewrite Hacc. }
  exists st1, msg, (DatabaseStorage.markMessagesAsRead st1 b a),
         (DatabaseStorage.getMessages st1 b a).
  split; [|split; [reflexivity|split; [reflexivity|split; [reflexivity|split;
          [reflexivity|split; [|split; [|split; [|split]]]]]]]].
  - unfold Routes.sendMessage, Routes.postMessages. simpl.
    rewrite Z.eqb_refl. simpl.
    destruct (DatabaseStorage.getUser st b); [|congruence].
    now rewrite Hok.
  - simpl. apply in_or_app. right. now left.
  - unfold Routes.unreadCount, DatabaseStorage.getUnreadMessageCount. simpl.
    rewrite filter_app, (filter_none _ _ Hold). simpl.
    now rewrite Z.eqb_refl.
  - unfold Routes.getConversation, Routes.getMessagesWith.
    rewrite (db_getUser_users st st1 a eq_refl).
    destruct (DatabaseStorage.getUser st a); [|congruence].
    change (DatabaseStorage.getUserMatchByUsers st1 b a)
      with (DatabaseStorage.getUserMatchByUsers st b a).
    now rewrite (Hnm b a), Hok.
  - unfold DatabaseStorage.getMessages. apply Array_sort_In.
    apply filter_In. split.
    + simpl. apply in_or_app. right. now left.
    + simpl. rewrite !Z.eqb_refl. simpl. apply orb_true_r.
  - unfold Routes.unreadCount, DatabaseStorage.getUnreadMessageCount.
    rewrite filter_none; [reflexivity|].
    intros x Hx. simpl in Hx. apply in_map_iff in Hx as (y & <- & Hy).
    destruct ((Message.receiverId y =? b) && (Message.senderId y =? a) &&
              negb (Message.read y))%bool eqn:E.
    + simpl. apply andb_false_r.
    + apply in_app_or in Hy as [Hy|[<-|[]]].
      * now apply Hold.
      * simpl in E. rewrite !Z.eqb_refl in E. discriminate.
Qed.

Lemma C7_unread_count_follows_conversation_witness :
  exists st1 msg st2 msgs,
    Routes.sendMessage Sample.matchedDb 30 1 2 "hi" =
      (st1, Routes.mkResponse 201 (Routes.JsonNewMessage msg)) /\
    Message.read msg = false /\
    Message.senderId msg = 1 /\ Message.receiverId msg = 2 /\
    Message.content msg = "hi" /\
    In msg (DatabaseStorage.messages st1) /\
    Routes.unreadCount st1 2 = 1 /\
    Routes.getConversation st1 2 1 =
      (st2, Routes.mkResponse 200 (Routes.JsonMessages msgs)) /\
    In msg msgs /\
    Routes.unreadCount st2 2 = 0.
Proof.
  apply (C7_unread_count_follows_conversation Sample.matchedDb 30 1 2 "hi"
           Sample.annAndBob).
  - vm_compute. discriminate.
  - vm_compute. discriminate.
  - reflexivity.
  - reflexivity.
  - reflexivity.
Defined.

(** ** Saving a gym twice (C9) *)

Lemma filter_map_commute {A : Type} (p : A -> bool) (f : A -> A) (l : list A) :
  (forall x, p (f x) = p x) -> filter p (map f l) = map f (filter p l).
Proof.
  intro H. induction l as [|x l IH]; simpl; [reflexivity|].
  rewrite H. destruct (p x); simpl; now rewrite IH.
Qed.


(** [MemStorage.saveGym] on a pair that is already saved, with a supplied
    score other than 0: the keys of the store stay as they are and the
    record of the pair carries the supplied score. *)
Lemma mem_saveGym_again_nonzero (st : MemStorage.t) (now u g s : Z) (e : SavedGym.t) :
  MemStorage.getSavedGym st u g = Some e -> s <> 0 ->
  let st' := fst (MemStorage.saveGym st now (InsertSavedGym.mk u g (Num s))) in
  MemStorage.getSavedGym st' u g =
    Some (SavedGym.mk (SavedGym.id e) (SavedGym.userId e) (SavedGym.gymId e) (Some s)
            (SavedGym.savedAt e)).
Proof.
  intros He Hs. unfold MemStorage.saveGym.
  cbn [InsertSavedGym.userId InsertSavedGym.gymId InsertSavedGym.matchScore].
  rewrite He. cbn [truthyNum toColumn].
  apply Z.eqb_neq in Hs. rewrite Hs. cbn [negb fst].
  unfold MemStorage.getSavedGym.
  cbn [MemStorage.savedGymStore MemStorage.setSavedGymStore].
  apply get_set_same. apply String.eqb_refl.
Qed.

(** With the score 0 the same call returns the state and the record as
    they were. *)
Lemma mem_saveGym_again_zero (st : MemStorage.t) (now u g : Z) (e : SavedGym.t) :
  MemStorage.getSavedGym st u g = Some e ->
  MemStorage.saveGym st now (InsertSavedGym.mk u g (Num 0)) = (st, e).
Proof.
  intros He. unfold MemStorage.saveGym.
  cbn [InsertSavedGym.userId InsertSavedGym.gymId InsertSavedGym.matchScore].
  now rewrite He.
Qed.

(** C9, the failing input evaluated: user 1 has saved gym 1 with score 85
    and saves it again with the supplied score 0. [MemStorage.saveGym]
    tests the score for truthiness, so it returns the store and the record
    unchanged, score 85; [DatabaseStorage.saveGym] on the same input sets
    the score of the one row to 0. *)
Theorem C9_mem_resave_with_zero_keeps_score :
  MemStorage.getSavedGym Sample.savedMem 1 1 = Some Sample.saved85 /\
  MemStorage.saveGym Sample.savedMem 30 (InsertSavedGym.mk 1 1 (Num 0)) =
    (Sample.savedMem, Sample.saved85) /\
  SavedGym.matchScore Sample.saved85 = Some 85 /\
  DatabaseStorage.savedGyms
    (fst (DatabaseStorage.saveGym Sample.savedDb 30 (InsertSavedGym.mk 1 1 (Num 0)))) =
    [SavedGym.mk 1 1 1 (Some 0) 10].
Proof.
  repeat split.
Qed.

(** * Further properties of the modelled code *)

(** ** [Array_sort] orders its input *)

Section SortedFacts.
Context {A : Type} (cmp : A -> A -> Z).
Hypothesis cmp_total : forall x y : A, cmp x y <= 0 \/ cmp y x <= 0.
Hypothesis cmp_trans : forall x y z : A, cmp x y <= 0 -> cmp y z <= 0 -> cmp x z <= 0.

Lemma insertSorted_sorted (x : A) (l : list A) :
  StronglySorted (fun a b => cmp a b <= 0) l ->
  StronglySorted (fun a b => cmp a b <= 0) (insertSorted cmp x l).
Proof.
  induction l as [|y l IH]; intro H; simpl.
  - constructor; constructor.
  - inversion H as [|? ? Hl Hy]; subst.
    destruct (cmp x y <=? 0) eqn:E.
    + apply Z.leb_le in E. constructor; [assumption|].
      constructor; [assumption|].
      eapply Forall_impl; [|exact Hy]. intros z Hz. now apply cmp_trans with y.
    + apply Z.leb_gt in E. constructor; [now apply IH|].
      apply (Permutation_Forall (x := x :: l)).
      * symmetry. apply insertSorted_perm.
      * constructor; [|assumption].
        destruct (cmp_total x y); [lia|assumption].
Qed.

Lemma Array_sort_sorted (l : list A) :
  StronglySorted (fun a b => cmp a b <= 0) (Array_sort cmp l).
Proof.
  induction l as [|x l IH]; simpl; [constructor|].
  now apply insertSorted_sorted.
Qed.

End SortedFacts.

Lemma StronglySorted_weaken {A : Type} (R S : A -> A -> Prop) (l : list A) :
  (forall a b, R a b -> S a b) -> StronglySorted R l -> StronglySorted S l.
Proof.
  intros HRS H. induction H as [|a l Hl IH Ha]; constructor; [assumption|].
  eapply Forall_impl; [|exact Ha]. intros b. apply HRS.
Qed.

Lemma byScoreDesc_sorted (l : list GymMatch.t) :
  StronglySorted (fun a b => GymMatch.matchScore b <= GymMatch.matchScore a)
    (Array_sort byScoreDesc l).
Proof.
  apply StronglySorted_weaken with (R := fun a b => byScoreDesc a b <= 0).
  - unfold byScoreDesc. intros a b. lia.
  - apply Array_sort_sorted; unfold byScoreDesc; intros; lia.
Qed.

(** ** The ranking returned by [getMatchesForUser] *)

Lemma scoreAll_gyms (rand : nat -> Q) (user : User.t) (allGyms : list Gym.t) :
  forall (k : nat) (l : list GymMatch.t),
  DatabaseStorage.scoreAll rand k user allGyms = Returned l ->
  map GymMatch.gym l = allGyms.
Proof.
  induction allGyms as [|gym rest IH]; intros k l H; simpl in H.
  - now inversion H.
  - destruct (DatabaseStorage.score (rand k) user gym) as [s|e]; simpl in H; [|discriminate].
    destruct (DatabaseStorage.scoreAll rand (S k) user rest) as [scored|e] eqn:E;
      simpl in H; [|discriminate].
    inversion H; subst. simpl. f_equal. now apply (IH (S k)).
Qed.

Lemma scoreAll_nth (rand : nat -> Q) (user : User.t) (allGyms : list Gym.t) :
  forall (k : nat) (scored : list GymMatch.t),
  DatabaseStorage.scoreAll rand k user allGyms = Returned scored ->
  forall (i : nat) (gym : Gym.t),
  nth_error allGyms i = Some gym ->
  exists s : Z,
    DatabaseStorage.score (rand (k + i)%nat) user gym = Returned s /\
    nth_error scored i = Some (GymMatch.mk gym s).
Proof.
  induction allGyms as [|g rest IH]; intros k scored H i gym Hi.
  - destruct i; discriminate.
  - cbn [DatabaseStorage.scoreAll] in H.
    destruct (DatabaseStorage.score (rand k) user g) as [s|e] eqn:Es;
      cbn [bindJs] in H; [|discriminate].
    destruct (DatabaseStorage.scoreAll rand (S k) user rest) as [scored1|e] eqn:E;
      cbn [bindJs] in H; [|discriminate].
    inversion H; subst scored. destruct i as [|i]; cbn [nth_error] in *.
    + inversion Hi; subst g. exists s. rewrite Nat.add_0_r. auto.
    + destruct (IH (S k) scored1 E i gym Hi) as [s' [Hs' Hn]].
      exists s'. rewrite Nat.add_succ_r. auto.
Qed.

(** X1: the list [getMatchesForUser] returns is ordered by score, highest
    first, and holds every stored gym exactly once, each with the score the
    scorer gives it: for [MemStorage] the score of the profile and the gym,
    for [DatabaseStorage] the score its callback returns for that gym on
    the draw the gym consumed, the draws being taken in stored order. This
    holds for [MemStorage] always and for [DatabaseStorage] whenever it
    returns. For an unknown user both return the empty list. *)
Theorem X1_ranking_is_sorted_and_complete
    (mst : MemStorage.t) (dst : DatabaseStorage.t) (userId : Z)
    (rand : nat -> Q) (k : nat) (l : list GymMatch.t) :
  DatabaseStorage.getMatchesForUser rand k dst userId = Returned l ->
  StronglySorted (fun a b => GymMatch.matchScore b <= GymMatch.matchScore a)
    (MemStorage.getMatchesForUser mst userId) /\
  (forall user : User.t,
      MemStorage.getUser mst userId = Some user ->
      Permutation (map GymMatch.gym (MemStorage.getMatchesForUser mst userId))
        (MemStorage.getAllGyms mst) /\
      Forall (fun gm => GymMatch.matchScore gm = MemStorage.score user (GymMatch.gym gm))
        (MemStorage.getMatchesForUser mst userId)) /\
  (MemStorage.getUser mst userId = None -> MemStorage.getMatchesForUser mst userId = []) /\
  StronglySorted (fun a b => GymMatch.matchScore b <= GymMatch.matchScore a) l /\
  (DatabaseStorage.getUser dst userId <> None ->
   Permutation (map GymMatch.gym l) (DatabaseStorage.getAllGyms dst)) /\
  (DatabaseStorage.getUser dst userId = None -> l = []) /\
  (forall user : User.t,
      DatabaseStorage.getUser dst userId = Some user ->
      exists scored : list GymMatch.t,
        Permutation l scored /\
        List.length scored = List.length (DatabaseStorage.getAllGyms dst) /\
        forall (i : nat) (gym : Gym.t),
          nth_error (DatabaseStorage.getAllGyms dst) i = Some gym ->
          exists s : Z,
            DatabaseStorage.score (rand (k + i)%nat) user gym = Returned s /\
            nth_error scored i = Some (GymMatch.mk gym s)).
Proof.
  intro Hd. split; [|split; [|split; [|split; [|split; [|split]]]]].
  - unfold MemStorage.getMatchesForUser.
    destruct (MemStorage.getUser mst userId); [apply byScoreDesc_sorted|constructor].
  - intros user Hu. unfold MemStorage.getMatchesForUser. rewrite Hu. split.
    + rewrite (Permutation_map GymMatch.gym (Array_sort_perm byScoreDesc _)).
      rewrite map_map. simpl. now rewrite map_id.
    + apply Forall_forall. intros gm Hin.
      apply Array_sort_In, in_map_iff in Hin as (gym & <- & _). reflexivity.
  - intro Hu. unfold MemStorage.getMatchesForUser. now rewrite Hu.
  - unfold DatabaseStorage.getMatchesForUser in Hd.
    destruct (DatabaseStorage.getUser dst userId) as [user|].
    + destruct (DatabaseStorage.scoreAll rand k user (DatabaseStorage.getAllGyms dst))
        as [scored|e]; simpl in Hd; [|discriminate].
      inversion Hd. apply byScoreDesc_sorted.
    + inversion Hd. constructor.
  - intro Hu. unfold DatabaseStorage.getMatchesForUser in Hd.
    destruct (DatabaseStorage.getUser dst userId) as [user|]; [|congruence].
    destruct (DatabaseStorage.scoreAll rand k user (DatabaseStorage.getAllGyms dst))
      as [scored|e] eqn:E; simpl in Hd; [|discriminate].
    inversion Hd; subst.
    rewrite (Permutation_map GymMatch.gym (Array_sort_perm byScoreDesc _)).
    now rewrite (scoreAll_gyms rand user _ k scored E).
  - intro Hu. unfold DatabaseStorage.getMatchesForUser in Hd. rewrite Hu in Hd.
    now inversion Hd.
  - intros user Hu. unfold DatabaseStorage.getMatchesForUser in Hd. rewrite Hu in Hd.
    destruct (DatabaseStorage.scoreAll rand k user (DatabaseStorage.getAllGyms dst))
      as [scored|e] eqn:E; cbn [bindJs] in Hd; [|discriminate].
    inversion Hd; subst l. exists scored.
    split; [apply Array_sort_perm|]. split.
    + rewrite <- (scoreAll_gyms rand user _ k scored E). now rewrite length_map.
    + now apply scoreAll_nth.
Qed.

(** ** A gym without amenities *)

Lemma goalHits_nil (goal : string) : MemStorage.goalHits goal [] = 0%nat.
Proof.
  unfold MemStorage.goalHits.
  induction (MemStorage.relatedAmenities (JsString.toLowerCase goal)) as [|a l IH];
    simpl; [reflexivity|exact IH].
Qed.

Lemma goalLoop_nil (goals : list string) :
  MemStorage.goalLoop goals [] = MemStorage.mkGoalCounters 0 0.
Proof.
  unfold MemStorage.goalLoop.
  assert (H : forall c, fold_left (MemStorage.goalStep []) goals c = c).
  { induction goals as [|goal goals IH]; intro c; simpl; [reflexivity|].
    unfold MemStorage.goalStep at 2. rewrite goalHits_nil. simpl.
    rewrite Nat.add_0_r. destruct c; simpl. apply IH. }
  apply H.
Qed.

Lemma preferenceMatches_nil (prefs : list string) :
  MemStorage.preferenceMatches prefs [] = 0%nat.
Proof.
  unfold MemStorage.preferenceMatches.
  induction prefs as [|pref prefs IH]; simpl; [reflexivity|exact IH].
Qed.

Lemma zero_ratio (n : nat) : (JsMath.ofNat 0 / JsMath.ofNat n == 0)%Q.
Proof.
  unfold Qdiv. change (JsMath.ofNat 0) with 0%Q. apply Qmult_0_l.
Qed.

Lemma min_one_zero (x : Q) : (x == 0)%Q -> (JsMath.min 1 x == 0)%Q.
Proof.
  intro H. unfold JsMath.min. destruct (Qle_bool 1 x) eqn:E; [|assumption].
  apply Qle_bool_iff in E. rewrite H in E. unfold Qle in E. simpl in E. lia.
Qed.

Lemma round_comp (x y : Q) : (x == y)%Q -> JsMath.round x = JsMath.round y.
Proof.
  intro H. unfold JsMath.round. apply Qfloor_comp. now rewrite H.
Qed.

(** At a gym without amenities both dimensions leave the score at its
    entry value and add 0 to [matchingFactors]. *)
Lemma dimensions_noAmenities (user : User.t) (gym : Gym.t) :
  noAmenities gym ->
  (MemStorage.matchScore (MemStorage.dimensions user gym) == 70)%Q /\
  (MemStorage.matchingFactors (MemStorage.dimensions user gym) == 0)%Q.
Proof.
  unfold noAmenities, MemStorage.dimensions, MemStorage.preferenceDimension,
    MemStorage.goalDimension.
  intros [H|H]; rewrite H.
  - destruct (User.fitnessGoals user), (User.gymPreferences user); split; reflexivity.
  - assert (Hg : forall goals,
               JsMath.gt (MemStorage.goalMatchPercentage goals []) (1 # 2) = false).
    { intro goals. unfold JsMath.gt, MemStorage.goalMatchPercentage.
      rewrite goalLoop_nil. simpl MemStorage.matchCount.
      apply negb_false_iff, Qle_bool_iff. rewrite zero_ratio. discriminate. }
    assert (Hp : forall prefs, (MemStorage.prefMatchPercentage prefs [] == 0)%Q).
    { intro prefs. unfold MemStorage.prefMatchPercentage.
      rewrite preferenceMatches_nil. apply min_one_zero, zero_ratio. }
    destruct (User.fitnessGoals user) as [goals|];
      destruct (User.gymPreferences user) as [prefs|];
      try destruct (Nat.ltb 0 (List.length goals));
      try destruct (Nat.ltb 0 (List.length prefs));
      cbn [MemStorage.matchScore MemStorage.matchingFactors MemStorage.totalFactors];
      rewrite ?Hg, ?goalLoop_nil, ?preferenceMatches_nil;
      cbn [MemStorage.matchScore MemStorage.matchingFactors MemStorage.totalFactors
           MemStorage.amenityMatchCount];
      rewrite ?Hp; split; reflexivity.
Qed.

(** X2: a gym without amenities (the array is [null] or empty) is scored
    exactly 70 by the [MemStorage] scorer, whatever goals and preferences
    the profile holds. *)
Theorem X2_gym_without_amenities_scores_70 (user : User.t) (gym : Gym.t) :
  noAmenities gym -> MemStorage.score user gym = 70.
Proof.
  intro H. destruct (dimensions_noAmenities user gym H) as [Hs Hm].
  unfold MemStorage.score.
  destruct (0 <? MemStorage.totalFactors (MemStorage.dimensions user gym)).
  - rewrite (round_comp _ 70); [reflexivity|].
    unfold MemStorage.factorScore. rewrite Hs, Hm. unfold Qdiv.
    rewrite Qmult_0_l, Qmult_0_l. reflexivity.
  - rewrite (round_comp _ 70); [reflexivity|exact Hs].
Qed.

(** ** Bounded accumulation in the [MemStorage] scorer *)

Lemma goalLoop_matchCount_le (goals gymAmenities : list string) :
  (MemStorage.matchCount (MemStorage.goalLoop goals gymAmenities) <= List.length goals)%nat.
Proof.
  unfold MemStorage.goalLoop.
  assert (H : forall c,
             (MemStorage.matchCount (fold_left (MemStorage.goalStep gymAmenities) goals c)
              <= MemStorage.matchCount c + List.length goals)%nat).
  { induction goals as [|goal goals IH]; intro c; simpl; [lia|].
    specialize (IH (MemStorage.goalStep gymAmenities c goal)).
    assert (Hc : (MemStorage.matchCount (MemStorage.goalStep gymAmenities c goal)
                  <= S (MemStorage.matchCount c))%nat).
    { unfold MemStorage.goalStep. cbn [MemStorage.matchCount].
      destruct (Nat.ltb 0 (MemStorage.goalHits goal gymAmenities)); lia. }
    lia. }
  apply (H (MemStorage.mkGoalCounters 0 0)).
Qed.

Lemma ratio_le_one (a n : nat) :
  (a <= n)%nat -> (0 < n)%nat -> (JsMath.ofNat a / JsMath.ofNat n <= 1)%Q.
Proof.
  intros Ha Hn. apply Qle_shift_div_r.
  - unfold JsMath.ofNat, Qlt. simpl. lia.
  - rewrite Qmult_1_l. unfold JsMath.ofNat. rewrite <- Zle_Qle. lia.
Qed.

Lemma inject_Z_succ (z : Z) : (inject_Z (z + 1) == inject_Z z + 1)%Q.
Proof.
  rewrite inject_Z_plus. reflexivity.
Qed.

Lemma bonus_within (n cap k : Z) :
  0 <= cap -> 0 <= n -> 0 <= k ->
  (0 <= inject_Z (Z.min cap (n * k)))%Q /\ (inject_Z (Z.min cap (n * k)) <= inject_Z cap)%Q.
Proof.
  intros Hc Hn Hk. split.
  - apply inject_Z_nonneg. apply Z.min_glb; [assumption|]. now apply Z.mul_nonneg_nonneg.
  - rewrite <- Zle_Qle. apply Z.le_min_l.
Qed.

Lemma goalDimension_within (user : User.t) (gym : Gym.t) (lo hi : Q) (n : Z)
    (l : MemStorage.Locals) :
  LocalsWithin lo hi n l ->
  LocalsWithin lo (hi + 15) (n + 1) (MemStorage.goalDimension user gym l).
Proof.
  intros (Hlo & Hhi & Ht & Hm0 & Hm).
  assert (Hkeep : LocalsWithin lo (hi + 15) (n + 1) l).
  { repeat split; try assumption; try lia. lra. }
  unfold MemStorage.goalDimension.
  destruct (User.fitnessGoals user) as [goals|]; [|exact Hkeep].
  destruct (Gym.amenities gym) as [gymAmenities|]; [|exact Hkeep].
  destruct (Nat.ltb 0 (List.length goals)) eqn:En; [|exact Hkeep].
  apply Nat.ltb_lt in En.
  destruct (bonus_within
              (Z.of_nat (MemStorage.amenityMatchCount (MemStorage.goalLoop goals gymAmenities)))
              15 3) as [Hb0 Hb1]; try lia.
  change (inject_Z 15) with 15%Q in Hb1.
  pose proof (ratio_nonneg
                (MemStorage.matchCount (MemStorage.goalLoop goals gymAmenities))
                (List.length goals)) as Hp0.
  pose proof (ratio_le_one _ _ (goalLoop_matchCount_le goals gymAmenities) En) as Hp1.
  fold (MemStorage.goalMatchPercentage goals gymAmenities) in Hp0, Hp1.
  pose proof (inject_Z_succ (MemStorage.totalFactors l)) as Hs.
  unfold LocalsWithin. cbn [MemStorage.matchScore MemStorage.totalFactors
                               MemStorage.matchingFactors].
  rewrite Hs.
  destruct (JsMath.gt (MemStorage.goalMatchPercentage goals gymAmenities) (1 # 2));
    repeat split; try lia; lra.
Qed.

Lemma preferenceDimension_within (user : User.t) (gym : Gym.t) (lo hi : Q) (n : Z)
    (l : MemStorage.Locals) :
  LocalsWithin lo hi n l ->
  LocalsWithin lo (hi + 20) (n + 1) (MemStorage.preferenceDimension user gym l).
Proof.
  intros (Hlo & Hhi & Ht & Hm0 & Hm).
  assert (Hkeep : LocalsWithin lo (hi + 20) (n + 1) l).
  { repeat split; try assumption; try lia. lra. }
  unfold MemStorage.preferenceDimension.
  destruct (User.gymPreferences user) as [prefs|]; [|exact Hkeep].
  destruct (Gym.amenities gym) as [gymAmenities|]; [|exact Hkeep].
  destruct (Nat.ltb 0 (List.length prefs)) eqn:En; [|exact Hkeep].
  destruct (bonus_within (Z.of_nat (MemStorage.preferenceMatches prefs gymAmenities))
              20 5) as [Hb0 Hb1]; try lia.
  change (inject_Z 20) with 20%Q in Hb1.
  assert (Hp0 : (0 <= MemStorage.prefMatchPercentage prefs gymAmenities)%Q).
  { apply min_nonneg; [discriminate|apply ratio_nonneg]. }
  pose proof (min_le_l 1 (JsMath.ofNat (MemStorage.preferenceMatches prefs gymAmenities) /
                          JsMath.ofNat (List.length prefs))) as Hp1.
  fold (MemStorage.prefMatchPercentage prefs gymAmenities) in Hp1.
  pose proof (inject_Z_succ (MemStorage.totalFactors l)) as Hs.
  unfold LocalsWithin. cbn [MemStorage.matchScore MemStorage.totalFactors
                               MemStorage.matchingFactors].
  rewrite Hs. repeat split; try lia; lra.
Qed.

(** X3: when both dimensions of the [MemStorage] scorer have run, the score
    before the factor adjustment lies between 70 and 105 (the two bonuses
    are capped at 15 and 20), at most two dimensions are counted, each
    counted dimension has added at most 1 to [matchingFactors], and the
    factor adjustment, when it applies, lies between 0 and 20. *)
Theorem X3_scorer_accumulators_are_bounded (user : User.t) (gym : Gym.t) :
  LocalsWithin 70 105 2 (MemStorage.dimensions user gym) /\
  (0 < MemStorage.totalFactors (MemStorage.dimensions user gym) ->
   (0 <= MemStorage.factorScore (MemStorage.dimensions user gym))%Q /\
   (MemStorage.factorScore (MemStorage.dimensions user gym) <= 20)%Q).
Proof.
  assert (H : LocalsWithin 70 (70 + 15 + 20) (0 + 1 + 1) (MemStorage.dimensions user gym)).
  { apply preferenceDimension_within, goalDimension_within.
    repeat split; simpl; try lia; try lra; discriminate. }
  split; [exact H|].
  destruct H as (_ & _ & Ht & Hm0 & Hm). intro Hpos.
  unfold MemStorage.factorScore.
  assert (Hq : (0 < inject_Z (MemStorage.totalFactors (MemStorage.dimensions user gym)))%Q).
  { change 0%Q with (inject_Z 0). now rewrite <- Zlt_Qlt. }
  assert (H0 : (0 <= MemStorage.matchingFactors (MemStorage.dimensions user gym) /
                     inject_Z (MemStorage.totalFactors (MemStorage.dimensions user gym)))%Q).
  { apply Qle_shift_div_l; [assumption|]. now rewrite Qmult_0_l. }
  assert (H1 : (MemStorage.matchingFactors (MemStorage.dimensions user gym) /
                inject_Z (MemStorage.totalFactors (MemStorage.dimensions user gym)) <= 1)%Q).
  { apply Qle_shift_div_r; [assumption|]. now rewrite Qmult_1_l. }
  split; lra.
Qed.

(** ** Matching ignores the case of the labels *)

Lemma lowerChar_idem (c : ascii) :
  JsString.lowerChar (JsString.lowerChar c) = JsString.lowerChar c.
Proof.
  destruct c as [[] [] [] [] [] [] [] []]; reflexivity.
Qed.

Lemma toLowerCase_idem (s : string) :
  JsString.toLowerCase (JsString.toLowerCase s) = JsString.toLowerCase s.
Proof.
  induction s as [|c s IH]; simpl; [reflexivity|].
  now rewrite lowerChar_idem, IH.
Qed.

Lemma length_filter_map {A B : Type} (p : B -> bool) (f : A -> B) (l : list A) :
  List.length (filter p (map f l)) = List.length (filter (fun x => p (f x)) l).
Proof.
  induction l as [|x l IH]; simpl; [reflexivity|].
  destruct (p (f x)); simpl; now rewrite IH.
Qed.

Lemma fold_left_map {A B C : Type} (f : A -> B -> A) (g : C -> B) (l : list C) (a : A) :
  fold_left f (map g l) a = fold_left (fun acc x => f acc (g x)) l a.
Proof.
  revert a. induction l as [|x l IH]; intro a; simpl; [reflexivity|apply IH].
Qed.

Lemma fold_left_ext_eq {A B : Type} (f g : A -> B -> A) (l : list B) (a : A) :
  (forall acc x, f acc x = g acc x) -> fold_left f l a = fold_left g l a.
Proof.
  intro H. revert a. induction l as [|x l IH]; intro a; simpl; [reflexivity|].
  now rewrite H, IH.
Qed.

Lemma goalHits_lower (goal : string) (gymAmenities : list string) :
  MemStorage.goalHits (JsString.toLowerCase goal)
    (map JsString.toLowerCase gymAmenities) =
  MemStorage.goalHits goal gymAmenities.
Proof.
  unfold MemStorage.goalHits. rewrite toLowerCase_idem. f_equal.
  apply map_ext. intro amenity. rewrite length_filter_map. f_equal.
  apply filter_ext. intro x. unfold MemStorage.amenityMatches.
  now rewrite toLowerCase_idem.
Qed.

Lemma goalLoop_lower (goals gymAmenities : list string) :
  MemStorage.goalLoop (map JsString.toLowerCase goals)
    (map JsString.toLowerCase gymAmenities) =
  MemStorage.goalLoop goals gymAmenities.
Proof.
  unfold MemStorage.goalLoop. rewrite fold_left_map.
  apply fold_left_ext_eq. intros c goal. unfold MemStorage.goalStep.
  now rewrite goalHits_lower.
Qed.

Lemma preferenceMatches_lower (prefs gymAmenities : list string) :
  MemStorage.preferenceMatches (map JsString.toLowerCase prefs)
    (map JsString.toLowerCase gymAmenities) =
  MemStorage.preferenceMatches prefs gymAmenities.
Proof.
  unfold MemStorage.preferenceMatches. rewrite fold_left_map.
  apply fold_left_ext_eq. intros n pref. f_equal.
  rewrite length_filter_map, toLowerCase_idem. f_equal.
  apply filter_ext. intro x. unfold MemStorage.preferenceMatches1.
  now rewrite toLowerCase_idem.
Qed.

Lemma goalDimension_lower (user : User.t) (gym : Gym.t) (l : MemStorage.Locals) :
  MemStorage.goalDimension (lowerUser user) (lowerGym gym) l =
  MemStorage.goalDimension user gym l.
Proof.
  unfold MemStorage.goalDimension, lowerUser, lowerGym, lowerLabels. simpl.
  destruct (User.fitnessGoals user) as [goals|]; [|reflexivity].
  destruct (Gym.amenities gym) as [gymAmenities|]; [|reflexivity]. simpl.
  unfold MemStorage.goalMatchPercentage.
  now rewrite goalLoop_lower, length_map.
Qed.

Lemma preferenceDimension_lower (user : User.t) (gym : Gym.t) (l : MemStorage.Locals) :
  MemStorage.preferenceDimension (lowerUser user) (lowerGym gym) l =
  MemStorage.preferenceDimension user gym l.
Proof.
  unfold MemStorage.preferenceDimension, lowerUser, lowerGym, lowerLabels. simpl.
  destruct (User.gymPreferences user) as [prefs|]; [|reflexivity].
  destruct (Gym.amenities gym) as [gymAmenities|]; [|reflexivity]. simpl.
  unfold MemStorage.prefMatchPercentage.
  now rewrite preferenceMatches_lower, length_map.
Qed.

(** X4: on ASCII labels the [MemStorage] scorer ignores the case of the
    letters. It reads goals, preferences and amenities only through
    [toLowerCase], so two profiles whose labels are ASCII and differ only
    in the case of their letters, and two gyms whose amenities do, receive
    the same score. In particular the score does not change when every
    label is put in lower case. Labels with other characters are outside
    this statement. *)
Theorem X4_matching_ignores_case (user user' : User.t) (gym gym' : Gym.t) :
  asciiUser user = true -> asciiUser user' = true ->
  asciiGym gym = true -> asciiGym gym' = true ->
  lowerLabels (User.fitnessGoals user) = lowerLabels (User.fitnessGoals user') ->
  lowerLabels (User.gymPreferences user) = lowerLabels (User.gymPreferences user') ->
  lowerLabels (Gym.amenities gym) = lowerLabels (Gym.amenities gym') ->
  MemStorage.score user gym = MemStorage.score user' gym' /\
  MemStorage.score (lowerUser user) (lowerGym gym) = MemStorage.score user gym.
Proof.
  intros _ _ _ _ Hg Hp Ha.
  assert (Hlow : forall u g, MemStorage.dimensions (lowerUser u) (lowerGym g) =
                             MemStorage.dimensions u g).
  { intros u g. unfold MemStorage.dimensions.
    now rewrite preferenceDimension_lower, goalDimension_lower. }
  assert (Hscore : forall u g, MemStorage.score (lowerUser u) (lowerGym g) =
                               MemStorage.score u g).
  { intros u g. unfold MemStorage.score. now rewrite Hlow. }
  split; [|apply Hscore].
  rewrite <- (Hscore user gym), <- (Hscore user' gym').
  assert (Hd : MemStorage.dimensions (lowerUser user) (lowerGym gym) =
               MemStorage.dimensions (lowerUser user') (lowerGym gym')).
  { unfold MemStorage.dimensions, MemStorage.preferenceDimension,
      MemStorage.goalDimension, lowerUser, lowerGym. simpl.
    now rewrite Hg, Hp, Ha. }
  unfold MemStorage.score. now rewrite Hd.
Qed.

(** ** The pair invariant of the user-match table *)

Lemma joins_same_pair (a b s r : Z) (m : UserMatch.t) :
  joins a b m = true -> joins s r m = true ->
  forall x : UserMatch.t, joins a b x = joins s r x.
Proof.
  unfold joins. intros H1 H2 x.
  rewrite orb_true_iff, !andb_true_iff, !Z.eqb_eq in H1, H2.
  destruct H1 as [[<- <-]|[<- <-]], H2 as [[<- <-]|[E1 E2]];
    try reflexivity; try apply orb_comm.
  - rewrite <- E1, <- E2. apply orb_comm.
  - rewrite E1, E2. reflexivity.
Qed.


Lemma hd_error_filter_none {A : Type} (p : A -> bool) (l : list A) :
  hd_error (filter p l) = None -> filter p l = [].
Proof.
  now destruct (filter p l).
Qed.







(** ** Repeated and late match requests *)



Lemma NoDup_map_inj_on {A B : Type} (f : A -> B) (l : list A) (x y : A) :
  NoDup (map f l) -> In x l -> In y l -> f x = f y -> x = y.
Proof.
  induction l as [|z l IH]; intros Hnd Hx Hy Hf; [contradiction|].
  simpl in Hnd. inversion Hnd as [|? ? Hnotin Hnd']; subst.
  destruct Hx as [<-|Hx], Hy as [<-|Hy]; try reflexivity.
  - exfalso. apply Hnotin. rewrite Hf. now apply in_map.
  - exfalso. apply Hnotin. rewrite <- Hf. now apply in_map.
  - now apply IH.
Qed.

Lemma map_id_update (rows : list UserMatch.t) (hit : UserMatch.t -> bool)
    (status : string) (now : Z) :
  map UserMatch.id
    (map (fun row => if hit row then withStatus row status now else row) rows) =
  map UserMatch.id rows.
Proof.
  rewrite map_map. apply map_ext. intro row. now destruct (hit row).
Qed.

Lemma db_updateUserMatchStatus_fresh (st : DatabaseStorage.t) (now id : Z) (status : string) :
  MatchIdsFresh st ->
  MatchIdsFresh (fst (DatabaseStorage.updateUserMatchStatus st now id status)).
Proof.
  intros [Hlt Hnd]. unfold MatchIdsFresh, DatabaseStorage.updateUserMatchStatus. simpl.
  split.
  - intros m Hin. apply in_map_iff in Hin as (row & <- & Hrow).
    specialize (Hlt row Hrow). now destruct (UserMatch.id row =? id).
  - change (fun row : UserMatch.t =>
              if UserMatch.id row =? id
              then UserMatch.mk (UserMatch.id row) (UserMatch.senderId row)
                     (UserMatch.receiverId row) status (UserMatch.matchScore row)
                     (UserMatch.createdAt row) now
              else row)
      with (fun row => if UserMatch.id row =? id then withStatus row status now else row).
    now rewrite map_id_update.
Qed.

Lemma db_createUserMatch_ids_fresh (st : DatabaseStorage.t) (now : Z) (d : InsertUserMatch.t) :
  MatchIdsFresh st -> MatchIdsFresh (fst (DatabaseStorage.createUserMatch st now d)).
Proof.
  intro H. unfold DatabaseStorage.createUserMatch.
  destruct (DatabaseStorage.getUserMatchByUsers st _ _) as [e|].
  - destruct (String.eqb (UserMatch.status e) "pending"); [|exact H].
    destruct ((UserMatch.senderId e =? InsertUserMatch.receiverId d) &&
              (UserMatch.receiverId e =? InsertUserMatch.senderId d))%bool; [|exact H].
    now apply db_updateUserMatchStatus_fresh.
  - destruct H as [Hlt Hnd]. unfold MatchIdsFresh. simpl. split.
    + intros m Hin. apply in_app_or in Hin as [Hin|[<-|[]]].
      * specialize (Hlt m Hin). lia.
      * simpl. lia.
    + rewrite map_app. simpl. apply NoDup_app; [assumption|repeat constructor; auto|].
      intros x Hx [<-|[]]. apply in_map_iff in Hx as (m & Hid & Hm).
      specialize (Hlt m Hm). lia.
Qed.

Lemma postUserMatches_cases (st : DatabaseStorage.t) (now : Z) (reqUser : option Z)
    (parseResult : option InsertUserMatch.t) :
  fst (Routes.postUserMatches st now reqUser parseResult) = st \/
  exists d, fst (Routes.postUserMatches st now reqUser parseResult) =
            fst (DatabaseStorage.createUserMatch st now d).
Proof.
  unfold Routes.postUserMatches.
  destruct reqUser as [userId|]; [|now left].
  destruct parseResult as [d|]; [|now left].
  destruct (negb (InsertUserMatch.senderId d =? userId)); [now left|].
  destruct (DatabaseStorage.getUser st (InsertUserMatch.receiverId d)); [|now left].
  right. exists d. now destruct (DatabaseStorage.createUserMatch st now d).
Qed.

Lemma db_createUserMatch_keeps_settled
    (st : DatabaseStorage.t) (now a b : Z) (d : InsertUserMatch.t) (e : UserMatch.t) :
  MatchIdsFresh st ->
  filter (joins a b) (DatabaseStorage.userMatches st) = [e] ->
  UserMatch.status e <> "pending" ->
  filter (joins a b)
    (DatabaseStorage.userMatches (fst (DatabaseStorage.createUserMatch st now d))) = [e].
Proof.
  intros [_ Hnd] He Hst.
  assert (Hin : In e (DatabaseStorage.userMatches st) /\ joins a b e = true).
  { apply filter_In. rewrite He. now left. }
  destruct Hin as [Hin Hj].
  unfold DatabaseStorage.createUserMatch.
  destruct (DatabaseStorage.getUserMatchByUsers st _ _) as [e'|] eqn:E.
  - destruct (String.eqb_spec (UserMatch.status e') "pending") as [Hp|Hp]; [|exact He].
    destruct ((UserMatch.senderId e' =? InsertUserMatch.receiverId d) &&
              (UserMatch.receiverId e' =? InsertUserMatch.senderId d))%bool; [|exact He].
    unfold DatabaseStorage.updateUserMatchStatus.
    cbn [fst DatabaseStorage.userMatches DatabaseStorage.setUserMatches].
    rewrite filter_map_commute.
    + rewrite He. cbn [map].
      destruct (UserMatch.id e =? UserMatch.id e') eqn:Eid; [|reflexivity].
      exfalso. apply Z.eqb_eq in Eid.
      assert (Hin' : In e' (DatabaseStorage.userMatches st)).
      { unfold DatabaseStorage.getUserMatchByUsers in E.
        destruct (filter (joins (InsertUserMatch.senderId d) (InsertUserMatch.receiverId d))
                    (DatabaseStorage.userMatches st)) as [|x l] eqn:Ef; [discriminate|].
        inversion E; subst.
        assert (Hx : In e' (filter (joins (InsertUserMatch.senderId d)
                                      (InsertUserMatch.receiverId d))
                              (DatabaseStorage.userMatches st))) by (rewrite Ef; now left).
        now apply filter_In in Hx. }
      pose proof (NoDup_map_inj_on UserMatch.id _ e e' Hnd Hin Hin' Eid). congruence.
    + intro x. now destruct (UserMatch.id x =? UserMatch.id e').
  - cbn [fst DatabaseStorage.userMatches DatabaseStorage.setUserMatches].
    set (row := UserMatch.mk (DatabaseStorage.userMatchesSeq st)
                  (InsertUserMatch.senderId d) (InsertUserMatch.receiverId d)
                  "pending" (InsertUserMatch.matchScore d) now now).
    rewrite filter_app, He. cbn [filter].
    destruct (joins a b row) eqn:Ej; [|reflexivity].
    exfalso. apply hd_error_filter_none in E.
    assert (Hs : joins (InsertUserMatch.senderId d) (InsertUserMatch.receiverId d) row = true).
    { unfold joins, row. simpl. now rewrite !Z.eqb_refl. }
    rewrite <- (filter_ext _ _ (joins_same_pair _ _ _ _ _ Ej Hs)), He in E. discriminate.
Qed.

(** X7: in a table whose ids are unique and below the sequence, a match
    that is no longer pending (accepted, rejected) and is the only record
    joining [a] and [b] stays exactly as it is, and stays the only one,
    through any sequence of POST /api/user-matches requests, whoever sends
    them and whatever they ask for: requests never reopen or duplicate a
    settled match. *)
Theorem X7_settled_match_survives_requests
    (st : DatabaseStorage.t) (a b : Z) (e : UserMatch.t) (reqs : list MatchRequest) :
  MatchIdsFresh st ->
  filter (joins a b) (DatabaseStorage.userMatches st) = [e] ->
  UserMatch.status e <> "pending" ->
  filter (joins a b) (DatabaseStorage.userMatches (afterRequests st reqs)) = [e] /\
  MatchIdsFresh (afterRequests st reqs).
Proof.
  intros Hfresh He Hst. unfold afterRequests.
  revert st Hfresh He. induction reqs as [|req reqs IH]; intros st Hfresh He; simpl.
  - now split.
  - destruct (postUserMatches_cases st (requestTime req) (requestUser req)
                (requestBody req)) as [E|[d E]]; rewrite E.
    + now apply IH.
    + apply IH.
      * now apply db_createUserMatch_ids_fresh.
      * now apply db_createUserMatch_keeps_settled.
Qed.

(** ** Responding to and deleting a match *)

Lemma db_getUserMatch_update (st : DatabaseStorage.t) (now id : Z) (status : string) :
  let st' := fst (DatabaseStorage.updateUserMatchStatus st now id status) in
  (forall m, DatabaseStorage.getUserMatch st id = Some m ->
             snd (DatabaseStorage.updateUserMatchStatus st now id status) =
               Some (withStatus m status now) /\
             DatabaseStorage.getUserMatch st' id = Some (withStatus m status now)) /\
  (forall id', id' <> id ->
               DatabaseStorage.getUserMatch st' id' = DatabaseStorage.getUserMatch st id') /\
  List.length (DatabaseStorage.userMatches st') =
  List.length (DatabaseStorage.userMatches st).
Proof.
  unfold DatabaseStorage.updateUserMatchStatus, DatabaseStorage.getUserMatch.
  cbn [fst snd DatabaseStorage.userMatches DatabaseStorage.setUserMatches].
  set (upd := fun row : UserMatch.t =>
                if UserMatch.id row =? id
                then UserMatch.mk (UserMatch.id row) (UserMatch.senderId row)
                       (UserMatch.receiverId row) status (UserMatch.matchScore row)
                       (UserMatch.createdAt row) now
                else row).
  assert (Hid : forall k x, (UserMatch.id (upd x) =? k) = (UserMatch.id x =? k)).
  { intros k x. unfold upd. now destruct (UserMatch.id x =? id). }
  split; [|split].
  - intros m Hm. rewrite filter_map_commute by (intro; apply Hid).
    destruct (filter _ (DatabaseStorage.userMatches st)) as [|x l] eqn:E; [discriminate|].
    inversion Hm; subst x.
    assert (Hx : In m (filter (fun m0 => UserMatch.id m0 =? id)
                         (DatabaseStorage.userMatches st))) by (rewrite E; now left).
    apply filter_In in Hx as [_ Hx]. cbn [map hd_error].
    assert (Eu : upd m = withStatus m status now) by (unfold upd; now rewrite Hx).
    rewrite Eu. split; reflexivity.
  - intros id' Hne. rewrite filter_map_commute by (intro; apply Hid).
    induction (DatabaseStorage.userMatches st) as [|x l IH]; simpl; [reflexivity|].
    destruct (UserMatch.id x =? id') eqn:E; [|exact IH]. simpl.
    unfold upd. apply Z.eqb_eq in E.
    assert (Hx : (UserMatch.id x =? id) = false) by (apply Z.eqb_neq; congruence).
    now rewrite Hx.
  - apply length_map.
Qed.

(** X8: when the match stored under [id] is [m] and the authenticated actor
    is its receiver, PUT /api/user-matches/:id with "accepted" or
    "rejected" answers 200 with [m] carrying the new status and the
    current time as [updatedAt]; that record is then stored under [id],
    every other id keeps its record and no row is added or removed. The
    prior status of [m] plays no part: an accepted match can be rejected
    and a rejected one accepted. *)
Theorem X8_receiver_sets_the_status
    (st : DatabaseStorage.t) (now id : Z) (m : UserMatch.t) (newStatus : string) :
  DatabaseStorage.getUserMatch st id = Some m ->
  newStatus = "accepted" \/ newStatus = "rejected" ->
  exists st',
    Routes.respondToMatch st now id (UserMatch.receiverId m) newStatus =
      (st', Routes.mkResponse 200
              (Routes.JsonUserMatch (Some (withStatus m newStatus now)))) /\
    DatabaseStorage.getUserMatch st' id = Some (withStatus m newStatus now) /\
    (forall id', id' <> id ->
                 DatabaseStorage.getUserMatch st' id' = DatabaseStorage.getUserMatch st id') /\
    List.length (DatabaseStorage.userMatches st') =
    List.length (DatabaseStorage.userMatches st).
Proof.
  intros Hm Hs.
  destruct (db_getUserMatch_update st now id newStatus) as (Hret & Hother & Hlen).
  destruct (Hret m Hm) as [Hsnd Hget].
  exists (fst (DatabaseStorage.updateUserMatchStatus st now id newStatus)).
  split; [|split; [exact Hget|split; [exact Hother|exact Hlen]]].
  unfold Routes.respondToMatch, Routes.putUserMatch.
  assert (Hv : Routes.invalidStatus (Some newStatus) = false)
    by (destruct Hs; subst; reflexivity).
  rewrite Hv, Hm, Z.eqb_refl. cbn [negb].
  destruct (DatabaseStorage.updateUserMatchStatus st now id newStatus) as [st1 r] eqn:E.
  simpl in *. now subst r.
Qed.

Lemma no_accepted_after_update (st : DatabaseStorage.t) (now a b : Z) (m : UserMatch.t)
    (status : string) :
  filter (joins a b) (DatabaseStorage.userMatches st) = [m] ->
  status <> "accepted" ->
  forall m' : UserMatch.t,
    In m' (DatabaseStorage.userMatches
             (fst (DatabaseStorage.updateUserMatchStatus st now (UserMatch.id m) status))) ->
    joins a b m' = true -> UserMatch.status m' <> "accepted".
Proof.
  intros Hf Hs m' Hin Hj.
  assert (Hm' : In m' (filter (joins a b)
                         (DatabaseStorage.userMatches
                            (fst (DatabaseStorage.updateUserMatchStatus st now
                                    (UserMatch.id m) status)))))
    by (apply filter_In; auto).
  unfold DatabaseStorage.updateUserMatchStatus in Hm'.
  cbn [fst DatabaseStorage.userMatches DatabaseStorage.setUserMatches] in Hm'.
  rewrite filter_map_commute in Hm'.
  - rewrite Hf in Hm'. simpl in Hm'. rewrite Z.eqb_refl in Hm'.
    destruct Hm' as [<-|[]]. exact Hs.
  - intro x. now destruct (UserMatch.id x =? UserMatch.id m).
Qed.

(** X9: rejecting closes the message channel, also after an acceptance.
    When [m] is the only record joining [a] and [b] and is the match stored
    under its id, then once its receiver has answered "rejected", a message
    from [a] to [b] or from [b] to [a] is refused (403, or 404 when the
    other user does not exist) and the storage stays as the rejection left
    it. *)
Theorem X9_rejection_closes_the_channel
    (st : DatabaseStorage.t) (now now' a b : Z) (m : UserMatch.t) (c : string) :
  DatabaseStorage.getUserMatch st (UserMatch.id m) = Some m ->
  filter (joins a b) (DatabaseStorage.userMatches st) = [m] ->
  let st' := fst (Routes.respondToMatch st now (UserMatch.id m)
                    (UserMatch.receiverId m) "rejected") in
  fst (Routes.sendMessage st' now' a b c) = st' /\
  fst (Routes.sendMessage st' now' b a c) = st' /\
  (Routes.status (snd (Routes.sendMessage st' now' a b c)) = 403 \/
   Routes.status (snd (Routes.sendMessage st' now' a b c)) = 404) /\
  (Routes.status (snd (Routes.sendMessage st' now' b a c)) = 403 \/
   Routes.status (snd (Routes.sendMessage st' now' b a c)) = 404).
Proof.
  intros Hm Hf st'.
  assert (Est : st' = fst (DatabaseStorage.updateUserMatchStatus st now
                              (UserMatch.id m) "rejected")).
  { subst st'. unfold Routes.respondToMatch, Routes.putUserMatch.
    cbn [Routes.invalidStatus String.eqb existsb orb negb].
    change (Routes.invalidStatus (Some "rejected")) with false. cbv iota.
    rewrite Hm, Z.eqb_refl. cbn [negb].
    now destruct (DatabaseStorage.updateUserMatchStatus st now (UserMatch.id m) "rejected"). }
  assert (Hab : forall m', In m' (DatabaseStorage.userMatches st') ->
                           joins a b m' = true -> UserMatch.status m' <> "accepted").
  { rewrite Est. apply no_accepted_after_update; [assumption|discriminate]. }
  assert (Hba : forall m', In m' (DatabaseStorage.userMatches st') ->
                           joins b a m' = true -> UserMatch.status m' <> "accepted").
  { intros m' Hin Hj. rewrite joins_sym in Hj. now apply Hab. }
  clearbody st'.
  pose proof (notMatched_without_accepted st' a b Hab) as Hn1.
  pose proof (notMatched_without_accepted st' b a Hba) as Hn2.
  unfold Routes.sendMessage, Routes.postMessages.
  cbn [InsertMessage.senderId InsertMessage.receiverId].
  rewrite !Z.eqb_refl, Hn1, Hn2. cbn [negb].
  destruct (DatabaseStorage.getUser st' a), (DatabaseStorage.getUser st' b);
    simpl; auto.
Qed.

Lemma db_getUserMatch_delete (st : DatabaseStorage.t) (id : Z) :
  let st' := fst (DatabaseStorage.deleteUserMatch st id) in
  DatabaseStorage.getUserMatch st' id = None /\
  (forall id', id' <> id ->
               DatabaseStorage.getUserMatch st' id' = DatabaseStorage.getUserMatch st id').
Proof.
  unfold DatabaseStorage.deleteUserMatch, DatabaseStorage.getUserMatch.
  cbn [fst DatabaseStorage.userMatches DatabaseStorage.setUserMatches].
  split.
  - rewrite filter_none; [reflexivity|].
    intros x Hx. apply filter_In in Hx as [_ Hx]. now apply negb_true_iff in Hx.
  - intros id' Hne.
    induction (DatabaseStorage.userMatches st) as [|x l IH]; simpl; [reflexivity|].
    destruct (UserMatch.id x =? id) eqn:E; simpl.
    + apply Z.eqb_eq in E.
      assert (Hx : (UserMatch.id x =? id') = false) by (apply Z.eqb_neq; congruence).
      now rewrite Hx.
    + destruct (UserMatch.id x =? id'); [reflexivity|exact IH].
Qed.

(** X10: DELETE /api/user-matches/:id. When [m] is the match stored under
    [id], a participant (its sender or its receiver) gets 204, after which
    no record is stored under [id] while every other id keeps its record;
    anyone else gets 403 and the storage is returned unchanged. Run with
    no other request between its lookup and its deletion the handler never
    answers 500, for any request: the match it has just read is there to
    delete. The handler awaits between the two, though: when the match has
    been deleted by then, a participant who was shown [m] gets 500, and the
    rows stay as they are. *)
Theorem X10_participants_delete_their_match
    (st : DatabaseStorage.t) (id u : Z) (m : UserMatch.t) :
  DatabaseStorage.getUserMatch st id = Some m ->
  (u = UserMatch.senderId m \/ u = UserMatch.receiverId m ->
   exists st',
     Routes.deleteUserMatch st (Some u) id = (st', Routes.mkResponse 204 Routes.NoContent) /\
     DatabaseStorage.getUserMatch st' id = None /\
     (forall id', id' <> id ->
                  DatabaseStorage.getUserMatch st' id' = DatabaseStorage.getUserMatch st id')) /\
  (u <> UserMatch.senderId m -> u <> UserMatch.receiverId m ->
   Routes.deleteUserMatch st (Some u) id =
     (st, Routes.mkResponse 403
            (Routes.JsonMessageText "You can only delete matches you're part of"))) /\
  (forall (reqUser : option Z) (anyId : Z),
      Routes.status (snd (Routes.deleteUserMatch st reqUser anyId)) <> 500) /\
  (forall later : DatabaseStorage.t,
      u = UserMatch.senderId m \/ u = UserMatch.receiverId m ->
      DatabaseStorage.getUserMatch later id = None ->
      Routes.status (snd (Routes.deleteUserMatchFrom later u id (Some m))) = 500 /\
      DatabaseStorage.userMatches (fst (Routes.deleteUserMatchFrom later u id (Some m))) =
        DatabaseStorage.userMatches later).
Proof.
  intro Hm.
  assert (Hpart : u = UserMatch.senderId m \/ u = UserMatch.receiverId m ->
                  (negb (UserMatch.senderId m =? u) &&
                   negb (UserMatch.receiverId m =? u))%bool = false).
  { intros [->| ->]; rewrite Z.eqb_refl; simpl; [reflexivity|apply andb_false_r]. }
  split; [|split; [|split]].
  - intro Hu. destruct (db_getUserMatch_delete st id) as [Hgone Hother].
    exists (fst (DatabaseStorage.deleteUserMatch st id)).
    split; [|split; [exact Hgone|exact Hother]].
    unfold Routes.deleteUserMatch, Routes.deleteUserMatchFrom. rewrite Hm.
    rewrite (Hpart Hu).
    unfold DatabaseStorage.deleteUserMatch, DatabaseStorage.getUserMatch in *.
    destruct (filter (fun m0 => UserMatch.id m0 =? id) (DatabaseStorage.userMatches st));
      [discriminate|reflexivity].
  - intros Hs Hr. unfold Routes.deleteUserMatch, Routes.deleteUserMatchFrom. rewrite Hm.
    assert (E1 : (UserMatch.senderId m =? u) = false) by (apply Z.eqb_neq; congruence).
    assert (E2 : (UserMatch.receiverId m =? u) = false) by (apply Z.eqb_neq; congruence).
    now rewrite E1, E2.
  - intros reqUser anyId. unfold Routes.deleteUserMatch, Routes.deleteUserMatchFrom.
    destruct reqUser as [userId|]; [|discriminate].
    destruct (DatabaseStorage.getUserMatch st anyId) as [m1|] eqn:E; [|discriminate].
    destruct (negb (UserMatch.senderId m1 =? userId) &&
              negb (UserMatch.receiverId m1 =? userId))%bool; [discriminate|].
    unfold DatabaseStorage.deleteUserMatch, DatabaseStorage.getUserMatch in *.
    destruct (filter (fun m0 => UserMatch.id m0 =? anyId) (DatabaseStorage.userMatches st));
      [discriminate|]. simpl. discriminate.
  - intros later Hu Hgone. unfold Routes.deleteUserMatchFrom.
    rewrite (Hpart Hu).
    unfold DatabaseStorage.deleteUserMatch, DatabaseStorage.getUserMatch in *.
    apply hd_error_filter_none in Hgone. rewrite Hgone.
    cbn [List.length Nat.ltb Nat.leb negb fst snd Routes.status
         DatabaseStorage.userMatches DatabaseStorage.setUserMatches].
    split; [reflexivity|].
    rewrite <- (filter_ext_in (fun _ => true)).
    + clear. induction (DatabaseStorage.userMatches later) as [|x l IH];
        [reflexivity|]. cbn [filter]. now rewrite IH.
    + intros x Hx.
      now rewrite (filter_nil_In (fun m0 => UserMatch.id m0 =? id) _ x Hgone Hx).
Qed.

(** ** Listing matches and conversations *)

Lemma byNewest_sorted (l : list UserMatch.t) :
  StronglySorted (fun x y => UserMatch.createdAt y <= UserMatch.createdAt x)
    (Array_sort DatabaseStorage.byNewest l).
Proof.
  apply StronglySorted_weaken with (R := fun x y => DatabaseStorage.byNewest x y <= 0).
  - unfold DatabaseStorage.byNewest. intros x y. lia.
  - apply Array_sort_sorted; unfold DatabaseStorage.byNewest; intros; lia.
Qed.

Lemma byOldest_sorted (l : list Message.t) :
  StronglySorted (fun x y => Message.createdAt x <= Message.createdAt y)
    (Array_sort DatabaseStorage.byCreatedAt l).
Proof.
  apply StronglySorted_weaken with (R := fun x y => DatabaseStorage.byCreatedAt x y <= 0).
  - unfold DatabaseStorage.byCreatedAt. intros x y. lia.
  - apply Array_sort_sorted; unfold DatabaseStorage.byCreatedAt; intros; lia.
Qed.

Lemma Permutation_filter {A : Type} (p : A -> bool) (l l' : list A) :
  Permutation l l' -> Permutation (filter p l) (filter p l').
Proof.
  induction 1 as [|x l l' H IH|x y l|l l' l'' H1 IH1 H2 IH2]; cbn [filter].
  - constructor.
  - destruct (p x); [now constructor|exact IH].
  - destruct (p x), (p y); try apply Permutation_refl.
    apply perm_swap.
  - now transitivity (filter p l').
Qed.

(** Two orderings of the same rows coincide when no two of the rows tie. *)
Lemma sorted_permutation_unique {A : Type} (R : A -> A -> Prop) (l1 : list A) :
  forall l2 : list A,
  (forall x y, In x l1 -> In y l1 -> R x y -> R y x -> x = y) ->
  Permutation l1 l2 -> StronglySorted R l1 -> StronglySorted R l2 -> l1 = l2.
Proof.
  induction l1 as [|a l1 IH]; intros l2 Hanti Hp Hs1 Hs2.
  - apply Permutation_nil in Hp. now subst.
  - destruct l2 as [|b l2].
    + symmetry in Hp. apply Permutation_nil in Hp. discriminate.
    + inversion Hs1 as [|? ? Hs1' Ha]; subst.
      inversion Hs2 as [|? ? Hs2' Hb]; subst.
      rewrite Forall_forall in Ha, Hb.
      assert (Hab : a = b).
      { assert (Hin_a : In a (b :: l2))
          by (apply (Permutation_in _ Hp); now left).
        assert (Hin_b : In b (a :: l1))
          by (apply (Permutation_in _ (Permutation_sym Hp)); now left).
        destruct Hin_a as [E|Hin_a]; [now symmetry|].
        destruct Hin_b as [E|Hin_b]; [exact E|].
        apply Hanti; [now left|now right|now apply Ha|now apply Hb]. }
      subst b. f_equal. apply IH.
      * intros x y Hx Hy. apply Hanti; now right.
      * now apply Permutation_cons_inv in Hp.
      * exact Hs1'.
      * exact Hs2'.
Qed.

Lemma sorted_by_key_unique {A : Type} (key : A -> Z) (l1 l2 : list A) :
  NoDup (map key l1) -> Permutation l1 l2 ->
  StronglySorted (fun x y => key x <= key y) l1 ->
  StronglySorted (fun x y => key x <= key y) l2 -> l1 = l2.
Proof.
  intros Hnd Hp Hs1 Hs2.
  apply (sorted_permutation_unique (fun x y => key x <= key y)); try assumption.
  intros x y Hx Hy Hxy Hyx. apply (NoDup_map_inj_on key l1); try assumption. lia.
Qed.

Lemma NoDup_map_opp {A : Type} (key : A -> Z) (l : list A) :
  NoDup (map key l) -> NoDup (map (fun x => - key x) l).
Proof.
  induction l as [|a l IH]; cbn [map]; intro H; [constructor|].
  inversion H as [|? ? Hn Hd]; subst. constructor; [|now apply IH].
  intro Hin. apply Hn. apply in_map_iff in Hin as (x & Hx & Hin).
  apply in_map_iff. exists x. split; [lia|exact Hin].
Qed.

(** X11: [getUserMatches] lists the matches newest first, and lists exactly
    the stored matches the user takes part in, as sender or as receiver,
    that carry the requested status; without a status, or with the empty
    string, every match of the user is listed. When the two storages hold
    the same matches and no two of the listed ones were created at the
    same time, every such listing, in whatever order the database returns
    rows that it is free to order, is the list [MemStorage] returns. *)
Theorem X11_listed_matches_are_the_users_newest_first
    (dst : DatabaseStorage.t) (mst : MemStorage.t) (userId : Z) (status : option string) :
  Permutation (JsMap.values (MemStorage.userMatchStore mst))
    (DatabaseStorage.userMatches dst) ->
  StronglySorted (fun x y => UserMatch.createdAt y <= UserMatch.createdAt x)
    (DatabaseStorage.getUserMatches dst userId status) /\
  Permutation (DatabaseStorage.getUserMatches dst userId status)
    (filter (listedFor userId status) (DatabaseStorage.userMatches dst)) /\
  (forall m : UserMatch.t,
      In m (DatabaseStorage.getUserMatches dst userId status) <->
      In m (DatabaseStorage.userMatches dst) /\
      (UserMatch.senderId m = userId \/ UserMatch.receiverId m = userId) /\
      (forall s, status = Some s -> s <> "" -> UserMatch.status m = s)) /\
  (forall l : list UserMatch.t,
      Permutation l (filter (listedFor userId status) (DatabaseStorage.userMatches dst)) ->
      StronglySorted (fun x y => UserMatch.createdAt y <= UserMatch.createdAt x) l ->
      NoDup (map UserMatch.createdAt l) ->
      l = MemStorage.getUserMatches mst userId status).
Proof.
  intro Hsame.
  assert (Hmine : forall m, ((UserMatch.senderId m =? userId) ||
                             (UserMatch.receiverId m =? userId))%bool = true <->
                            UserMatch.senderId m = userId \/ UserMatch.receiverId m = userId).
  { intro m. now rewrite orb_true_iff, !Z.eqb_eq. }
  assert (Hdb : DatabaseStorage.getUserMatches dst userId status =
                Array_sort DatabaseStorage.byNewest
                  (filter (listedFor userId status) (DatabaseStorage.userMatches dst))).
  { unfold DatabaseStorage.getUserMatches, listedFor, MemStorage.statusFilter.
    destruct status as [s|]; [destruct (String.eqb s "")|];
      apply (f_equal (Array_sort DatabaseStorage.byNewest));
      apply filter_ext; intro m; cbn [orb]; try (symmetry; apply andb_true_r);
      reflexivity. }
  split; [|split; [|split]].
  - rewrite Hdb. apply byNewest_sorted.
  - rewrite Hdb. apply Array_sort_perm.
  - intro m. unfold DatabaseStorage.getUserMatches.
    destruct status as [s|]; [destruct (String.eqb_spec s "") as [Es|Es]|];
      rewrite Array_sort_In, filter_In.
    + rewrite Hmine. split.
      * intros [Hin Hm]. repeat split; auto. intros s' Hs' Hne. congruence.
      * intros (Hin & Hm & _). auto.
    + rewrite andb_true_iff, Hmine, String.eqb_eq. split.
      * intros (Hin & Hm & Hst). repeat split; auto. intros s' Hs' _. congruence.
      * intros (Hin & Hm & Hst). repeat split; auto.
    + rewrite Hmine. split.
      * intros [Hin Hm]. repeat split; auto. discriminate.
      * intros (Hin & Hm & _). auto.
  - intros l Hl Hsorted Hnd.
    change (MemStorage.getUserMatches mst userId status)
      with (Array_sort DatabaseStorage.byNewest
              (filter (listedFor userId status)
                 (JsMap.values (MemStorage.userMatchStore mst)))).
    assert (Hperm : Permutation l
                      (Array_sort DatabaseStorage.byNewest
                         (filter (listedFor userId status)
                            (JsMap.values (MemStorage.userMatchStore mst))))).
    { rewrite Hl. rewrite (Array_sort_perm DatabaseStorage.byNewest).
      apply Permutation_filter. now symmetry. }
    apply (sorted_by_key_unique (fun m => - UserMatch.createdAt m)).
    + now apply NoDup_map_opp.
    + exact Hperm.
    + eapply StronglySorted_weaken; [|exact Hsorted]. cbn beta. intros x y H. lia.
    + eapply StronglySorted_weaken; [|apply byNewest_sorted]. cbn beta. intros x y H. lia.
Qed.

(** X12: [getMessages] returns the conversation oldest first, and it holds
    exactly the stored messages that one of the two users sent to the
    other, so the two users may be given in either order. When the two
    storages hold the same messages and no two messages of the
    conversation were created at the same time, every such listing, in
    whatever order the database returns rows that it is free to order, is
    the list [MemStorage] returns, for either order of the two users. *)
Theorem X12_conversation_is_the_pairs_oldest_first
    (dst : DatabaseStorage.t) (mst : MemStorage.t) (a b : Z) :
  Permutation (JsMap.values (MemStorage.messageStore mst)) (DatabaseStorage.messages dst) ->
  StronglySorted (fun x y => Message.createdAt x <= Message.createdAt y)
    (DatabaseStorage.getMessages dst a b) /\
  Permutation (DatabaseStorage.getMessages dst a b)
    (filter (MemStorage.between a b) (DatabaseStorage.messages dst)) /\
  (forall m : Message.t,
      In m (DatabaseStorage.getMessages dst a b) <->
      In m (DatabaseStorage.messages dst) /\
      (Message.senderId m = a /\ Message.receiverId m = b \/
       Message.senderId m = b /\ Message.receiverId m = a)) /\
  (forall m : Message.t,
      In m (DatabaseStorage.getMessages dst a b) <->
      In m (DatabaseStorage.getMessages dst b a)) /\
  (forall l : list Message.t,
      Permutation l (filter (MemStorage.between a b) (DatabaseStorage.messages dst)) ->
      StronglySorted (fun x y => Message.createdAt x <= Message.createdAt y) l ->
      NoDup (map Message.createdAt l) ->
      l = MemStorage.getMessages mst a b /\ l = MemStorage.getMessages mst b a).
Proof.
  intro Hsame.
  assert (Hin : forall u v m,
             In m (DatabaseStorage.getMessages dst u v) <->
             In m (DatabaseStorage.messages dst) /\
             (Message.senderId m = u /\ Message.receiverId m = v \/
              Message.senderId m = v /\ Message.receiverId m = u)).
  { intros u v m. unfold DatabaseStorage.getMessages.
    rewrite Array_sort_In, filter_In, orb_true_iff, !andb_true_iff, !Z.eqb_eq.
    reflexivity. }
  assert (Hsym : forall m, MemStorage.between b a m = MemStorage.between a b m).
  { intro m. unfold MemStorage.between. apply orb_comm. }
  split; [|split; [|split; [|split]]].
  - apply byOldest_sorted.
  - apply (Array_sort_perm DatabaseStorage.byCreatedAt).
  - apply Hin.
  - intro m. rewrite !Hin. tauto.
  - intros l Hl Hsorted Hnd.
    assert (Hone : l = MemStorage.getMessages mst a b).
    { apply (sorted_by_key_unique Message.createdAt); try assumption.
      - unfold MemStorage.getMessages.
        rewrite (Array_sort_perm MemStorage.byOldest), Hl.
        apply Permutation_filter. now symmetry.
      - apply (byOldest_sorted
                 (filter (MemStorage.between a b)
                    (JsMap.values (MemStorage.messageStore mst)))). }
    split; [exact Hone|]. rewrite Hone.
    unfold MemStorage.getMessages. f_equal. apply filter_ext. intro m.
    symmetry. apply Hsym.
Qed.

(** ** Read flags *)

Lemma length_filter_cons {A : Type} (p : A -> bool) (x : A) (l : list A) :
  List.length (filter p (x :: l)) =
  Nat.add (if p x then 1%nat else 0%nat) (List.length (filter p l)).
Proof.
  simpl. now destruct (p x).
Qed.

Lemma markRow_counts (r s : Z) (m : Message.t) :
  Nat.add (if unreadTo r (markRow r s m) then 1%nat else 0%nat)
          (if unreadFromTo r s m then 1%nat else 0%nat) =
  (if unreadTo r m then 1%nat else 0%nat).
Proof.
  unfold markRow, unreadFromTo, unreadTo.
  destruct (Message.receiverId m =? r) eqn:Er, (Message.senderId m =? s) eqn:Es,
           (Message.read m) eqn:Erd; simpl; rewrite ?Er, ?Erd; reflexivity.
Qed.

Lemma markRow_other (r s u : Z) (m : Message.t) :
  u <> r -> unreadTo u (markRow r s m) = unreadTo u m.
Proof.
  intro Hne. unfold markRow, unreadFromTo, unreadTo.
  destruct (Message.receiverId m =? r) eqn:Er.
  - apply Z.eqb_eq in Er.
    assert (Eu : (Message.receiverId m =? u) = false) by (apply Z.eqb_neq; congruence).
    destruct (Message.senderId m =? s), (Message.read m); simpl; now rewrite Eu.
  - reflexivity.
Qed.

Lemma mark_counts (r s u : Z) (l : list Message.t) :
  Nat.add
    (List.length (filter (unreadTo r) (map (markRow r s) l)))
    (List.length (filter (unreadFromTo r s) l)) =
  List.length (filter (unreadTo r) l) /\
  (u <> r -> filter (unreadTo u) (map (markRow r s) l) = filter (unreadTo u) l).
Proof.
  split.
  - induction l as [|m l IH]; [reflexivity|].
    cbn [map]. rewrite !length_filter_cons.
    pose proof (markRow_counts r s m). lia.
  - intro Hne. induction l as [|m l IH]; [reflexivity|].
    cbn [map filter]. rewrite (markRow_other r s u m Hne), IH.
    destruct (unreadTo u m) eqn:E; [|reflexivity]. f_equal.
    unfold markRow, unreadFromTo. unfold unreadTo in E.
    apply andb_true_iff in E as [E _]. apply Z.eqb_eq in E.
    assert (Er : (Message.receiverId m =? r) = false) by (apply Z.eqb_neq; congruence).
    now rewrite Er.
Qed.

Lemma db_unread_as_filter (st : DatabaseStorage.t) (u : Z) :
  DatabaseStorage.getUnreadMessageCount st u =
  Z.of_nat (List.length (filter (unreadTo u) (DatabaseStorage.messages st))).
Proof.
  reflexivity.
Qed.

Lemma db_mark_as_map (st : DatabaseStorage.t) (r s : Z) :
  DatabaseStorage.messages (DatabaseStorage.markMessagesAsRead st r s) =
  map (markRow r s) (DatabaseStorage.messages st).
Proof.
  reflexivity.
Qed.

(** X13: [markMessagesAsRead r s] keeps every message, with its id,
    sender, receiver, content and time: the rows afterwards are the rows
    from before, each changed at most by having [read] set, which happens
    to the messages that [s] sent to [r] and that were unread and to no
    others, so no message ever becomes unread again. Afterwards no unread
    message from [s] to [r] is left, and a second call finds no row to
    change. Nothing is said about the order in which the database returns
    the rows before or after. *)
Theorem X13_marking_read_only_sets_flags
    (st : DatabaseStorage.t) (r s : Z) :
  let st' := DatabaseStorage.markMessagesAsRead st r s in
  Permutation (DatabaseStorage.messages st')
    (map (markRow r s) (DatabaseStorage.messages st)) /\
  (forall m : Message.t,
      sameButRead m (markRow r s m) /\
      (Message.read m = true -> Message.read (markRow r s m) = true) /\
      (markRow r s m = m \/
       Message.senderId m = s /\ Message.receiverId m = r /\
       Message.read m = false /\ Message.read (markRow r s m) = true) /\
      (Message.senderId m = s -> Message.receiverId m = r ->
       Message.read (markRow r s m) = true)) /\
  (forall m, In m (DatabaseStorage.messages st') ->
             Message.senderId m = s -> Message.receiverId m = r ->
             Message.read m = true) /\
  (forall m, In m (DatabaseStorage.messages st') -> markRow r s m = m) /\
  DatabaseStorage.users st' = DatabaseStorage.users st /\
  DatabaseStorage.userMatches st' = DatabaseStorage.userMatches st.
Proof.
  intro st'. subst st'. rewrite db_mark_as_map.
  assert (Hrow : forall m : Message.t,
             sameButRead m (markRow r s m) /\
             (Message.read m = true -> Message.read (markRow r s m) = true) /\
             (markRow r s m = m \/
              Message.senderId m = s /\ Message.receiverId m = r /\
              Message.read m = false /\ Message.read (markRow r s m) = true) /\
             (Message.senderId m = s -> Message.receiverId m = r ->
              Message.read (markRow r s m) = true)).
  { intro m. unfold markRow, unreadFromTo, sameButRead.
    destruct (Message.receiverId m =? r) eqn:Er, (Message.senderId m =? s) eqn:Es,
             (Message.read m) eqn:Erd; cbn [andb negb Message.id Message.senderId
               Message.receiverId Message.content Message.createdAt Message.read];
      repeat split; auto; try (intro; congruence);
      try (right; apply Z.eqb_eq in Er, Es; now auto);
      try (intros Hs Hr; apply Z.eqb_neq in Er; congruence);
      try (intros Hs Hr; apply Z.eqb_neq in Es; congruence). }
  split; [apply Permutation_refl|]. split; [exact Hrow|].
  split; [|split; [|split; reflexivity]].
  - intros m Hin Hs Hr. apply in_map_iff in Hin as (x & <- & _).
    destruct (Hrow x) as (Hsame & _ & _ & Hread). destruct Hsame as (_ & Es & Er & _).
    apply Hread; congruence.
  - intros m Hin. apply in_map_iff in Hin as (x & <- & _).
    unfold markRow at 1.
    destruct (unreadFromTo r s (markRow r s x)) eqn:E; [|reflexivity].
    exfalso. unfold unreadFromTo, markRow in E.
    destruct (unreadFromTo r s x) eqn:Ex;
      cbn [Message.receiverId Message.senderId Message.read negb] in E.
    + now rewrite andb_false_r in E.
    + unfold unreadFromTo in Ex. congruence.
Qed.

(** ** Unread counts *)

(** X14: unread counts move by exactly what the two message handlers do.
    Between existing users [a] and [b] whose pair lookup returns an accepted
    match, POST /api/messages by [a] to [b] answers 201, appends one
    message to the table, raises [b]'s unread count by one and leaves every
    other user's count as it was; GET /api/messages/[a] by [b] answers 200
    with the conversation as it was before the call, lowers [b]'s unread
    count by the number of unread messages from [a] to [b] and leaves
    every other user's count as it was. *)
Theorem X14_unread_counts_follow_the_handlers
    (st : DatabaseStorage.t) (now a b : Z) (c : string) (m : UserMatch.t) :
  DatabaseStorage.getUser st a <> None ->
  DatabaseStorage.getUser st b <> None ->
  DatabaseStorage.getUserMatchByUsers st a b = Some m ->
  UserMatch.status m = "accepted" ->
  (exists st1 msg,
      Routes.sendMessage st now a b c =
        (st1, Routes.mkResponse 201 (Routes.JsonNewMessage msg)) /\
      DatabaseStorage.messages st1 = (DatabaseStorage.messages st ++ [msg])%list /\
      Routes.unreadCount st1 b = Routes.unreadCount st b + 1 /\
      (forall u, u <> b -> Routes.unreadCount st1 u = Routes.unreadCount st u)) /\
  (exists st2,
      Routes.getConversation st b a =
        (st2, Routes.mkResponse 200
                (Routes.JsonMessages (DatabaseStorage.getMessages st b a))) /\
      Routes.unreadCount st2 b =
        Routes.unreadCount st b -
        Z.of_nat (List.length (filter (unreadFromTo b a) (DatabaseStorage.messages st))) /\
      (forall u, u <> b -> Routes.unreadCount st2 u = Routes.unreadCount st u)).
Proof.
  intros Hua Hub Hm Hacc.
  assert (Hok : Routes.notMatched (DatabaseStorage.getUserMatchByUsers st a b) = false).
  { rewrite Hm. simpl. now rewrite Hacc. }
  assert (Hok' : Routes.notMatched (DatabaseStorage.getUserMatchByUsers st b a) = false).
  { unfold DatabaseStorage.getUserMatchByUsers in *.
    now rewrite (filter_joins_sym b a). }
  split.
  - set (msg := Message.mk (DatabaseStorage.messagesSeq st) a b c false now).
    exists (DatabaseStorage.setMessages st (DatabaseStorage.messages st ++ [msg])
              (DatabaseStorage.messagesSeq st + 1)), msg.
    split; [|split; [reflexivity|split]].
    + unfold Routes.sendMessage, Routes.postMessages.
      cbn [InsertMessage.senderId InsertMessage.receiverId].
      rewrite Z.eqb_refl. cbn [negb].
      destruct (DatabaseStorage.getUser st b); [|congruence]. now rewrite Hok.
    + unfold Routes.unreadCount. rewrite !db_unread_as_filter.
      cbn [DatabaseStorage.messages DatabaseStorage.setMessages].
      rewrite filter_app, length_app. cbn [filter].
      unfold unreadTo at 2. simpl. rewrite Z.eqb_refl. simpl. lia.
    + intros u Hu. unfold Routes.unreadCount. rewrite !db_unread_as_filter.
      cbn [DatabaseStorage.messages DatabaseStorage.setMessages].
      rewrite filter_app. cbn [filter]. unfold unreadTo at 2. simpl.
      assert (E : (b =? u) = false) by (apply Z.eqb_neq; congruence).
      rewrite E. simpl. now rewrite app_nil_r.
  - exists (DatabaseStorage.markMessagesAsRead st b a).
    destruct (mark_counts b a b (DatabaseStorage.messages st)) as [Hcount _].
    split; [|split].
    + unfold Routes.getConversation, Routes.getMessagesWith.
      destruct (DatabaseStorage.getUser st a); [|congruence]. now rewrite Hok'.
    + unfold Routes.unreadCount. rewrite !db_unread_as_filter, db_mark_as_map. lia.
    + intros u Hu. unfold Routes.unreadCount.
      rewrite !db_unread_as_filter, db_mark_as_map.
      destruct (mark_counts b a u (DatabaseStorage.messages st)) as [_ Hother].
      now rewrite Hother.
Qed.

Lemma db_createMessage_fresh (st : DatabaseStorage.t) (now : Z) (d : InsertMessage.t) :
  MessageIdsFresh st -> MessageIdsFresh (fst (DatabaseStorage.createMessage st now d)).
Proof.
  intros [Hlt Hnd]. unfold MessageIdsFresh. simpl. split.
  - intros m Hin. apply in_app_or in Hin as [Hin|[<-|[]]].
    + specialize (Hlt m Hin). lia.
    + simpl. lia.
  - rewrite map_app. simpl. apply NoDup_app; [assumption|repeat constructor; auto|].
    intros x Hx [<-|[]]. apply in_map_iff in Hx as (m & Hid & Hm).
    specialize (Hlt m Hm). lia.
Qed.

Lemma db_markMessagesAsRead_fresh (st : DatabaseStorage.t) (r s : Z) :
  MessageIdsFresh st -> MessageIdsFresh (DatabaseStorage.markMessagesAsRead st r s).
Proof.
  intros [Hlt Hnd]. unfold MessageIdsFresh. rewrite db_mark_as_map. split.
  - intros m Hin. apply in_map_iff in Hin as (x & <- & Hx).
    specialize (Hlt x Hx). unfold markRow. now destruct (unreadFromTo r s x).
  - rewrite map_map.
    rewrite (map_ext _ Message.id); [assumption|].
    intro x. unfold markRow. now destruct (unreadFromTo r s x).
Qed.

(** X15: "every message id is below the sequence and no two messages share
    an id" is an invariant of the message table: POST /api/messages, GET
    /api/messages/:userId and every event handled by the WebSocket gateway
    preserve it, for every actor and input. In particular the id given to a
    new message is not the id of any stored message. *)
Theorem X15_message_ids_stay_unique
    (st : DatabaseStorage.t) (now : Z) (reqUser : option Z)
    (parseResult : option InsertMessage.t) (otherUserId : Z)
    (connectedClients : JsMap.t Z Z) (readyState : Z -> Z) (ws userId : Z)
    (data : Gateway.ClientEvent) :
  MessageIdsFresh st ->
  MessageIdsFresh (fst (Routes.postMessages st now reqUser parseResult)) /\
  MessageIdsFresh (fst (Routes.getMessagesWith st reqUser otherUserId)) /\
  MessageIdsFresh (fst (Gateway.onMessage st connectedClients readyState now ws userId data)) /\
  (forall d m, In m (DatabaseStorage.messages st) ->
               Message.id (snd (DatabaseStorage.createMessage st now d)) <> Message.id m).
Proof.
  intro H. split; [|split; [|split]].
  - unfold Routes.postMessages.
    destruct reqUser as [u|]; [|exact H].
    destruct parseResult as [d|]; [|exact H].
    destruct (negb (InsertMessage.senderId d =? u)); [exact H|].
    destruct (DatabaseStorage.getUser st (InsertMessage.receiverId d)); [|exact H].
    destruct (Routes.notMatched _); [exact H|].
    apply (db_createMessage_fresh st now d H).
  - unfold Routes.getMessagesWith.
    destruct reqUser as [u|]; [|exact H].
    destruct (DatabaseStorage.getUser st otherUserId); [|exact H].
    destruct (Routes.notMatched _); [exact H|].
    now apply db_markMessagesAsRead_fresh.
  - unfold Gateway.onMessage.
    destruct data as [|[s|] [r|] [c|]|[s|]|]; try exact H.
    + destruct ((s =? 0) || (r =? 0) || String.eqb c "")%bool; [exact H|].
      destruct (negb (s =? userId)); [exact H|].
      destruct (Routes.notMatched _); [exact H|].
      apply (db_createMessage_fresh st now _ H).
    + destruct (s =? 0); [exact H|]. now apply db_markMessagesAsRead_fresh.
  - intros d m Hin. destruct H as [Hlt _]. specialize (Hlt m Hin). simpl. lia.
Qed.

(** ** Saved gyms *)














(** ** Deleting a user *)

Lemma db_getUser_some (st : DatabaseStorage.t) (id : Z) (user : User.t) :
  DatabaseStorage.getUser st id = Some user ->
  Nat.ltb 0 (List.length (filter (fun u => User.id u =? id) (DatabaseStorage.users st))) = true.
Proof.
  unfold DatabaseStorage.getUser.
  now destruct (filter _ (DatabaseStorage.users st)).
Qed.

Lemma db_getUser_after_delete (st : DatabaseStorage.t) (id : Z) (user : User.t) :
  DatabaseStorage.getUser st id = Some user ->
  exists st',
    DatabaseStorage.deleteUser st DatabaseStorage.Direct id = (st', true) /\
    DatabaseStorage.deleteUser st (DatabaseStorage.Fallback None) id = (st', true) /\
    DatabaseStorage.users st' =
      filter (fun u => negb (User.id u =? id)) (DatabaseStorage.users st) /\
    DatabaseStorage.savedGyms st' =
      filter (fun s => negb (SavedGym.userId s =? id)) (DatabaseStorage.savedGyms st) /\
    DatabaseStorage.userMatches st' =
      filter (fun m => negb (DatabaseStorage.matchOf id m)) (DatabaseStorage.userMatches st) /\
    DatabaseStorage.messages st' =
      filter (fun m => negb (DatabaseStorage.messageOf id m)) (DatabaseStorage.messages st) /\
    DatabaseStorage.gyms st' = DatabaseStorage.gyms st /\
    DatabaseStorage.getUser st' id = None /\
    (forall id', id' <> id ->
                 DatabaseStorage.getUser st' id' = DatabaseStorage.getUser st id').
Proof.
  intro Hu.
  unfold DatabaseStorage.deleteUser, DatabaseStorage.deleteUserDirect,
    DatabaseStorage.deleteUserOrm.
  cbn [DatabaseStorage.fails DatabaseStorage.setSavedGyms DatabaseStorage.setUserMatches
         DatabaseStorage.setMessages DatabaseStorage.users DatabaseStorage.savedGyms
         DatabaseStorage.userMatches DatabaseStorage.messages DatabaseStorage.gyms
         DatabaseStorage.savedGymsSeq DatabaseStorage.userMatchesSeq
         DatabaseStorage.messagesSeq].
  rewrite Hu, (db_getUser_some st id user Hu).
  eexists. split; [reflexivity|]. split; [reflexivity|].
  cbn [DatabaseStorage.users DatabaseStorage.savedGyms
    DatabaseStorage.userMatches DatabaseStorage.messages DatabaseStorage.gyms].
  repeat split.
  - unfold DatabaseStorage.getUser. cbn [DatabaseStorage.users].
    rewrite filter_none; [reflexivity|].
    intros x Hx. apply filter_In in Hx as [_ Hx]. now apply negb_true_iff in Hx.
  - intros id' Hne. unfold DatabaseStorage.getUser. cbn [DatabaseStorage.users].
    assert (E : filter (fun u => User.id u =? id')
                  (filter (fun u => negb (User.id u =? id)) (DatabaseStorage.users st)) =
                filter (fun u => User.id u =? id') (DatabaseStorage.users st)).
    { induction (DatabaseStorage.users st) as [|x l IH]; simpl; [reflexivity|].
      destruct (User.id x =? id) eqn:E; simpl.
      - apply Z.eqb_eq in E.
        assert (Hx : (User.id x =? id') = false) by (apply Z.eqb_neq; congruence).
        now rewrite Hx.
      - destruct (User.id x =? id'); now rewrite IH. }
    now rewrite E.
Qed.

(** X18: DELETE /api/admin/users/:id by an administrator, served with no
    other request in between, for a user who exists. When the user is not
    an administrator and no statement of the deletion fails, or one of the
    direct SQL path fails and none of the ORM path it falls back to, the
    answer is 200; afterwards the user is gone and so is every saved gym of
    that user and every match and message the user took part in, while the
    rows of everybody else, the other users and the gyms are kept; both
    runs leave the same storage. When a statement of the ORM path fails as
    well the answer is 500: the user is still there, and what the
    statements before the failing one deleted is gone. An administrator
    cannot be deleted (403, storage unchanged). When another request has
    removed the user between the handler's lookup and the deletion, the
    answer is 500 and the storage stays as that request left it. *)
Theorem X18_admin_delete_cascades
    (st : DatabaseStorage.t) (admin : User.t) (id : Z) (user : User.t) :
  User.isAdmin admin = true ->
  DatabaseStorage.getUser st id = Some user ->
  (User.isAdmin user = false ->
   exists st',
     Routes.deleteAdminUser st DatabaseStorage.Direct (Some admin) id =
       (st', Routes.mkResponse 200 (Routes.JsonMessageText "User deleted successfully")) /\
     Routes.deleteAdminUser st (DatabaseStorage.Fallback None) (Some admin) id =
       (st', Routes.mkResponse 200 (Routes.JsonMessageText "User deleted successfully")) /\
     DatabaseStorage.getUser st' id = None /\
     (forall id', id' <> id ->
                  DatabaseStorage.getUser st' id' = DatabaseStorage.getUser st id') /\
     (forall s, In s (DatabaseStorage.savedGyms st') <->
                In s (DatabaseStorage.savedGyms st) /\ SavedGym.userId s <> id) /\
     (forall m, In m (DatabaseStorage.userMatches st') <->
                In m (DatabaseStorage.userMatches st) /\
                UserMatch.senderId m <> id /\ UserMatch.receiverId m <> id) /\
     (forall m, In m (DatabaseStorage.messages st') <->
                In m (DatabaseStorage.messages st) /\
                Message.senderId m <> id /\ Message.receiverId m <> id) /\
     DatabaseStorage.gyms st' = DatabaseStorage.gyms st) /\
  (User.isAdmin user = false ->
   forall failing : DatabaseStorage.OrmStatement,
     let after :=
       Routes.deleteAdminUser st (DatabaseStorage.Fallback (Some failing)) (Some admin) id in
     snd after = Routes.mkResponse 500 (Routes.JsonMessageText "Failed to delete user") /\
     DatabaseStorage.users (fst after) = DatabaseStorage.users st /\
     DatabaseStorage.gyms (fst after) = DatabaseStorage.gyms st /\
     DatabaseStorage.savedGyms (fst after) =
       match failing with
       | DatabaseStorage.DeleteSavedGyms => DatabaseStorage.savedGyms st
       | _ => filter (fun s => negb (SavedGym.userId s =? id)) (DatabaseStorage.savedGyms st)
       end /\
     DatabaseStorage.userMatches (fst after) =
       match failing with
       | DatabaseStorage.DeleteSavedGyms | DatabaseStorage.DeleteUserMatches =>
           DatabaseStorage.userMatches st
       | _ => filter (fun m => negb (DatabaseStorage.matchOf id m))
                (DatabaseStorage.userMatches st)
       end /\
     DatabaseStorage.messages (fst after) =
       match failing with
       | DatabaseStorage.DeleteUsers =>
           filter (fun m => negb (DatabaseStorage.messageOf id m))
             (DatabaseStorage.messages st)
       | _ => DatabaseStorage.messages st
       end) /\
  (User.isAdmin user = true ->
   forall run,
     Routes.deleteAdminUser st run (Some admin) id =
       (st, Routes.mkResponse 403 (Routes.JsonMessageText "Cannot delete admin users"))) /\
  (User.isAdmin user = false ->
   forall later run,
     DatabaseStorage.getUser later id = None ->
     Routes.deleteAdminUserFrom later run id (Some user) =
       (later, Routes.mkResponse 500 (Routes.JsonMessageText "Failed to delete user"))).
Proof.
  intros Hadmin Hu. split; [|split; [|split]].
  - intro Hna.
    destruct (db_getUser_after_delete st id user Hu)
      as (st' & Hdel & Hfall & Husers & Hsaved & Hmatches & Hmsgs & Hgyms & Hgone & Hother).
    exists st'.
    split; [|split; [|split; [exact Hgone|split; [exact Hother|]]]].
    + unfold Routes.deleteAdminUser, Routes.deleteAdminUserFrom.
      rewrite Hadmin, Hu, Hna, Hdel. cbn [negb]. now rewrite Hgone.
    + unfold Routes.deleteAdminUser, Routes.deleteAdminUserFrom.
      rewrite Hadmin, Hu, Hna, Hfall. cbn [negb]. now rewrite Hgone.
    + repeat split.
      * rewrite Hsaved in H. now apply filter_In in H.
      * rewrite Hsaved in H. apply filter_In in H as [_ H].
        apply negb_true_iff, Z.eqb_neq in H. exact H.
      * intros [Hin Hne]. rewrite Hsaved. apply filter_In. split; [assumption|].
        now apply negb_true_iff, Z.eqb_neq.
      * rewrite Hmatches in H. now apply filter_In in H.
      * rewrite Hmatches in H. apply filter_In in H as [_ H].
        apply negb_true_iff, orb_false_iff in H as [H _]. now apply Z.eqb_neq in H.
      * rewrite Hmatches in H. apply filter_In in H as [_ H].
        apply negb_true_iff, orb_false_iff in H as [_ H]. now apply Z.eqb_neq in H.
      * intros (Hin & Hs & Hr). rewrite Hmatches. apply filter_In. split; [assumption|].
        apply negb_true_iff, orb_false_iff. split; now apply Z.eqb_neq.
      * rewrite Hmsgs in H. now apply filter_In in H.
      * rewrite Hmsgs in H. apply filter_In in H as [_ H].
        apply negb_true_iff, orb_false_iff in H as [H _]. now apply Z.eqb_neq in H.
      * rewrite Hmsgs in H. apply filter_In in H as [_ H].
        apply negb_true_iff, orb_false_iff in H as [_ H]. now apply Z.eqb_neq in H.
      * intros (Hin & Hs & Hr). rewrite Hmsgs. apply filter_In. split; [assumption|].
        apply negb_true_iff, orb_false_iff. split; now apply Z.eqb_neq.
      * exact Hgyms.
  - intros Hna failing after. unfold after, Routes.deleteAdminUser, Routes.deleteAdminUserFrom,
      DatabaseStorage.deleteUser, DatabaseStorage.deleteUserOrm.
    rewrite Hadmin, Hu, Hna. cbn [negb].
    destruct failing; cbn [DatabaseStorage.fails fst snd]; repeat split.
  - intros Ha run. unfold Routes.deleteAdminUser, Routes.deleteAdminUserFrom.
    now rewrite Hadmin, Hu, Ha.
  - intros Hna later run Hgone. unfold Routes.deleteAdminUserFrom, DatabaseStorage.deleteUser.
    now rewrite Hna, Hgone.
Qed.

(** ** The WebSocket gateway *)

(** X19: whatever event a connection sends, the gateway answers on that
    connection first and pushes nothing but new-message events to other
    sockets; it leaves users, matches and saved gyms alone; and the message
    table afterwards is either unchanged, or extended by one unread message
    whose sender is the connection's own user and whose receiver the pair
    lookup finds matched with status accepted, or has the read flag set on
    the unread messages that one sender had addressed to the connection's
    own user. So a connection can neither send under another user's id nor
    to an unmatched user, nor mark another user's messages as read. *)
Theorem X19_gateway_acts_only_for_its_own_user
    (st : DatabaseStorage.t) (connectedClients : JsMap.t Z Z) (readyState : Z -> Z)
    (now ws userId : Z) (data : Gateway.ClientEvent) :
  let st' := fst (Gateway.onMessage st connectedClients readyState now ws userId data) in
  let sends := snd (Gateway.onMessage st connectedClients readyState now ws userId data) in
  DatabaseStorage.users st' = DatabaseStorage.users st /\
  DatabaseStorage.userMatches st' = DatabaseStorage.userMatches st /\
  DatabaseStorage.savedGyms st' = DatabaseStorage.savedGyms st /\
  (DatabaseStorage.messages st' = DatabaseStorage.messages st \/
   (exists msg,
       DatabaseStorage.messages st' = (DatabaseStorage.messages st ++ [msg])%list /\
       Message.senderId msg = userId /\ Message.read msg = false /\
       Routes.notMatched
         (DatabaseStorage.getUserMatchByUsers st userId (Message.receiverId msg)) = false) \/
   (exists s, DatabaseStorage.messages st' = map (markRow userId s) (DatabaseStorage.messages st))) /\
  (exists e rest,
      sends = (ws, e) :: rest /\
      Forall (fun p => exists msg, snd p = Gateway.NewMessage msg) rest).
Proof.
  cbv zeta. unfold Gateway.onMessage.
  destruct data as [|[s|] [r|] [c|]|[s|]|];
    try (repeat split; [now left|eexists; eexists; split; [reflexivity|constructor]]).
  - destruct ((s =? 0) || (r =? 0) || String.eqb c "")%bool;
      [repeat split; [now left|eexists; eexists; split; [reflexivity|constructor]]|].
    destruct (s =? userId) eqn:Es; cbn [negb];
      [|repeat split; [now left|eexists; eexists; split; [reflexivity|constructor]]].
    apply Z.eqb_eq in Es. subst s.
    destruct (Routes.notMatched (DatabaseStorage.getUserMatchByUsers st userId r)) eqn:En;
      [repeat split; [now left|eexists; eexists; split; [reflexivity|constructor]]|].
    cbn [DatabaseStorage.createMessage fst snd DatabaseStorage.users
         DatabaseStorage.userMatches DatabaseStorage.savedGyms DatabaseStorage.messages
         DatabaseStorage.setMessages InsertMessage.senderId InsertMessage.receiverId
         InsertMessage.content].
    repeat split.
    + right. left. eexists. split; [reflexivity|]. simpl. auto.
    + eexists. eexists. split; [reflexivity|].
      unfold Gateway.forward.
      destruct (JsMap.get Z.eqb connectedClients r) as [sock|]; [|constructor].
      destruct (readyState sock =? Gateway.OPEN); [|constructor].
      constructor; [|constructor]. simpl. eexists. reflexivity.
  - destruct (s =? 0);
      [repeat split; [now left|eexists; eexists; split; [reflexivity|constructor]]|].
    repeat split.
    + right. right. exists s. reflexivity.
    + eexists. eexists. split; [reflexivity|constructor].
Qed.

(** X20: a send event that names the connection's own user as sender, a
    receiver and a non-empty content, between users whose pair lookup
    returns an accepted match, is confirmed to the sender with the stored
    message, and that same message is pushed to the socket registered for
    the receiver exactly when there is one and it is open; a closed or
    missing socket gets nothing. When the receiver exists, the gateway
    leaves the storage as POST /api/messages does for the same message, and
    the message confirmed is the one that request returns. *)
Theorem X20_gateway_delivers_like_the_api
    (st : DatabaseStorage.t) (connectedClients : JsMap.t Z Z) (readyState : Z -> Z)
    (now ws s r : Z) (c : string) (m : UserMatch.t) :
  s <> 0 -> r <> 0 -> c <> "" ->
  DatabaseStorage.getUserMatchByUsers st s r = Some m ->
  UserMatch.status m = "accepted" ->
  exists st1 msg,
    Gateway.onMessage st connectedClients readyState now ws s
      (Gateway.SendMessage (Some s) (Some r) (Some c)) =
      (st1, (ws, Gateway.MessageSent msg) ::
            Gateway.forward connectedClients readyState r msg) /\
    In msg (DatabaseStorage.messages st1) /\
    (forall sock, JsMap.get Z.eqb connectedClients r = Some sock ->
                  readyState sock = Gateway.OPEN ->
                  Gateway.forward connectedClients readyState r msg =
                    [(sock, Gateway.NewMessage msg)]) /\
    (forall sock, JsMap.get Z.eqb connectedClients r = Some sock ->
                  readyState sock <> Gateway.OPEN ->
                  Gateway.forward connectedClients readyState r msg = []) /\
    (JsMap.get Z.eqb connectedClients r = None ->
     Gateway.forward connectedClients readyState r msg = []) /\
    (DatabaseStorage.getUser st r <> None ->
     Routes.sendMessage st now s r c =
       (st1, Routes.mkResponse 201 (Routes.JsonNewMessage msg))).
Proof.
  intros Hs Hr Hc Hm Hacc.
  assert (Hok : Routes.notMatched (DatabaseStorage.getUserMatchByUsers st s r) = false).
  { rewrite Hm. simpl. now rewrite Hacc. }
  set (msg := Message.mk (DatabaseStorage.messagesSeq st) s r c false now).
  exists (DatabaseStorage.setMessages st (DatabaseStorage.messages st ++ [msg])
            (DatabaseStorage.messagesSeq st + 1)), msg.
  split; [|split; [|split; [|split; [|split]]]].
  - unfold Gateway.onMessage.
    apply Z.eqb_neq in Hs, Hr. apply String.eqb_neq in Hc.
    rewrite Hs, Hr, Hc, Z.eqb_refl, Hok. reflexivity.
  - simpl. apply in_or_app. right. now left.
  - intros sock Hg Ho. unfold Gateway.forward. rewrite Hg, Ho. reflexivity.
  - intros sock Hg Ho. unfold Gateway.forward. rewrite Hg.
    apply Z.eqb_neq in Ho. now rewrite Ho.
  - intro Hg. unfold Gateway.forward. now rewrite Hg.
  - intro Hu. unfold Routes.sendMessage, Routes.postMessages.
    cbn [InsertMessage.senderId InsertMessage.receiverId].
    rewrite Z.eqb_refl. cbn [negb].
    destruct (DatabaseStorage.getUser st r); [|congruence]. now rewrite Hok.
Qed.

Section MapKeyFacts.
Context {K V : Type} (eqb : K -> K -> bool).
Hypothesis eqb_spec : forall a b, eqb a b = true <-> a = b.

Lemma get_set_other (m : JsMap.t K V) (k k' : K) (v : V) :
  k' <> k -> JsMap.get eqb (JsMap.set eqb m k v) k' = JsMap.get eqb m k'.
Proof.
  intro Hn. induction m as [|[k0 v0] m IH]; cbn [JsMap.set JsMap.get].
  - destruct (eqb k k') eqn:E; [|reflexivity].
    apply eqb_spec in E. congruence.
  - destruct (eqb k0 k) eqn:E; cbn [JsMap.get].
    + apply eqb_spec in E. subst k0.
      destruct (eqb k k') eqn:E'; [|reflexivity].
      apply eqb_spec in E'. congruence.
    + now rewrite IH.
Qed.

Lemma get_set_this (m : JsMap.t K V) (k : K) (v : V) :
  JsMap.get eqb (JsMap.set eqb m k v) k = Some v.
Proof.
  assert (Hr : forall a, eqb a a = true) by (intro a; now apply eqb_spec).
  induction m as [|[k0 v0] m IH]; cbn [JsMap.set JsMap.get].
  - now rewrite Hr.
  - destruct (eqb k0 k) eqn:E; cbn [JsMap.get]; now rewrite E.
Qed.

Lemma keys_set_incl (m : JsMap.t K V) (k : K) (v : V) (x : K) :
  In x (JsMap.keys (JsMap.set eqb m k v)) -> x = k \/ In x (JsMap.keys m).
Proof.
  unfold JsMap.keys.
  induction m as [|[k0 v0] m IH]; cbn [JsMap.set map fst In].
  - intros [H|[]]. now left.
  - destruct (eqb k0 k) eqn:E; cbn [map fst In].
    + intros [H|H]; right; [now left|now right].
    + intros [H|H]; [right; now left|].
      destruct (IH H) as [H'|H']; [now left|right; now right].
Qed.

Lemma keys_set_NoDup (m : JsMap.t K V) (k : K) (v : V) :
  NoDup (JsMap.keys m) -> NoDup (JsMap.keys (JsMap.set eqb m k v)).
Proof.
  unfold JsMap.keys.
  induction m as [|[k0 v0] m IH]; cbn [JsMap.set map fst]; intro Hd.
  - constructor; [intros []|constructor].
  - inversion Hd as [|? ? Hn Hd']; subst.
    destruct (eqb k0 k) eqn:E; cbn [map fst].
    + now constructor.
    + constructor; [|now apply IH].
      intro Hin. apply keys_set_incl in Hin. destruct Hin as [Hin|Hin].
      * subst k0. assert (Hr : eqb k k = true) by now apply eqb_spec. congruence.
      * now apply Hn.
Qed.

Lemma get_absent (m : JsMap.t K V) (k : K) :
  ~ In k (JsMap.keys m) -> JsMap.get eqb m k = None.
Proof.
  unfold JsMap.keys.
  induction m as [|[k0 v0] m IH]; cbn [JsMap.get map fst In]; intro Hn; [reflexivity|].
  destruct (eqb k0 k) eqn:E.
  - apply eqb_spec in E. exfalso. apply Hn. now left.
  - apply IH. intro Hin. apply Hn. now right.
Qed.

Lemma get_delete_this (m : JsMap.t K V) (k : K) :
  NoDup (JsMap.keys m) -> JsMap.get eqb (fst (JsMap.delete eqb m k)) k = None.
Proof.
  unfold JsMap.keys.
  induction m as [|[k0 v0] m IH]; cbn [JsMap.delete map fst]; intro Hd; [reflexivity|].
  inversion Hd as [|? ? Hn Hd']; subst.
  destruct (eqb k0 k) eqn:E.
  - apply eqb_spec in E. subst k0. cbn [fst]. now apply get_absent.
  - specialize (IH Hd'). destruct (JsMap.delete eqb m k) as [r b].
    cbn [fst JsMap.get] in *. now rewrite E.
Qed.

Lemma get_delete_other (m : JsMap.t K V) (k k' : K) :
  k' <> k -> JsMap.get eqb (fst (JsMap.delete eqb m k)) k' = JsMap.get eqb m k'.
Proof.
  intro Hn. induction m as [|[k0 v0] m IH]; cbn [JsMap.delete]; [reflexivity|].
  destruct (eqb k0 k) eqn:E.
  - apply eqb_spec in E. subst k0. cbn [fst JsMap.get].
    destruct (eqb k k') eqn:E'; [|reflexivity].
    apply eqb_spec in E'. congruence.
  - destruct (JsMap.delete eqb m k) as [r b]. cbn [fst JsMap.get] in *.
    now rewrite IH.
Qed.

End MapKeyFacts.

(** X21: the registry of connected clients. A connection without a usable
    user id is closed and not registered. A user who connects again is
    registered with the new socket only, so messages are pushed there; and
    in a registry with one entry per user, as soon as either of that user's
    sockets closes the user has no entry at all, although the newer socket
    may still be open: nothing is pushed to that user from then on, while
    every other user's entry is as before. *)
Theorem X21_reconnecting_replaces_and_closing_unregisters
    (connectedClients : JsMap.t Z Z) (ws1 ws2 u : Z) :
  NoDup (JsMap.keys connectedClients) ->
  u <> 0 ->
  let c1 := fst (Gateway.onConnection connectedClients ws1 (Some u)) in
  let c2 := fst (Gateway.onConnection c1 ws2 (Some u)) in
  let c3 := Gateway.onClose c2 u in
  (forall ws, Gateway.onConnection connectedClients ws None = (connectedClients, false) /\
              Gateway.onConnection connectedClients ws (Some 0) = (connectedClients, false)) /\
  snd (Gateway.onConnection c1 ws2 (Some u)) = true /\
  JsMap.get Z.eqb c2 u = Some ws2 /\
  NoDup (JsMap.keys c2) /\
  (forall readyState message,
      readyState ws2 = Gateway.OPEN ->
      Gateway.forward c2 readyState u message = [(ws2, Gateway.NewMessage message)]) /\
  JsMap.get Z.eqb c3 u = None /\
  (forall readyState message, Gateway.forward c3 readyState u message = []) /\
  (forall v, v <> u -> JsMap.get Z.eqb c3 v = JsMap.get Z.eqb connectedClients v).
Proof.
  intros Hd Hu. cbv zeta. unfold Gateway.onConnection, Gateway.onClose.
  apply Z.eqb_neq in Hu. rewrite Hu. cbn [fst snd].
  assert (Hd2 : NoDup (JsMap.keys
            (JsMap.set Z.eqb (JsMap.set Z.eqb connectedClients u ws1) u ws2))).
  { apply (keys_set_NoDup Z.eqb Z.eqb_eq). now apply (keys_set_NoDup Z.eqb Z.eqb_eq). }
  split; [intro ws; split; reflexivity|].
  split; [reflexivity|].
  split; [apply (get_set_this Z.eqb Z.eqb_eq)|].
  split; [exact Hd2|].
  split.
  { intros readyState message Ho. unfold Gateway.forward.
    rewrite (get_set_this Z.eqb Z.eqb_eq), Ho. reflexivity. }
  split; [now apply (get_delete_this Z.eqb Z.eqb_eq)|].
  split.
  { intros readyState message. unfold Gateway.forward.
    now rewrite (get_delete_this Z.eqb Z.eqb_eq). }
  intros v Hv.
  rewrite (get_delete_other Z.eqb Z.eqb_eq) by exact Hv.
  rewrite (get_set_other Z.eqb Z.eqb_eq) by exact Hv.
  now rewrite (get_set_other Z.eqb Z.eqb_eq) by exact Hv.
Qed.

(** ** The boost of the database scorer *)

Lemma boost_fold_le (gymAmenities related : list string) (z : Z) :
  fold_left
    (fun acc amenity =>
       if existsb (String.eqb amenity) gymAmenities then acc + 2 else acc)
    related z <= z + 2 * Z.of_nat (List.length related).
Proof.
  revert z. induction related as [|a related IH]; intro z; cbn [fold_left List.length].
  - lia.
  - destruct (existsb _ _).
    + specialize (IH (z + 2)). lia.
    + specialize (IH z). lia.
Qed.

Lemma dbGoalToAmenity_three (goal : string) (xs : list string) :
  ownProperty dbGoalToAmenity goal = Some xs -> List.length xs = 3%nat.
Proof.
  unfold dbGoalToAmenity. cbn [ownProperty].
  repeat (match goal with
          | |- context [String.eqb ?a ?b] => destruct (String.eqb a b)
          end);
    intro H; inversion H; reflexivity.
Qed.

Lemma boostAll_le (gymAmenities goals : list string) (z z' : Z) :
  DatabaseStorage.boostAll gymAmenities z goals = Returned z' ->
  z' <= z + 6 * Z.of_nat (List.length (filter listedGoal goals)).
Proof.
  revert z. induction goals as [|goal goals IH]; intros z H;
    cbn [DatabaseStorage.boostAll filter] in *.
  - inversion H. simpl. lia.
  - unfold DatabaseStorage.boost, getProperty, listedGoal in *.
    destruct (ownProperty dbGoalToAmenity goal) as [xs|] eqn:E.
    + cbn [bindJs] in H. apply IH in H.
      pose proof (boost_fold_le gymAmenities xs z) as Hb.
      rewrite (dbGoalToAmenity_three goal xs E) in Hb.
      cbn [List.length]. lia.
    + destruct (existsb (String.eqb goal) objectPrototypeKeys); cbn [bindJs] in H.
      * discriminate.
      * now apply IH.
Qed.

(** X22: what the database scorer adds to the random base. A score it
    returns lies between the base and the base plus six points for each
    goal of the user that is literally one of the three keys of the goal
    table, capped at 100. Goals spelled differently, also in case only, add
    nothing: without a listed goal the score is the base itself, at most
    89. *)
Theorem X22_db_boost_needs_a_listed_goal
    (r : Q) (user : User.t) (gym : Gym.t) (goals : list string) (s : Z) :
  (0 <= r)%Q -> (r < 1)%Q ->
  User.fitnessGoals user = Some goals ->
  DatabaseStorage.score r user gym = Returned s ->
  DatabaseStorage.baseScore r <= s <=
    Z.min 100 (DatabaseStorage.baseScore r +
               6 * Z.of_nat (List.length (filter listedGoal goals))) /\
  (filter listedGoal goals = [] -> s = DatabaseStorage.baseScore r /\ s <= 89).
Proof.
  intros H0 H1 Hg. pose proof (baseScore_bounds r H0 H1) as Hb.
  unfold DatabaseStorage.score. rewrite Hg.
  assert (Hz : forall z1,
             DatabaseStorage.baseScore r <= z1 <=
               DatabaseStorage.baseScore r +
               6 * Z.of_nat (List.length (filter listedGoal goals)) ->
             Returned (Z.min z1 100) = Returned s ->
             DatabaseStorage.baseScore r <= s <=
               Z.min 100 (DatabaseStorage.baseScore r +
                          6 * Z.of_nat (List.length (filter listedGoal goals))) /\
             (filter listedGoal goals = [] -> s = DatabaseStorage.baseScore r /\ s <= 89)).
  { intros z1 Hz1 H. inversion H; subst s. split; [lia|].
    intro Hn. rewrite Hn in Hz1. cbn [List.length] in Hz1. lia. }
  destruct (Gym.amenities gym) as [gymAmenities|].
  - destruct (DatabaseStorage.boostAll gymAmenities (DatabaseStorage.baseScore r) goals)
      as [z1|e] eqn:E; cbn [bindJs]; [|discriminate].
    apply Hz. split; [now apply boostAll_ge in E|now apply boostAll_le in E].
  - cbn [bindJs]. apply Hz. lia.
Qed.

(** ** Stores keyed by record id *)

Section KeyedFacts.
Context {V : Type} (idOf : V -> Z).

Lemma KeyedBy_tail (c : Z) (e : Z * V) (m : JsMap.t Z V) :
  KeyedBy idOf c (e :: m) -> KeyedBy idOf c m.
Proof.
  intros [Hf Hd]. split.
  - now inversion Hf.
  - unfold JsMap.keys in *. cbn [map] in Hd. now inversion Hd.
Qed.

Lemma KeyedBy_In (c : Z) (m : JsMap.t Z V) (v : V) :
  KeyedBy idOf c m -> In v (JsMap.values m) -> In (idOf v) (JsMap.keys m).
Proof.
  intros [Hf _] Hin. unfold JsMap.values, JsMap.keys in *.
  apply in_map_iff in Hin as [[k x] [Hx Hin]]. cbn [snd] in Hx. subst x.
  rewrite Forall_forall in Hf. destruct (Hf _ Hin) as [Hk _]. cbn [fst snd] in Hk.
  rewrite <- Hk. apply in_map_iff. exists (k, v). auto.
Qed.

Lemma keyed_get (c : Z) (m : JsMap.t Z V) (k : Z) :
  KeyedBy idOf c m ->
  JsMap.get Z.eqb m k = hd_error (filter (fun v => idOf v =? k) (JsMap.values m)).
Proof.
  induction m as [|[k0 x] m IH]; intro Hk; [reflexivity|].
  pose proof (KeyedBy_tail _ _ _ Hk) as Ht. destruct Hk as [Hf _].
  inversion Hf as [|? ? [Hx _] _]; subst. cbn [fst snd] in Hx. subst k0.
  unfold JsMap.values in *. cbn [JsMap.get map snd filter].
  destruct (idOf x =? k); [reflexivity|]. now apply IH.
Qed.

Lemma set_fresh (m : JsMap.t Z V) (k : Z) (v : V) :
  ~ In k (JsMap.keys m) -> JsMap.set Z.eqb m k v = (m ++ [(k, v)])%list.
Proof.
  unfold JsMap.keys.
  induction m as [|[k0 x] m IH]; cbn [JsMap.set map fst In app]; intro Hn; [reflexivity|].
  destruct (k0 =? k) eqn:E.
  - apply Z.eqb_eq in E. exfalso. apply Hn. now left.
  - rewrite IH; [reflexivity|]. intro Hin. apply Hn. now right.
Qed.

Lemma KeyedBy_counter_fresh (c : Z) (m : JsMap.t Z V) :
  KeyedBy idOf c m -> ~ In c (JsMap.keys m).
Proof.
  intros [Hf _] Hin. unfold JsMap.keys in Hin.
  apply in_map_iff in Hin as [e [He Hin]].
  rewrite Forall_forall in Hf. destruct (Hf _ Hin) as [_ Hlt]. lia.
Qed.

Lemma KeyedBy_snoc (c : Z) (m : JsMap.t Z V) (v : V) :
  KeyedBy idOf c m -> idOf v = c ->
  KeyedBy idOf (c + 1) (JsMap.set Z.eqb m c v) /\
  JsMap.values (JsMap.set Z.eqb m c v) = (JsMap.values m ++ [v])%list.
Proof.
  intros Hk Hv. pose proof (KeyedBy_counter_fresh _ _ Hk) as Hn.
  rewrite (set_fresh m c v Hn). destruct Hk as [Hf Hd].
  unfold KeyedBy, JsMap.keys, JsMap.values in *. rewrite !map_app. cbn [map fst snd].
  split; [split|reflexivity].
  - apply Forall_app. split.
    + eapply Forall_impl; [|exact Hf]. intros e [H1 H2]. split; [exact H1|lia].
    + constructor; [|constructor]. cbn [fst snd]. split; [now rewrite Hv|lia].
  - apply NoDup_app; [exact Hd|constructor; [intros []|constructor]|].
    intros a Ha [<-|[]]. now apply Hn.
Qed.

Lemma keyed_map_other (c : Z) (m : JsMap.t Z V) (k : Z) (f : V -> V) :
  KeyedBy idOf c m -> ~ In k (JsMap.keys m) ->
  map (fun v => if idOf v =? k then f v else v) (JsMap.values m) = JsMap.values m /\
  filter (fun v => negb (idOf v =? k)) (JsMap.values m) = JsMap.values m /\
  filter (fun v => idOf v =? k) (JsMap.values m) = [].
Proof.
  induction m as [|[k0 x] m IH]; intros Hk Hn; [auto|].
  pose proof (KeyedBy_tail _ _ _ Hk) as Ht. destruct Hk as [Hf _].
  inversion Hf as [|? ? [Hx _] _]; subst. cbn [fst snd] in Hx. subst k0.
  unfold JsMap.values, JsMap.keys in *. cbn [map fst snd In filter] in *.
  destruct (idOf x =? k) eqn:E.
  - apply Z.eqb_eq in E. exfalso. apply Hn. now left.
  - cbn [negb]. destruct IH as [H1 [H2 H3]]; [exact Ht|tauto|].
    rewrite H1, H2, H3. auto.
Qed.

Lemma keyed_set_existing (c : Z) (m : JsMap.t Z V) (k : Z) (v0 : V) (f : V -> V) :
  (forall v, idOf (f v) = idOf v) ->
  KeyedBy idOf c m -> JsMap.get Z.eqb m k = Some v0 ->
  JsMap.values (JsMap.set Z.eqb m k (f v0)) =
    map (fun v => if idOf v =? k then f v else v) (JsMap.values m) /\
  KeyedBy idOf c (JsMap.set Z.eqb m k (f v0)).
Proof.
  intro Hid. induction m as [|[k0 x] m IH]; intros Hk Hg; [discriminate|].
  pose proof (KeyedBy_tail _ _ _ Hk) as Ht. destruct Hk as [Hf Hd].
  inversion Hf as [|? ? [Hx Hlt] Hf']; subst. cbn [fst snd] in Hx, Hlt. subst k0.
  unfold JsMap.keys in Hd. cbn [map fst] in Hd.
  inversion Hd as [|? ? Hn Hd']; subst.
  cbn [JsMap.get JsMap.set] in *.
  destruct (idOf x =? k) eqn:E.
  - inversion Hg; subst v0. apply Z.eqb_eq in E. subst k.
    unfold JsMap.values. cbn [map snd]. rewrite Z.eqb_refl.
    destruct (keyed_map_other c m (idOf x) f Ht) as [H1 _]; [exact Hn|].
    unfold JsMap.values in H1. rewrite H1. split; [reflexivity|].
    split.
    + constructor; [|exact Hf']. cbn [fst snd]. rewrite Hid. split; [reflexivity|lia].
    + unfold JsMap.keys. cbn [map fst]. now constructor.
  - destruct (IH Ht Hg) as [Hv [Hf2 Hd2]].
    unfold JsMap.values in *. cbn [map snd]. rewrite E, Hv. split; [reflexivity|].
    split.
    + constructor; [|exact Hf2]. cbn [fst snd]. split; [reflexivity|lia].
    + unfold JsMap.keys in *. cbn [map fst]. constructor; [|exact Hd2].
      intro Hin. apply (keys_set_incl Z.eqb) in Hin. destruct Hin as [Hin|Hin].
      * subst k. now rewrite Z.eqb_refl in E.
      * now apply Hn.
Qed.

Lemma keys_delete_incl (m : JsMap.t Z V) (k x : Z) :
  In x (JsMap.keys (fst (JsMap.delete Z.eqb m k))) -> In x (JsMap.keys m).
Proof.
  unfold JsMap.keys.
  induction m as [|[k0 v0] m IH]; cbn [JsMap.delete]; [auto|].
  destruct (k0 =? k).
  - cbn [fst map In]. auto.
  - destruct (JsMap.delete Z.eqb m k) as [r b]. cbn [fst map In] in *.
    intros [H|H]; [now left|right; now apply IH].
Qed.

Lemma keyed_delete (c : Z) (m : JsMap.t Z V) (k : Z) :
  KeyedBy idOf c m ->
  JsMap.values (fst (JsMap.delete Z.eqb m k)) =
    filter (fun v => negb (idOf v =? k)) (JsMap.values m) /\
  snd (JsMap.delete Z.eqb m k) =
    Nat.ltb 0 (List.length (filter (fun v => idOf v =? k) (JsMap.values m))) /\
  KeyedBy idOf c (fst (JsMap.delete Z.eqb m k)).
Proof.
  induction m as [|[k0 x] m IH]; intro Hk.
  - cbn. repeat split; constructor.
  - pose proof (KeyedBy_tail _ _ _ Hk) as Ht. destruct Hk as [Hf Hd].
    inversion Hf as [|? ? [Hx Hlt] Hf']; subst. cbn [fst snd] in Hx, Hlt. subst k0.
    unfold JsMap.keys in Hd. cbn [map fst] in Hd.
    inversion Hd as [|? ? Hn Hd']; subst.
    pose proof (keys_delete_incl m k) as Hincl.
    cbn [JsMap.delete]. unfold JsMap.values. cbn [map snd filter].
    destruct (idOf x =? k) eqn:E.
    + apply Z.eqb_eq in E. cbn [fst snd negb List.length].
      destruct (keyed_map_other c m k (fun v => v) Ht) as [_ [H2 _]];
        [now rewrite <- E|].
      unfold JsMap.values in H2. rewrite H2. auto.
    + destruct (IH Ht) as [Hv [Hb [Hf2 Hd2]]].
      destruct (JsMap.delete Z.eqb m k) as [r b]. cbn [fst snd negb] in *.
      unfold JsMap.values in *. cbn [map snd]. rewrite Hv. split; [reflexivity|].
      split; [exact Hb|]. split.
      * constructor; [|exact Hf2]. cbn [fst snd]. split; [reflexivity|lia].
      * unfold JsMap.keys in *. cbn [map fst]. constructor; [|exact Hd2].
        intro Hin. apply Hn. now apply Hincl.
Qed.

Lemma set_app_absent (pre m : JsMap.t Z V) (k : Z) (v : V) :
  ~ In k (JsMap.keys pre) ->
  JsMap.set Z.eqb (pre ++ m)%list k v = (pre ++ JsMap.set Z.eqb m k v)%list.
Proof.
  unfold JsMap.keys.
  induction pre as [|[k0 x] pre IH]; cbn [app JsMap.set map fst In]; intro Hn;
    [reflexivity|].
  destruct (k0 =? k) eqn:E.
  - apply Z.eqb_eq in E. exfalso. apply Hn. now left.
  - rewrite IH; [reflexivity|]. intro Hin. apply Hn. now right.
Qed.

Lemma keyed_fold_set (f : V -> V) (P : V -> bool) (m : JsMap.t Z V) :
  forall pre : JsMap.t Z V,
  NoDup (JsMap.keys (pre ++ m)%list) ->
  Forall (fun e => fst e = idOf (snd e)) m ->
  fold_left (fun store x => JsMap.set Z.eqb store (idOf x) (f x))
    (filter P (JsMap.values m)) (pre ++ m)%list =
  (pre ++ map (fun e => (fst e, if P (snd e) then f (snd e) else snd e)) m)%list.
Proof.
  unfold JsMap.values, JsMap.keys.
  induction m as [|[k x] m IH]; intros pre Hd Hf; [reflexivity|].
  inversion Hf as [|? ? Hx Hf']; subst. cbn [fst snd] in Hx. subst k.
  cbn [map snd fst filter].
  assert (Hpre : ~ In (idOf x) (map fst pre)).
  { rewrite map_app in Hd. cbn [map fst] in Hd.
    apply NoDup_remove_2 in Hd. intro Hin. apply Hd. apply in_or_app. now left. }
  assert (Hstep : forall y : V,
             NoDup (map fst ((pre ++ [(idOf x, y)]) ++ m)%list)).
  { intro y. rewrite <- app_assoc. cbn [app].
    rewrite map_app in *. cbn [map fst] in *. exact Hd. }
  destruct (P x).
  - cbn [fold_left]. rewrite (set_app_absent pre _ _ _ Hpre).
    cbn [JsMap.set]. rewrite Z.eqb_refl.
    change (pre ++ (idOf x, f x) :: m)%list
      with (pre ++ [(idOf x, f x)] ++ m)%list.
    rewrite app_assoc. rewrite (IH _ (Hstep (f x)) Hf').
    rewrite <- app_assoc. reflexivity.
  - change (pre ++ (idOf x, x) :: m)%list with (pre ++ [(idOf x, x)] ++ m)%list.
    rewrite app_assoc. rewrite (IH _ (Hstep x) Hf').
    rewrite <- app_assoc. reflexivity.
Qed.

End KeyedFacts.

(** ** The in-memory storage against the database storage *)

Lemma unreadFrom_eq (r s : Z) (m : Message.t) :
  MemStorage.unreadFrom r s m = unreadFromTo r s m.
Proof.
  unfold MemStorage.unreadFrom, unreadFromTo. f_equal. apply andb_comm.
Qed.

Lemma mem_mark_store (st : MemStorage.t) (r s : Z) :
  MessageStoreKeyed st ->
  MemStorage.messageStore (MemStorage.markMessagesAsRead st r s) =
  map (fun e => (fst e, markRow r s (snd e))) (MemStorage.messageStore st).
Proof.
  intros [Hf Hd]. unfold MemStorage.markMessagesAsRead.
  cbn [MemStorage.messageStore MemStorage.setMessageStore].
  pose proof (keyed_fold_set Message.id
                (fun m => Message.mk (Message.id m) (Message.senderId m)
                            (Message.receiverId m) (Message.content m) true
                            (Message.createdAt m))
                (MemStorage.unreadFrom r s) (MemStorage.messageStore st) []) as H.
  cbn [app] in H. unfold MemStorage.markOne. rewrite H.
  - apply map_ext. intros [k m]. cbn [fst snd].
    unfold markRow. now rewrite unreadFrom_eq.
  - exact Hd.
  - eapply Forall_impl; [|exact Hf]. now intros e [H1 _].
Qed.

Lemma markRow_id (r s : Z) (m : Message.t) : Message.id (markRow r s m) = Message.id m.
Proof.
  unfold markRow. now destruct (unreadFromTo r s m).
Qed.

Lemma keyed_ids_NoDup {V : Type} (idOf : V -> Z) (c : Z) (m : JsMap.t Z V) :
  KeyedBy idOf c m -> NoDup (map idOf (JsMap.values m)).
Proof.
  intros [Hf Hd].
  assert (E : map idOf (JsMap.values m) = JsMap.keys m).
  { unfold JsMap.values, JsMap.keys. rewrite map_map. apply map_ext_in.
    intros e He. rewrite Forall_forall in Hf. symmetry. now apply Hf. }
  now rewrite E.
Qed.

Lemma filter_key_le1 {A : Type} (key : A -> Z) (k : Z) (l : list A) :
  NoDup (map key l) -> (List.length (filter (fun v => (key v =? k)%Z) l) <= 1)%nat.
Proof.
  induction l as [|x l IH]; cbn [map filter]; intro H; [cbn; lia|].
  inversion H as [|? ? Hn Hd]; subst.
  destruct (key x =? k) eqn:E; [|now apply IH].
  apply Z.eqb_eq in E. rewrite filter_none; [cbn; lia|].
  intros y Hy. apply Z.eqb_neq. intro Ey. apply Hn. rewrite E, <- Ey.
  now apply in_map.
Qed.

(** Two orders of the same rows give the same first hit when at most one
    row is hit. *)
Lemma hd_filter_perm {A : Type} (p : A -> bool) (l l' : list A) :
  Permutation l l' -> (List.length (filter p l) <= 1)%nat ->
  hd_error (filter p l) = hd_error (filter p l').
Proof.
  intros Hp Hl. pose proof (Permutation_filter p l l' Hp) as Hf.
  destruct (filter p l) as [|x [|y t]].
  - apply Permutation_nil in Hf. now rewrite Hf.
  - apply Permutation_length_1_inv in Hf. now rewrite Hf.
  - cbn in Hl. lia.
Qed.

Lemma hd_filter_map_hit {A : Type} (key : A -> Z) (k : Z) (f : A -> A) (l : list A) (x : A) :
  (forall v, key (f v) = key v) ->
  hd_error (filter (fun v => key v =? k) l) = Some x ->
  hd_error (filter (fun v => key v =? k)
              (map (fun v => if key v =? k then f v else v) l)) = Some (f x).
Proof.
  intros Hf. induction l as [|y l IH]; cbn [map filter]; [discriminate|].
  destruct (key y =? k) eqn:E.
  - rewrite Hf, E. cbn [hd_error]. now intros [= ->].
  - rewrite E. exact IH.
Qed.

Lemma hd_filter_In {A : Type} (p : A -> bool) (l : list A) (x : A) :
  hd_error (filter p l) = Some x -> In x l /\ p x = true.
Proof.
  intro H. apply filter_In.
  destruct (filter p l) as [|y t]; [discriminate|]. inversion H. now left.
Qed.

(** X23: the in-memory storage keeps messages as the database storage
    does. Take a store that holds every message under its own id, with the
    ids below the counter, and a table with the same messages, in whatever
    order, and the same next id. For a sender and a receiver that exist,
    as the foreign keys of the table demand, [createMessage] returns the
    same message from both; it, like [markMessagesAsRead], leaves the two
    with the same messages and the same next id again, in a store of the
    same kind. The unread counts read from the two agree, the
    conversations read from the two hold the same messages, and they are
    the same list when no two messages of the conversation were created at
    the same time. *)
Theorem X23_mem_messages_agree_with_the_database
    (mem : MemStorage.t) (db : DatabaseStorage.t) :
  MessageStoreKeyed mem -> sameMessages mem db ->
  (forall now d,
      MessageInsertable db d ->
      snd (MemStorage.createMessage mem now d) = snd (DatabaseStorage.createMessage db now d) /\
      sameMessages (fst (MemStorage.createMessage mem now d))
                   (fst (DatabaseStorage.createMessage db now d)) /\
      MessageStoreKeyed (fst (MemStorage.createMessage mem now d))) /\
  (forall r s,
      sameMessages (MemStorage.markMessagesAsRead mem r s)
                   (DatabaseStorage.markMessagesAsRead db r s) /\
      MessageStoreKeyed (MemStorage.markMessagesAsRead mem r s)) /\
  (forall u, MemStorage.getUnreadMessageCount mem u =
             DatabaseStorage.getUnreadMessageCount db u) /\
  (forall a b,
      Permutation (MemStorage.getMessages mem a b) (DatabaseStorage.getMessages db a b) /\
      (NoDup (map Message.createdAt (DatabaseStorage.getMessages db a b)) ->
       MemStorage.getMessages mem a b = DatabaseStorage.getMessages db a b)).
Proof.
  intros Hk [Hv Hc]. split; [|split; [|split]].
  - intros now d _. unfold MemStorage.createMessage, DatabaseStorage.createMessage.
    cbn [fst snd]. rewrite <- Hc.
    set (msg := Message.mk (MemStorage.messageIdCounter mem) _ _ _ false now).
    destruct (KeyedBy_snoc Message.id _ _ msg Hk eq_refl) as [Hk' Hv'].
    split; [reflexivity|]. split.
    + unfold sameMessages.
      cbn [MemStorage.messageStore MemStorage.setMessageStore
           MemStorage.messageIdCounter MemStorage.setMessageIdCounter
           DatabaseStorage.messages DatabaseStorage.messagesSeq
           DatabaseStorage.setMessages].
      rewrite Hv'. split; [|reflexivity]. now apply Permutation_app_tail.
    + exact Hk'.
  - intros r s. split.
    + unfold sameMessages. rewrite db_mark_as_map, (mem_mark_store mem r s Hk).
      split; [|exact Hc].
      unfold JsMap.values in *. rewrite map_map. cbn [snd].
      rewrite <- (map_map snd (markRow r s)). now apply Permutation_map.
    + unfold MessageStoreKeyed, KeyedBy. rewrite (mem_mark_store mem r s Hk).
      destruct Hk as [Hf Hd]. split.
      * apply Forall_map. eapply Forall_impl; [|exact Hf].
        intros e [H1 H2]. cbn [fst snd]. rewrite markRow_id. now split.
      * unfold JsMap.keys in *. rewrite map_map. cbn [fst]. exact Hd.
  - intro u. unfold MemStorage.getUnreadMessageCount, DatabaseStorage.getUnreadMessageCount.
    f_equal. apply Permutation_length.
    apply (Permutation_filter (MemStorage.unreadFor u)). exact Hv.
  - intros a b.
    assert (Hp : Permutation (MemStorage.getMessages mem a b)
                   (DatabaseStorage.getMessages db a b)).
    { unfold MemStorage.getMessages, DatabaseStorage.getMessages.
      rewrite (Array_sort_perm MemStorage.byOldest).
      rewrite (Array_sort_perm DatabaseStorage.byCreatedAt).
      apply (Permutation_filter (MemStorage.between a b)). exact Hv. }
    split; [exact Hp|]. intro Hnd. symmetry.
    apply (sorted_by_key_unique Message.createdAt).
    + exact Hnd.
    + now symmetry.
    + apply byOldest_sorted.
    + apply (byOldest_sorted
               (filter (MemStorage.between a b)
                  (JsMap.values (MemStorage.messageStore mem)))).
Qed.

Lemma withStatus_id (m : UserMatch.t) (status : string) (now : Z) :
  UserMatch.id (withStatus m status now) = UserMatch.id m.
Proof.
  reflexivity.
Qed.

Lemma mem_getUserMatch_rows (mem : MemStorage.t) (db : DatabaseStorage.t) (id : Z) :
  MatchStoreKeyed mem -> sameMatches mem db ->
  MemStorage.getUserMatch mem id = DatabaseStorage.getUserMatch db id.
Proof.
  intros Hk [Hv _]. unfold MemStorage.getUserMatch, DatabaseStorage.getUserMatch.
  rewrite (keyed_get UserMatch.id _ _ id Hk).
  apply hd_filter_perm; [exact Hv|].
  apply filter_key_le1. exact (keyed_ids_NoDup UserMatch.id _ _ Hk).
Qed.

(** [updateUserMatchStatus] on an id that is stored. *)
Lemma mem_update_agrees (mem : MemStorage.t) (db : DatabaseStorage.t)
    (now id : Z) (status : string) (m0 : UserMatch.t) :
  MatchStoreKeyed mem -> sameMatches mem db ->
  MemStorage.getUserMatch mem id = Some m0 ->
  exists mem' db',
    MemStorage.updateUserMatchStatus mem now id status =
      Returned (mem', withStatus m0 status now) /\
    DatabaseStorage.updateUserMatchStatus db now id status =
      (db', Some (withStatus m0 status now)) /\
    sameMatches mem' db' /\ MatchStoreKeyed mem'.
Proof.
  intros Hk Hs Hg. pose proof Hs as [Hv Hc].
  pose proof Hg as Hdb. rewrite (mem_getUserMatch_rows mem db id Hk Hs) in Hdb.
  unfold MemStorage.getUserMatch in Hg.
  destruct (keyed_set_existing UserMatch.id _ _ id m0
              (fun row => withStatus row status now)
              (fun v => withStatus_id v status now) Hk Hg) as [Hvals Hk'].
  exists (MemStorage.setUserMatchStore mem
            (JsMap.set Z.eqb (MemStorage.userMatchStore mem) id
               (withStatus m0 status now))).
  exists (DatabaseStorage.setUserMatches db
            (map (fun v => if UserMatch.id v =? id then withStatus v status now else v)
                 (DatabaseStorage.userMatches db))
            (DatabaseStorage.userMatchesSeq db)).
  split; [|split; [|split]].
  - unfold MemStorage.updateUserMatchStatus. rewrite Hg. reflexivity.
  - change (DatabaseStorage.updateUserMatchStatus db now id status)
      with (DatabaseStorage.setUserMatches db
              (map (fun v => if UserMatch.id v =? id then withStatus v status now else v)
                   (DatabaseStorage.userMatches db))
              (DatabaseStorage.userMatchesSeq db),
            hd_error
              (filter (fun m => UserMatch.id m =? id)
                 (map (fun v => if UserMatch.id v =? id then withStatus v status now else v)
                      (DatabaseStorage.userMatches db)))).
    f_equal.
    apply (hd_filter_map_hit UserMatch.id id (fun v => withStatus v status now));
      [intro v; apply withStatus_id|exact Hdb].
  - unfold sameMatches.
    cbn [MemStorage.userMatchStore MemStorage.setUserMatchStore
         MemStorage.userMatchIdCounter DatabaseStorage.userMatches
         DatabaseStorage.userMatchesSeq DatabaseStorage.setUserMatches].
    split; [|exact Hc]. rewrite Hvals. now apply Permutation_map.
  - exact Hk'.
Qed.

(** X24: the in-memory storage keeps user matches as the database storage
    does. Take a store that holds every match under its own id, with the
    ids below the counter, and a table with the same matches, in whatever
    order, and the same next id. The lookup by id gives the same row from
    both, and so does the lookup by pair when at most one row joins a
    pair. The listings for a user hold the same matches, and are the same
    list when no two of the listed matches were created at the same time.
    For a row the table accepts (sender and receiver exist, the score is
    within the range of the integer column) and at most one row per pair,
    [createUserMatch] returns the same match from both and leaves the two
    with the same matches and the same next id again, in a store of the
    same kind; so do [deleteUserMatch], for every id, and
    [updateUserMatchStatus], for an id that is stored. For an id that is
    not stored the two differ: the in-memory storage throws, the database
    storage returns nothing and changes no row. *)
Theorem X24_mem_matches_agree_with_the_database
    (mem : MemStorage.t) (db : DatabaseStorage.t) :
  MatchStoreKeyed mem -> sameMatches mem db ->
  (forall id, MemStorage.getUserMatch mem id = DatabaseStorage.getUserMatch db id) /\
  (PairUnique (DatabaseStorage.userMatches db) ->
   forall a b, MemStorage.getUserMatchByUsers mem a b =
               DatabaseStorage.getUserMatchByUsers db a b) /\
  (forall u status,
      Permutation (MemStorage.getUserMatches mem u status)
                  (DatabaseStorage.getUserMatches db u status) /\
      (NoDup (map UserMatch.createdAt (DatabaseStorage.getUserMatches db u status)) ->
       MemStorage.getUserMatches mem u status =
       DatabaseStorage.getUserMatches db u status)) /\
  (PairUnique (DatabaseStorage.userMatches db) ->
   forall now d,
     MatchInsertable db d ->
     exists mem' db' m,
       MemStorage.createUserMatch mem now d = Returned (mem', m) /\
       DatabaseStorage.createUserMatch db now d = (db', Some m) /\
       sameMatches mem' db' /\ MatchStoreKeyed mem') /\
  (forall now id status m0,
      DatabaseStorage.getUserMatch db id = Some m0 ->
      exists mem' db',
        MemStorage.updateUserMatchStatus mem now id status =
          Returned (mem', withStatus m0 status now) /\
        DatabaseStorage.updateUserMatchStatus db now id status =
          (db', Some (withStatus m0 status now)) /\
        sameMatches mem' db' /\ MatchStoreKeyed mem') /\
  (forall now id status,
      DatabaseStorage.getUserMatch db id = None ->
      MemStorage.updateUserMatchStatus mem now id status =
        Threw (Error ("User match with id " ++ numToString id ++ " not found")) /\
      snd (DatabaseStorage.updateUserMatchStatus db now id status) = None /\
      DatabaseStorage.userMatches
        (fst (DatabaseStorage.updateUserMatchStatus db now id status)) =
        DatabaseStorage.userMatches db) /\
  (forall id,
      snd (MemStorage.deleteUserMatch mem id) = snd (DatabaseStorage.deleteUserMatch db id) /\
      sameMatches (fst (MemStorage.deleteUserMatch mem id))
                  (fst (DatabaseStorage.deleteUserMatch db id)) /\
      MatchStoreKeyed (fst (MemStorage.deleteUserMatch mem id))).
Proof.
  intros Hk Hs. pose proof Hs as [Hv Hc].
  assert (Hget : forall id,
             MemStorage.getUserMatch mem id = DatabaseStorage.getUserMatch db id).
  { intro id. now apply mem_getUserMatch_rows. }
  assert (Hpair : PairUnique (DatabaseStorage.userMatches db) ->
                  forall a b, MemStorage.getUserMatchByUsers mem a b =
                              DatabaseStorage.getUserMatchByUsers db a b).
  { intros Hu a b.
    unfold MemStorage.getUserMatchByUsers, DatabaseStorage.getUserMatchByUsers.
    rewrite find_hd_filter. apply hd_filter_perm; [exact Hv|].
    rewrite (Permutation_length (Permutation_filter (joins a b) _ _ Hv)). apply Hu. }
  assert (Hlist : forall u status,
             Permutation (MemStorage.getUserMatches mem u status)
                         (DatabaseStorage.getUserMatches db u status)).
  { intros u status.
    assert (Hdb : DatabaseStorage.getUserMatches db u status =
                  Array_sort DatabaseStorage.byNewest
                    (filter (listedFor u status) (DatabaseStorage.userMatches db))).
    { unfold DatabaseStorage.getUserMatches, listedFor, MemStorage.statusFilter.
      destruct status as [s|]; [destruct (String.eqb s "")|];
        apply (f_equal (Array_sort DatabaseStorage.byNewest));
        apply filter_ext; intro m; cbn [orb]; try (symmetry; apply andb_true_r);
        reflexivity. }
    rewrite Hdb.
    change (MemStorage.getUserMatches mem u status)
      with (Array_sort DatabaseStorage.byNewest
              (filter (listedFor u status)
                 (JsMap.values (MemStorage.userMatchStore mem)))).
    rewrite !(Array_sort_perm DatabaseStorage.byNewest).
    now apply Permutation_filter. }
  split; [exact Hget|]. split; [exact Hpair|]. split; [|split; [|split; [|split]]].
  - intros u status. split; [apply Hlist|]. intro Hnd. symmetry.
    apply (sorted_by_key_unique (fun m => - UserMatch.createdAt m)).
    + now apply NoDup_map_opp.
    + symmetry. apply Hlist.
    + assert (Hsorted : StronglySorted
                          (fun x y => UserMatch.createdAt y <= UserMatch.createdAt x)
                          (DatabaseStorage.getUserMatches db u status)).
      { unfold DatabaseStorage.getUserMatches.
        destruct status as [s|]; [destruct (String.eqb s "")|]; apply byNewest_sorted. }
      eapply StronglySorted_weaken; [|exact Hsorted]. cbn beta. intros x y H. lia.
    + eapply StronglySorted_weaken;
        [|apply (byNewest_sorted
                   (filter (listedFor u status)
                      (JsMap.values (MemStorage.userMatchStore mem))))].
      cbn beta. intros x y H. lia.
  - intros Hu now d _.
    unfold MemStorage.createUserMatch, DatabaseStorage.createUserMatch.
    rewrite (Hpair Hu).
    destruct (DatabaseStorage.getUserMatchByUsers db (InsertUserMatch.senderId d)
                (InsertUserMatch.receiverId d)) as [existingMatch|] eqn:E.
    + assert (Hstay : exists mem' db' m,
                 Returned (mem, existingMatch) = Returned (mem', m) /\
                 (db, Some existingMatch) = (db', Some m) /\
                 sameMatches mem' db' /\ MatchStoreKeyed mem').
      { exists mem, db, existingMatch. auto. }
      destruct (String.eqb (UserMatch.status existingMatch) "pending"); [|exact Hstay].
      destruct ((UserMatch.senderId existingMatch =? InsertUserMatch.receiverId d) &&
                (UserMatch.receiverId existingMatch =? InsertUserMatch.senderId d))%bool;
        [|exact Hstay].
      assert (Hin : In existingMatch (DatabaseStorage.userMatches db)).
      { unfold DatabaseStorage.getUserMatchByUsers in E.
        now apply hd_filter_In in E. }
      destruct (MemStorage.getUserMatch mem (UserMatch.id existingMatch)) as [m0|] eqn:Eg.
      * destruct (mem_update_agrees mem db now (UserMatch.id existingMatch)
                    "accepted" m0 Hk Hs Eg) as [mem' [db' [H1 [H2 [H3 H4]]]]].
        exists mem', db', (withStatus m0 "accepted" now). auto.
      * exfalso. rewrite Hget in Eg. unfold DatabaseStorage.getUserMatch in Eg.
        apply hd_error_filter_none in Eg.
        pose proof (filter_nil_In (fun m => UserMatch.id m =? UserMatch.id existingMatch)
                      _ existingMatch Eg Hin) as Hf.
        cbn beta in Hf. now rewrite Z.eqb_refl in Hf.
    + rewrite <- Hc.
      set (row := UserMatch.mk (MemStorage.userMatchIdCounter mem) _ _ "pending" _ now now).
      destruct (KeyedBy_snoc UserMatch.id _ _ row Hk eq_refl) as [Hk' Hv'].
      eexists. eexists. exists row.
      split; [reflexivity|]. split; [reflexivity|]. split.
      * unfold sameMatches.
        cbn [MemStorage.userMatchStore MemStorage.setUserMatchStore
             MemStorage.userMatchIdCounter MemStorage.setUserMatchIdCounter
             DatabaseStorage.userMatches DatabaseStorage.userMatchesSeq
             DatabaseStorage.setUserMatches].
        rewrite Hv'. split; [|reflexivity]. now apply Permutation_app_tail.
      * exact Hk'.
  - intros now id status m0 Hg. rewrite <- Hget in Hg.
    now apply mem_update_agrees.
  - intros now id status Hg.
    unfold MemStorage.updateUserMatchStatus, DatabaseStorage.updateUserMatchStatus.
    pose proof Hg as Hm. rewrite <- Hget in Hm. unfold MemStorage.getUserMatch in Hm.
    rewrite Hm. split; [reflexivity|].
    unfold DatabaseStorage.getUserMatch in Hg. apply hd_error_filter_none in Hg.
    assert (Hsame : map (fun row =>
                       if UserMatch.id row =? id
                       then UserMatch.mk (UserMatch.id row) (UserMatch.senderId row)
                              (UserMatch.receiverId row) status
                              (UserMatch.matchScore row) (UserMatch.createdAt row) now
                       else row) (DatabaseStorage.userMatches db) =
                    DatabaseStorage.userMatches db).
    { rewrite <- (map_id (DatabaseStorage.userMatches db)) at 2.
      apply map_ext_in. intros row Hin.
      now rewrite (filter_nil_In (fun m => UserMatch.id m =? id) _ row Hg Hin). }
    cbn [fst snd DatabaseStorage.userMatches DatabaseStorage.setUserMatches].
    rewrite Hsame, Hg. split; reflexivity.
  - intro id. unfold MemStorage.deleteUserMatch, DatabaseStorage.deleteUserMatch.
    destruct (keyed_delete UserMatch.id _ _ id Hk) as [Hvals [Hb Hk']].
    destruct (JsMap.delete Z.eqb (MemStorage.userMatchStore mem) id) as [m b].
    cbn [fst snd] in *. split; [|split; [|exact Hk']].
    + rewrite Hb. f_equal. apply Permutation_length.
      now apply (Permutation_filter (fun v => UserMatch.id v =? id)).
    + unfold sameMatches.
      cbn [MemStorage.userMatchStore MemStorage.setUserMatchStore
           MemStorage.userMatchIdCounter DatabaseStorage.userMatches
           DatabaseStorage.userMatchesSeq DatabaseStorage.setUserMatches].
      rewrite Hvals. split; [|exact Hc]. now apply Permutation_filter.
Qed.

(** ** Listing saved gyms *)

Lemma byLatestSaved_sorted (l : list SavedGym.t) :
  StronglySorted (fun x y => SavedGym.savedAt y <= SavedGym.savedAt x)
    (Array_sort DatabaseStorage.byLatestSaved l).
Proof.
  apply StronglySorted_weaken with (R := fun x y => DatabaseStorage.byLatestSaved x y <= 0).
  - unfold DatabaseStorage.byLatestSaved. intros x y. lia.
  - apply Array_sort_sorted; unfold DatabaseStorage.byLatestSaved; intros; lia.
Qed.

(** X25: [getSavedGymsByUser] lists the rows of that user and no others,
    latest save first, and it agrees with [getSavedGym]: the row that
    [getSavedGym] finds for the user and a gym is in the list, and when it
    finds none the list has no row for that gym. *)
Theorem X25_saved_list_is_the_users_latest_first (st : DatabaseStorage.t) (u : Z) :
  StronglySorted (fun x y => SavedGym.savedAt y <= SavedGym.savedAt x)
    (DatabaseStorage.getSavedGymsByUser st u) /\
  (forall s, In s (DatabaseStorage.getSavedGymsByUser st u) <->
             In s (DatabaseStorage.savedGyms st) /\ SavedGym.userId s = u) /\
  (forall g e, DatabaseStorage.getSavedGym st u g = Some e ->
               In e (DatabaseStorage.getSavedGymsByUser st u) /\ SavedGym.gymId e = g) /\
  (forall g, DatabaseStorage.getSavedGym st u g = None ->
             forall s, In s (DatabaseStorage.getSavedGymsByUser st u) ->
                       SavedGym.gymId s <> g).
Proof.
  assert (Hin : forall s, In s (DatabaseStorage.getSavedGymsByUser st u) <->
                          In s (DatabaseStorage.savedGyms st) /\ SavedGym.userId s = u).
  { intro s. unfold DatabaseStorage.getSavedGymsByUser.
    now rewrite Array_sort_In, filter_In, Z.eqb_eq. }
  split; [apply byLatestSaved_sorted|]. split; [exact Hin|]. split.
  - intros g e He. unfold DatabaseStorage.getSavedGym in He.
    destruct (filter _ (DatabaseStorage.savedGyms st)) as [|x l] eqn:Ef; [discriminate|].
    inversion He; subst x.
    assert (Hx : In e (e :: l)) by now left.
    rewrite <- Ef in Hx. apply filter_In in Hx as [Hx Hb].
    apply andb_true_iff in Hb as [Hu Hg]. apply Z.eqb_eq in Hu, Hg.
    split; [|exact Hg]. apply Hin. now split.
  - intros g Hn s Hs Hg. apply Hin in Hs as [Hs Hu].
    unfold DatabaseStorage.getSavedGym in Hn. apply hd_error_filter_none in Hn.
    pose proof (filter_nil_In
                  (fun s => ((SavedGym.userId s =? u) && (SavedGym.gymId s =? g))%bool)
                  _ s Hn Hs) as Hf.
    cbn beta in Hf. rewrite Hu, Hg, !Z.eqb_refl in Hf. discriminate.
Qed.

(** ** Deleting a user from the in-memory storage *)

Lemma delete_flag {K V : Type} (eqb : K -> K -> bool) (m : JsMap.t K V) (k : K) :
  snd (JsMap.delete eqb m k) = true <-> JsMap.get eqb m k <> None.
Proof.
  induction m as [|[k0 v0] m IH]; cbn [JsMap.delete JsMap.get].
  - cbn [snd]. split; [discriminate|congruence].
  - destruct (eqb k0 k).
    + cbn [snd]. split; [discriminate|reflexivity].
    + destruct (JsMap.delete eqb m k) as [r b]. cbn [snd] in *. exact IH.
Qed.

(** X26: [MemStorage.deleteUser] reports whether the user was stored and
    removes that user only: afterwards the id is unknown and every other
    user is as before. Unlike [DatabaseStorage.deleteUser] it leaves the
    user's matches, messages and saved gyms in their stores. *)
Theorem X26_mem_delete_user_removes_the_user_only (st : MemStorage.t) (id : Z) :
  NoDup (JsMap.keys (MemStorage.userStore st)) ->
  let st' := fst (MemStorage.deleteUser st id) in
  (snd (MemStorage.deleteUser st id) = true <-> MemStorage.getUser st id <> None) /\
  MemStorage.getUser st' id = None /\
  (forall id', id' <> id -> MemStorage.getUser st' id' = MemStorage.getUser st id') /\
  MemStorage.userMatchStore st' = MemStorage.userMatchStore st /\
  MemStorage.messageStore st' = MemStorage.messageStore st /\
  MemStorage.savedGymStore st' = MemStorage.savedGymStore st.
Proof.
  intro Hd. cbv zeta. unfold MemStorage.deleteUser, MemStorage.getUser.
  pose proof (delete_flag Z.eqb (MemStorage.userStore st) id) as Hflag.
  pose proof (get_delete_this Z.eqb Z.eqb_eq (MemStorage.userStore st) id Hd) as Hthis.
  pose proof (fun id' => get_delete_other Z.eqb Z.eqb_eq (MemStorage.userStore st) id id')
    as Hother.
  destruct (JsMap.delete Z.eqb (MemStorage.userStore st) id) as [m b].
  cbn [fst snd MemStorage.userStore MemStorage.setUserStore MemStorage.userMatchStore
       MemStorage.messageStore MemStorage.savedGymStore] in *.
  split; [exact Hflag|]. split; [exact Hthis|]. split; [exact Hother|]. auto.
Qed.

(** * Instances of the further properties *)

Lemma X1_ranking_is_sorted_and_complete_witness :
  exists l,
    DatabaseStorage.getMatchesForUser (fun _ => (1 # 2)%Q) 0
      (Sample.dbOf Sample.zumbaUser) 1 = Returned l /\
    StronglySorted (fun a b => GymMatch.matchScore b <= GymMatch.matchScore a) l /\
    Permutation (map GymMatch.gym l) [Sample.saunaGym].
Proof.
  exists [GymMatch.mk Sample.saunaGym 82].
  destruct (X1_ranking_is_sorted_and_complete
              (Sample.memOf Sample.zumbaUser) (Sample.dbOf Sample.zumbaUser) 1
              (fun _ => (1 # 2)%Q) 0 [GymMatch.mk Sample.saunaGym 82])
    as [_ [_ [_ [Hs [Hp _]]]]].
  - reflexivity.
  - split; [reflexivity|]. split; [exact Hs|].
    apply Hp. vm_compute. discriminate.
Defined.

Lemma X2_gym_without_amenities_scores_70_witness :
  MemStorage.score Sample.zumbaUser Sample.bareGym = 70.
Proof.
  apply (X2_gym_without_amenities_scores_70 Sample.zumbaUser Sample.bareGym).
  left. reflexivity.
Defined.

Lemma X4_matching_ignores_case_witness :
  MemStorage.score Sample.zumbaUser Sample.saunaGym =
    MemStorage.score Sample.zumbaUserUpper Sample.saunaGymUpper /\
  MemStorage.score (lowerUser Sample.zumbaUser) (lowerGym Sample.saunaGym) =
    MemStorage.score Sample.zumbaUser Sample.saunaGym.
Proof.
  apply (X4_matching_ignores_case Sample.zumbaUser Sample.zumbaUserUpper
           Sample.saunaGym Sample.saunaGymUpper).
  - reflexivity.
  - reflexivity.
  - reflexivity.
  - reflexivity.
  - reflexivity.
  - reflexivity.
  - reflexivity.
Defined.



Lemma X7_settled_match_survives_requests_witness :
  filter (joins 1 2)
    (DatabaseStorage.userMatches
       (afterRequests Sample.matchedDb
          [mkMatchRequest 100 (Some 2) (Some (InsertUserMatch.mk 2 1 None))])) =
    [Sample.annAndBob] /\
  MatchIdsFresh
    (afterRequests Sample.matchedDb
       [mkMatchRequest 100 (Some 2) (Some (InsertUserMatch.mk 2 1 None))]).
Proof.
  apply (X7_settled_match_survives_requests Sample.matchedDb 1 2 Sample.annAndBob
           [mkMatchRequest 100 (Some 2) (Some (InsertUserMatch.mk 2 1 None))]).
  - split.
    + intros m [<-|[]]. reflexivity.
    + simpl. constructor; [intros []|constructor].
  - reflexivity.
  - simpl. discriminate.
Defined.

Lemma X8_receiver_sets_the_status_witness :
  exists st',
    Routes.respondToMatch Sample.pendingDb 100 1 (UserMatch.receiverId Sample.bobToAnn)
      "accepted" =
      (st', Routes.mkResponse 200
              (Routes.JsonUserMatch (Some (withStatus Sample.bobToAnn "accepted" 100)))) /\
    DatabaseStorage.getUserMatch st' 1 = Some (withStatus Sample.bobToAnn "accepted" 100) /\
    (forall id', id' <> 1 ->
                 DatabaseStorage.getUserMatch st' id' =
                 DatabaseStorage.getUserMatch Sample.pendingDb id') /\
    List.length (DatabaseStorage.userMatches st') =
    List.length (DatabaseStorage.userMatches Sample.pendingDb).
Proof.
  apply (X8_receiver_sets_the_status Sample.pendingDb 100 1 Sample.bobToAnn "accepted").
  - reflexivity.
  - left. reflexivity.
Defined.

Lemma X9_rejection_closes_the_channel_witness :
  let st' := fst (Routes.respondToMatch Sample.pendingDb 100
                    (UserMatch.id Sample.bobToAnn)
                    (UserMatch.receiverId Sample.bobToAnn) "rejected") in
  fst (Routes.sendMessage st' 200 1 2 "hi") = st' /\
  fst (Routes.sendMessage st' 200 2 1 "hi") = st' /\
  (Routes.status (snd (Routes.sendMessage st' 200 1 2 "hi")) = 403 \/
   Routes.status (snd (Routes.sendMessage st' 200 1 2 "hi")) = 404) /\
  (Routes.status (snd (Routes.sendMessage st' 200 2 1 "hi")) = 403 \/
   Routes.status (snd (Routes.sendMessage st' 200 2 1 "hi")) = 404).
Proof.
  apply (X9_rejection_closes_the_channel Sample.pendingDb 100 200 1 2
           Sample.bobToAnn "hi").
  - reflexivity.
  - reflexivity.
Defined.

Lemma X10_participants_delete_their_match_witness :
  exists st',
    Routes.deleteUserMatch Sample.matchedDb (Some 2) 1 =
      (st', Routes.mkResponse 204 Routes.NoContent) /\
    DatabaseStorage.getUserMatch st' 1 = None /\
    (forall id', id' <> 1 ->
                 DatabaseStorage.getUserMatch st' id' =
                 DatabaseStorage.getUserMatch Sample.matchedDb id').
Proof.
  destruct (X10_participants_delete_their_match Sample.matchedDb 1 2 Sample.annAndBob)
    as [H _].
  - reflexivity.
  - apply H. right. reflexivity.
Defined.

Lemma X11_listed_matches_are_the_users_newest_first_witness :
  Permutation (DatabaseStorage.getUserMatches Sample.chatDb 1 (Some "accepted"))
    (filter (listedFor 1 (Some "accepted")) (DatabaseStorage.userMatches Sample.chatDb)) /\
  [Sample.annAndBob] = MemStorage.getUserMatches Sample.chatMem 1 (Some "accepted").
Proof.
  destruct (X11_listed_matches_are_the_users_newest_first Sample.chatDb Sample.chatMem 1
              (Some "accepted")) as [_ [Hp [_ Hl]]].
  - apply Permutation_refl.
  - split; [exact Hp|]. apply Hl.
    + apply Permutation_refl.
    + repeat constructor.
    + repeat constructor. intros [].
Defined.

Lemma X12_conversation_is_the_pairs_oldest_first_witness :
  [Sample.hello] = MemStorage.getMessages Sample.chatMem 1 2 /\
  [Sample.hello] = MemStorage.getMessages Sample.chatMem 2 1.
Proof.
  destruct (X12_conversation_is_the_pairs_oldest_first Sample.chatDb Sample.chatMem 1 2)
    as [_ [_ [_ [_ Hl]]]].
  - apply Permutation_refl.
  - apply Hl.
    + apply Permutation_refl.
    + repeat constructor.
    + repeat constructor. intros [].
Defined.

Lemma X14_unread_counts_follow_the_handlers_witness :
  exists st2,
    Routes.getConversation Sample.chatDb 2 1 =
      (st2, Routes.mkResponse 200
              (Routes.JsonMessages (DatabaseStorage.getMessages Sample.chatDb 2 1))) /\
    Routes.unreadCount st2 2 =
      Routes.unreadCount Sample.chatDb 2 -
      Z.of_nat (List.length (filter (unreadFromTo 2 1)
                               (DatabaseStorage.messages Sample.chatDb))) /\
    (forall u, u <> 2 -> Routes.unreadCount st2 u = Routes.unreadCount Sample.chatDb u).
Proof.
  destruct (X14_unread_counts_follow_the_handlers Sample.chatDb 40 1 2 "hi"
              Sample.annAndBob) as [_ H].
  - vm_compute. discriminate.
  - vm_compute. discriminate.
  - reflexivity.
  - reflexivity.
  - exact H.
Defined.

Lemma X15_message_ids_stay_unique_witness :
  MessageIdsFresh
    (fst (Routes.postMessages Sample.chatDb 40 (Some 2)
            (Some (InsertMessage.mk 2 1 "hi")))) /\
  MessageIdsFresh (fst (Routes.getMessagesWith Sample.chatDb (Some 2) 1)) /\
  MessageIdsFresh
    (fst (Gateway.onMessage Sample.chatDb Sample.bobOnline Sample.allOpen 40 7 2
            (Gateway.SendMessage (Some 2) (Some 1) (Some "hi")))) /\
  (forall d m, In m (DatabaseStorage.messages Sample.chatDb) ->
               Message.id (snd (DatabaseStorage.createMessage Sample.chatDb 40 d)) <>
               Message.id m).
Proof.
  apply (X15_message_ids_stay_unique Sample.chatDb 40 (Some 2)
           (Some (InsertMessage.mk 2 1 "hi")) 1 Sample.bobOnline Sample.allOpen 7 2
           (Gateway.SendMessage (Some 2) (Some 1) (Some "hi"))).
  split.
  - intros m [<-|[]]. reflexivity.
  - simpl. constructor; [intros []|constructor].
Defined.


Lemma X18_admin_delete_cascades_witness :
  exists st',
    Routes.deleteAdminUser Sample.adminDb DatabaseStorage.Direct (Some Sample.root) 1 =
      (st', Routes.mkResponse 200 (Routes.JsonMessageText "User deleted successfully")) /\
    Routes.deleteAdminUser Sample.adminDb (DatabaseStorage.Fallback None)
      (Some Sample.root) 1 =
      (st', Routes.mkResponse 200 (Routes.JsonMessageText "User deleted successfully")) /\
    DatabaseStorage.getUser st' 1 = None /\
    (forall id', id' <> 1 ->
                 DatabaseStorage.getUser st' id' = DatabaseStorage.getUser Sample.adminDb id') /\
    (forall s, In s (DatabaseStorage.savedGyms st') <->
               In s (DatabaseStorage.savedGyms Sample.adminDb) /\ SavedGym.userId s <> 1) /\
    (forall m, In m (DatabaseStorage.userMatches st') <->
               In m (DatabaseStorage.userMatches Sample.adminDb) /\
               UserMatch.senderId m <> 1 /\ UserMatch.receiverId m <> 1) /\
    (forall m, In m (DatabaseStorage.messages st') <->
               In m (DatabaseStorage.messages Sample.adminDb) /\
               Message.senderId m <> 1 /\ Message.receiverId m <> 1) /\
    DatabaseStorage.gyms st' = DatabaseStorage.gyms Sample.adminDb.
Proof.
  destruct (X18_admin_delete_cascades Sample.adminDb Sample.root 1 Sample.ann)
    as [H _].
  - reflexivity.
  - reflexivity.
  - apply H. reflexivity.
Defined.

Lemma X20_gateway_delivers_like_the_api_witness :
  exists st1 msg,
    Gateway.onMessage Sample.matchedDb Sample.bobOnline Sample.allOpen 30 5 1
      (Gateway.SendMessage (Some 1) (Some 2) (Some "hi")) =
      (st1, (5, Gateway.MessageSent msg) ::
            Gateway.forward Sample.bobOnline Sample.allOpen 2 msg) /\
    In msg (DatabaseStorage.messages st1) /\
    Gateway.forward Sample.bobOnline Sample.allOpen 2 msg = [(7, Gateway.NewMessage msg)] /\
    Routes.sendMessage Sample.matchedDb 30 1 2 "hi" =
      (st1, Routes.mkResponse 201 (Routes.JsonNewMessage msg)).
Proof.
  destruct (X20_gateway_delivers_like_the_api Sample.matchedDb Sample.bobOnline
              Sample.allOpen 30 5 1 2 "hi" Sample.annAndBob)
    as [st1 [msg [H1 [H2 [H3 [_ [_ H6]]]]]]].
  - lia.
  - lia.
  - discriminate.
  - reflexivity.
  - reflexivity.
  - exists st1, msg. split; [exact H1|]. split; [exact H2|]. split.
    + apply (H3 7); reflexivity.
    + apply H6. vm_compute. discriminate.
Defined.

Lemma X21_reconnecting_replaces_and_closing_unregisters_witness :
  let c1 := fst (Gateway.onConnection Sample.bobOnline 5 (Some 1)) in
  let c2 := fst (Gateway.onConnection c1 6 (Some 1)) in
  let c3 := Gateway.onClose c2 1 in
  JsMap.get Z.eqb c2 1 = Some 6 /\
  JsMap.get Z.eqb c3 1 = None /\
  JsMap.get Z.eqb c3 2 = JsMap.get Z.eqb Sample.bobOnline 2.
Proof.
  destruct (X21_reconnecting_replaces_and_closing_unregisters Sample.bobOnline 5 6 1)
    as [_ [_ [H2 [_ [_ [H3 [_ H4]]]]]]].
  - simpl. constructor; [intros []|constructor].
  - lia.
  - split; [exact H2|]. split; [exact H3|]. apply H4. lia.
Defined.

Lemma X22_db_boost_needs_a_listed_goal_witness :
  DatabaseStorage.score (1 # 2) Sample.muscleUser Sample.weightsGym = Returned 84 /\
  DatabaseStorage.baseScore (1 # 2) <= 84 <=
    Z.min 100 (DatabaseStorage.baseScore (1 # 2) +
               6 * Z.of_nat (List.length
                               (filter listedGoal ["Build Muscle"; "build muscle"]))).
Proof.
  destruct (X22_db_boost_needs_a_listed_goal (1 # 2) Sample.muscleUser Sample.weightsGym
              ["Build Muscle"; "build muscle"] 84) as [H _].
  - vm_compute. discriminate.
  - reflexivity.
  - reflexivity.
  - reflexivity.
  - split; [reflexivity|exact H].
Defined.

Lemma X23_mem_messages_agree_with_the_database_witness :
  snd (MemStorage.createMessage Sample.chatMem 50 (InsertMessage.mk 2 1 "hi")) =
    snd (DatabaseStorage.createMessage Sample.chatDb 50 (InsertMessage.mk 2 1 "hi")) /\
  sameMessages (fst (MemStorage.createMessage Sample.chatMem 50 (InsertMessage.mk 2 1 "hi")))
    (fst (DatabaseStorage.createMessage Sample.chatDb 50 (InsertMessage.mk 2 1 "hi"))) /\
  MemStorage.getMessages Sample.chatMem 1 2 = DatabaseStorage.getMessages Sample.chatDb 1 2.
Proof.
  destruct (X23_mem_messages_agree_with_the_database Sample.chatMem Sample.chatDb)
    as [Hc [_ [_ Hl]]].
  - split.
    + constructor; [|constructor]. simpl. split; [reflexivity|lia].
    + simpl. constructor; [intros []|constructor].
  - split; [apply Permutation_refl|reflexivity].
  - destruct (Hc 50 (InsertMessage.mk 2 1 "hi")) as [H1 [H2 _]].
    + split; vm_compute; discriminate.
    + split; [exact H1|]. split; [exact H2|].
      apply Hl. vm_compute. constructor; [intros []|constructor].
Defined.

Lemma X24_mem_matches_agree_with_the_database_witness :
  exists mem' db' m,
    MemStorage.createUserMatch Sample.chatMem 50 (InsertUserMatch.mk 2 3 (Some 80)) =
      Returned (mem', m) /\
    DatabaseStorage.createUserMatch Sample.adminDb 50 (InsertUserMatch.mk 2 3 (Some 80)) =
      (db', Some m) /\
    sameMatches mem' db' /\ MatchStoreKeyed mem'.
Proof.
  destruct (X24_mem_matches_agree_with_the_database Sample.chatMem Sample.adminDb)
    as [_ [_ [_ [H _]]]].
  - split.
    + constructor; [|constructor]. simpl. split; [reflexivity|lia].
    + simpl. constructor; [intros []|constructor].
  - split; [apply Permutation_refl|reflexivity].
  - apply H.
    + intros a b. simpl. destruct (joins a b Sample.annAndBob); simpl; lia.
    + split; [|split]; vm_compute; try discriminate. reflexivity.
Defined.

Lemma X26_mem_delete_user_removes_the_user_only_witness :
  let st' := fst (MemStorage.deleteUser Sample.chatMem 1) in
  (snd (MemStorage.deleteUser Sample.chatMem 1) = true <->
   MemStorage.getUser Sample.chatMem 1 <> None) /\
  MemStorage.getUser st' 1 = None /\
  (forall id', id' <> 1 -> MemStorage.getUser st' id' = MemStorage.getUser Sample.chatMem id') /\
  MemStorage.userMatchStore st' = MemStorage.userMatchStore Sample.chatMem /\
  MemStorage.messageStore st' = MemStorage.messageStore Sample.chatMem /\
  MemStorage.savedGymStore st' = MemStorage.savedGymStore Sample.chatMem.
Proof.
  apply (X26_mem_delete_user_removes_the_user_only Sample.chatMem 1).
  simpl. constructor; [intros [H|[]]; discriminate|].
  constructor; [intros []|constructor].
Defined.
